(** * Alfred, the Bengaluru restaurant assistant: a verified model of [brain.py]

    The development embeds the dialogue orchestrator of [brain.py]
    ([process_state] and [main]), its extraction services
    ([detect_intent], [extract_search_params], [parse_date_time],
    [parse_party_size], [detect_intent_with_context]), the search engine
    ([find_restaurants]) and the reservation transaction ([add_reservation]).

    The global mutable objects of the program ([st.session_state], the
    in-memory [restaurants] list and the JSON file behind [save_database]) are
    the fields of a [world] that a state-and-exception monad threads through
    the code.  An uncaught Python exception ends the run and leaves the world
    as it was when it was raised, which is what Streamlit does with the
    session.

    The language model behind [get_llm_response] and the Python library
    functions the program calls ([json.loads], [datetime.strptime],
    [strftime], [int], [str], [str.lower], [str.strip]) are parameters: every
    general theorem holds whatever they answer.  The model is total: a
    transport error of the model or an I/O error of the catalog file is not
    part of this development.  A concrete runtime ([cpython]) and a scripted
    model ([scripted]) are used to run the program on examples.

    The first part of the file holds the definitions, the second part the
    theorems. *)

From Stdlib Require Import ZArith QArith List String Ascii Bool Lia.
From Stdlib Require Import Permutation Sorted.
Import ListNotations.

Set Warnings "-register-all".

Local Open Scope list_scope.
Local Open Scope string_scope.
Local Open Scope Z_scope.

(** ** Conversation states: [class State] *)

Inductive State : Type :=
| GREETING | INTENT_DETECTION | FIND_RESTAURANT | RESTAURANT_SUGGESTION
| RESTAURANT_DETAILS | MAKE_RESERVATION | DATA_COLLECTION | NAME_PROMPT
| NAME_RECEIVED | DATETIME_PROMPT | DATETIME_RECEIVED | PARTY_PROMPT
| PARTY_RECEIVED | CONFIRM_RESERVATION | RESERVATION_CONFIRMED | DATABASE_PUSH
| RESERVATION_SUCCESS | ERROR_HANDLING | RESERVATION_RETRY | SUPPORT
| THANK_YOU | NORMAL_CONVERSATION.

Definition State_eq_dec (a b : State) : {a = b} + {a <> b}.
Proof. decide equality. Defined.

Definition State_eqb (a b : State) : bool :=
  if State_eq_dec a b then true else false.

(** ** Python values that reach the program through [json.loads] *)

(** A Python [float]: a finite double is the rational it denotes. *)
Inductive pyfloat : Type :=
| FFinite (q : Q)
| FInf (negative : bool)
| FNaN.

Inductive json : Type :=
| JNull
| JBool (b : bool)
| JInt (z : Z)
| JFloat (f : pyfloat)
| JStr (s : string)
| JArr (items : list json)
| JObj (members : list (string * json)).

(** A decoded JSON object, a Python [dict] with string keys. *)
Definition dict : Type := list (string * json).

(** [d.get(key)]: the value, [None] (here [JNull]) when the key is missing. *)
Fixpoint dict_get (d : dict) (key : string) : json :=
  match d with
  | [] => JNull
  | (k, v) :: d' => if String.eqb k key then v else dict_get d' key
  end.

(** Truth value of an object in a condition ([if x:], [x and y], [not x]). *)
Definition truthy (v : json) : bool :=
  match v with
  | JNull => false
  | JBool b => b
  | JInt z => negb (z =? 0)
  | JFloat (FFinite q) => negb (Qeq_bool q 0)
  | JFloat _ => true
  | JStr s => negb (String.eqb s "")
  | JArr l => match l with [] => false | _ => true end
  | JObj m => match m with [] => false | _ => true end
  end.

(** [v != "null"] *)
Definition is_not_null_text (v : json) : bool :=
  match v with
  | JStr s => negb (String.eqb s "null")
  | _ => true
  end.

(** [n == v] for an [int] [n]: Python compares numbers by value, and [True]
    and [False] are the integers 1 and 0. *)
Definition py_eq_int (n : Z) (v : json) : bool :=
  match v with
  | JInt z => n =? z
  | JBool b => n =? (if b then 1 else 0)
  | JFloat (FFinite q) => Qeq_bool (inject_Z n) q
  | _ => false
  end.

(** ** Strings *)

(** [needle in hay] *)
Fixpoint contains (needle hay : string) : bool :=
  String.prefix needle hay
  || match hay with
     | EmptyString => false
     | String _ rest => contains needle rest
     end.

(** [re.search(r'\{.*\}', text, re.DOTALL)]: the text from the first opening
    brace to the last closing brace after it, if there is one. *)
Fixpoint from_first_brace (s : string) : option string :=
  match s with
  | EmptyString => None
  | String c rest =>
      if Ascii.eqb c "{" then Some s else from_first_brace rest
  end.

(** The longest prefix of [s] that ends in a closing brace. *)
Fixpoint upto_last_brace (s : string) : option string :=
  match s with
  | EmptyString => None
  | String c rest =>
      match upto_last_brace rest with
      | Some p => Some (String c p)
      | None => if Ascii.eqb c "}" then Some (String c EmptyString) else None
      end
  end.

Definition search_json_object (text : string) : option string :=
  match from_first_brace text with
  | Some s => upto_last_brace s
  | None => None
  end.

(** ** Calendar: the part of Python's [datetime] the program uses *)

Definition is_leap (y : Z) : bool :=
  (y mod 4 =? 0) && (negb (y mod 100 =? 0) || (y mod 400 =? 0)).

Definition days_in_month (y m : Z) : Z :=
  match m with
  | 1 => 31 | 2 => if is_leap y then 29 else 28 | 3 => 31 | 4 => 30
  | 5 => 31 | 6 => 30 | 7 => 31 | 8 => 31 | 9 => 30 | 10 => 31 | 11 => 30
  | 12 => 31 | _ => 0
  end.

(** What the [datetime] constructor accepts (it raises [ValueError]
    otherwise). *)
Definition valid_datetime (y m d hh mm : Z) : bool :=
  (1 <=? y) && (y <=? 9999) && (1 <=? m) && (m <=? 12)
  && (1 <=? d) && (d <=? days_in_month y m)
  && (0 <=? hh) && (hh <=? 23) && (0 <=? mm) && (mm <=? 59).

(** A [datetime.datetime] object; seconds and microseconds are always zero
    for the format the program parses. *)
Record datetime : Type := mk_datetime {
  dt_year : Z;
  dt_month : Z;
  dt_day : Z;
  dt_hour : Z;
  dt_minute : Z;
  dt_valid : valid_datetime dt_year dt_month dt_day dt_hour dt_minute = true
}.

(** Days before January 1st of year [y] (CPython's [_days_before_year]). *)
Definition days_before_year (y : Z) : Z :=
  let p := y - 1 in p * 365 + p / 4 - p / 100 + p / 400.

(** Days in year [y] before the first of month [m]
    (CPython's [_days_before_month]). *)
Definition days_before_month (y m : Z) : Z :=
  match m with
  | 1 => 0 | 2 => 31 | 3 => 59 | 4 => 90 | 5 => 120 | 6 => 151 | 7 => 181
  | 8 => 212 | 9 => 243 | 10 => 273 | 11 => 304 | 12 => 334 | _ => 0
  end + (if (2 <? m) && is_leap y then 1 else 0).

(** [date.toordinal()]: January 1st of year 1 is day 1. *)
Definition toordinal (y m d : Z) : Z :=
  days_before_year y + days_before_month y m + d.

(** [dt.weekday()]: 0 is Monday, 6 is Sunday. *)
Definition weekday_of_date (y m d : Z) : Z := (toordinal y m d + 6) mod 7.

Definition weekday (dt : datetime) : Z :=
  weekday_of_date (dt_year dt) (dt_month dt) (dt_day dt).

(** Zeller's congruence for the Gregorian calendar, the textbook
    weekday-from-date formula: January and February count as months 13 and 14
    of the previous year; the result 0 is Saturday, 1 Sunday, 2 Monday. *)
Definition zeller (y m d : Z) : Z :=
  let y' := if m <? 3 then y - 1 else y in
  let m' := if m <? 3 then m + 12 else m in
  let k := y' mod 100 in
  let j := y' / 100 in
  (d + (13 * (m' + 1)) / 5 + k + k / 4 + j / 4 + 5 * j) mod 7.

(** Zeller's day number turned into Python's numbering (0 is Monday). *)
Definition zeller_weekday (y m d : Z) : Z := (zeller y m d + 5) mod 7.

(** ** The restaurant catalog *)

Record reservation : Type := mk_reservation {
  res_id : Z;
  res_name : option string;
  res_datetime : string;
  res_party_size : option Z;
  res_status : string
}.

(** The keys of a restaurant record of [restaurants_db.json], prefixed
    with [r_]. *)
Record restaurant : Type := mk_restaurant {
  r_id : Z;
  r_name : string;
  r_cuisine : string;
  r_location : string;
  r_price_range : string;
  r_rating : Q;
  r_seating_arrangements : list string;
  r_capacity : Z;
  r_opening_hours : string * string;
  r_specialties : list string;
  r_address : string;
  r_contact : string;
  r_reservations : list reservation
}.

(** [restaurant['reservations'].append(reservation)] replaces the list of
    the record and leaves its other keys alone. *)
Definition with_reservations (r : restaurant) (l : list reservation)
  : restaurant :=
  mk_restaurant (r_id r) (r_name r) (r_cuisine r) (r_location r)
    (r_price_range r) (r_rating r) (r_seating_arrangements r) (r_capacity r)
    (r_opening_hours r) (r_specialties r) (r_address r) (r_contact r) l.

Definition catalog : Type := list restaurant.

(** ** The runtime: Python library functions the program calls *)

Record runtime : Type := mk_runtime {
  (** [json.loads] on a text that starts with an opening brace: the decoded
      object, [None] when it raises. *)
  json_loads : string -> option dict;
  (** [datetime.datetime.strptime(text, "%Y-%m-%d %H:%M")], [None] when it
      raises [ValueError]. *)
  strptime : string -> option datetime;
  (** [dt.strftime(format)]; the day and month names depend on the locale. *)
  strftime : string -> datetime -> string;
  (** [int(text)] on a string, [None] when it raises [ValueError]. *)
  int_of_str : string -> option Z;
  (** [str(v)] for a decoded value that is not a string. *)
  str_of : json -> string;
  (** [text.lower()] and [text.strip()] *)
  lower : string -> string;
  strip : string -> string;
  (** Number of nested [process_state] frames the interpreter allows before
      it raises [RecursionError]. *)
  recursion_limit : nat
}.

(** ** The language model *)

(** What [get_llm_response] is asked, one constructor per caller; the
    arguments are the data the prompt is built from. *)
Inductive llm_request : Type :=
| AskIntent (user_input : string)
| AskSearchParams (user_input : string)
| AskSuggestions (found all_restaurants : catalog)
| AskDetails (found : option restaurant) (all_restaurants : catalog)
| AskDateTime (user_input : string)
| AskPartySize (user_input : string)
| AskConversation (user_input : string) (history : list (string * string))
    (all_restaurants : catalog)
| AskIntentWithContext (user_input : string)
    (recent_suggestions : list string) (last_message : string)
    (all_restaurants : catalog).

(** What a run leaves behind: the questions put to the model, the catalogs
    written by [save_database], and the state each pass of [process_state]
    started in. *)
Inductive event : Type :=
| Asked (req : llm_request)
| Saved (restaurants : catalog)
| Dispatched (current_state : State).

(** The model answers a request knowing everything that happened before: it
    need not answer the same question twice the same way.  A deterministic
    stub ignores the history. *)
Definition oracle : Type := list event -> llm_request -> string.

(** ** The session: [st.session_state] *)

Inductive role : Type := User | Assistant.

Record reservation_info_t : Type := mk_reservation_info {
  ri_name : option string;
  ri_datetime : option datetime;
  ri_party_size : option Z
}.

Record session_state : Type := mk_session {
  state : State;
  chat_history : list (role * string);
  current_restaurant_id : json;
  reservation_info : reservation_info_t;
  filtered_restaurants : catalog;
  last_processed_input : option string
}.

(** The values [main] gives the keys that are missing at session start. *)
Definition fresh_session : session_state :=
  mk_session GREETING [] JNull (mk_reservation_info None None None) [] None.

(** ** The world and the monad of the program *)

Record world : Type := mk_world {
  session : session_state;
  (** the list [main] loaded and passes to [process_state] *)
  restaurants : catalog;
  (** the content of [restaurants_db.json] *)
  db_file : catalog;
  (** events, most recent first *)
  log : list event
}.

Inductive exn : Type := AttributeError | TypeError | RecursionError.

Inductive result (A : Type) : Type :=
| Ok (a : A) (w : world)
| Raise (e : exn) (w : world).
Arguments Ok {A} a w.
Arguments Raise {A} e w.

Definition world_of {A} (r : result A) : world :=
  match r with Ok _ w => w | Raise _ w => w end.

Definition M (A : Type) : Type := world -> result A.

Definition ret {A} (a : A) : M A := fun w => Ok a w.

Definition bind {A B} (c : M A) (k : A -> M B) : M B :=
  fun w => match c w with
           | Ok a w' => k a w'
           | Raise e w' => Raise e w'
           end.

Definition raise {A} (e : exn) : M A := fun w => Raise e w.

Notation "x <- c ;; k" := (bind c (fun x => k))
  (at level 61, c at next level, right associativity).
Notation "c ;;; k" := (bind c (fun _ => k))
  (at level 61, right associativity).

Definition get_session : M session_state := fun w => Ok (session w) w.

Definition get_restaurants : M catalog := fun w => Ok (restaurants w) w.

Definition update_session (f : session_state -> session_state) : M unit :=
  fun w => Ok tt (mk_world (f (session w)) (restaurants w) (db_file w) (log w)).

Definition emit (e : event) : M unit :=
  fun w => Ok tt (mk_world (session w) (restaurants w) (db_file w) (e :: log w)).

(** Setters for the keys of [st.session_state]. *)
Definition set_state (v : State) (s : session_state) : session_state :=
  mk_session v (chat_history s) (current_restaurant_id s) (reservation_info s)
    (filtered_restaurants s) (last_processed_input s).

Definition set_chat_history (v : list (role * string)) (s : session_state)
  : session_state :=
  mk_session (state s) v (current_restaurant_id s) (reservation_info s)
    (filtered_restaurants s) (last_processed_input s).

Definition set_current_restaurant_id (v : json) (s : session_state)
  : session_state :=
  mk_session (state s) (chat_history s) v (reservation_info s)
    (filtered_restaurants s) (last_processed_input s).

Definition set_reservation_info (v : reservation_info_t) (s : session_state)
  : session_state :=
  mk_session (state s) (chat_history s) (current_restaurant_id s) v
    (filtered_restaurants s) (last_processed_input s).

Definition set_filtered_restaurants (v : catalog) (s : session_state)
  : session_state :=
  mk_session (state s) (chat_history s) (current_restaurant_id s)
    (reservation_info s) v (last_processed_input s).

Definition set_last_processed_input (v : option string) (s : session_state)
  : session_state :=
  mk_session (state s) (chat_history s) (current_restaurant_id s)
    (reservation_info s) (filtered_restaurants s) v.

Definition set_ri_name (v : option string) (i : reservation_info_t) :=
  mk_reservation_info v (ri_datetime i) (ri_party_size i).
Definition set_ri_datetime (v : option datetime) (i : reservation_info_t) :=
  mk_reservation_info (ri_name i) v (ri_party_size i).
Definition set_ri_party_size (v : option Z) (i : reservation_info_t) :=
  mk_reservation_info (ri_name i) (ri_datetime i) v.

(** * The program *)

Section Program.

Variable rt : runtime.
Variable llm : oracle.

(** ** Catalog store *)

(** [load_database()], as [main] uses it: the list read from the file
    becomes the [restaurants] of this run. *)
Definition load_database : M unit :=
  fun w => Ok tt (mk_world (session w) (db_file w) (db_file w) (log w)).

(** [save_database(restaurants)] overwrites the file with the in-memory
    list. *)
Definition save_database : M unit :=
  fun w => Ok tt (mk_world (session w) (restaurants w) (restaurants w)
                    (Saved (restaurants w) :: log w)).

(** ** Inference adapter *)

(** [get_llm_response]: the reply of the model, which is told of the request
    and of the history; the request is logged. *)
Definition get_llm_response (req : llm_request) : M string :=
  fun w => Ok (llm (log w) req)
              (mk_world (session w) (restaurants w) (db_file w)
                 (Asked req :: log w)).

(** ** Extraction services *)

Definition detect_intent (user_input : string) : M string :=
  reply <- get_llm_response (AskIntent user_input) ;;
  let response := lower rt (strip rt reply) in
  if contains "restaurant_search" response || contains "search" response
  then ret "restaurant_search"
  else if contains "reservation" response || contains "book" response
  then ret "reservation"
  else if contains "details" response || contains "information" response
  then ret "details"
  else ret "normal_conversation".

Definition extract_search_params (user_input : string) : M dict :=
  response <- get_llm_response (AskSearchParams user_input) ;;
  match search_json_object response with
  | Some json_str =>
      match json_loads rt json_str with
      | Some params => ret params
      | None => ret []
      end
  | None => ret []
  end.

(** [params.get(key) and params[key] != 'null'] *)
Definition given (params : dict) (key : string) : bool :=
  truthy (dict_get params key) && is_not_null_text (dict_get params key).

(** [sorted(l, key=lambda x: x['rating'], reverse=True)]: Python's sort is
    stable, also in reverse, so a restaurant stays in front of the later ones
    of the same rating. *)
Fixpoint insert_by_rating (x : restaurant) (l : catalog) : catalog :=
  match l with
  | [] => [x]
  | y :: l' =>
      if Qle_bool (r_rating y) (r_rating x) then x :: l
      else y :: insert_by_rating x l'
  end.

Fixpoint sort_by_rating (l : catalog) : catalog :=
  match l with
  | [] => []
  | x :: l' => insert_by_rating x (sort_by_rating l')
  end.

(** The four filters of [find_restaurants].  [None] stands for the
    [AttributeError] of calling [.lower()] on a value that is not a string;
    a list comprehension over an empty list evaluates no condition and cannot
    raise. *)
Definition filter_cuisine (params : dict) (filtered : catalog)
  : option catalog :=
  if given params "cuisine" then
    match filtered, dict_get params "cuisine" with
    | [], _ => Some []
    | _, JStr q =>
        Some (filter (fun r => contains (lower rt q) (lower rt (r_cuisine r)))
                filtered)
    | _, _ => None
    end
  else Some filtered.

Definition filter_location (params : dict) (filtered : catalog)
  : option catalog :=
  if given params "location" then
    match dict_get params "location" with
    | JStr q =>
        let location_query := lower rt q in
        Some (filter (fun r => contains location_query (lower rt (r_location r))
                               || contains location_query
                                    (lower rt (r_address r)))
                filtered)
    | _ => None
    end
  else Some filtered.

Definition filter_price_range (params : dict) (filtered : catalog)
  : option catalog :=
  if given params "price_range" then
    match filtered, dict_get params "price_range" with
    | [], _ => Some []
    | _, JStr q =>
        Some (filter (fun r => contains (lower rt q)
                                 (lower rt (r_price_range r)))
                filtered)
    | _, _ => None
    end
  else Some filtered.

Definition filter_seating (params : dict) (filtered : catalog)
  : option catalog :=
  if given params "seating" then
    match dict_get params "seating" with
    | JStr q =>
        Some (filter (fun r => existsb (fun s => contains (lower rt q)
                                                   (lower rt s))
                                 (r_seating_arrangements r))
                filtered)
    | _ =>
        if forallb (fun r => match r_seating_arrangements r with
                             | [] => true
                             | _ => false
                             end) filtered
        then Some []
        else None
    end
  else Some filtered.

(** The restaurants left by the four conjunctive filters. *)
Definition apply_filters (params : dict) (all_restaurants : catalog)
  : option catalog :=
  match filter_cuisine params all_restaurants with
  | Some f1 =>
      match filter_location params f1 with
      | Some f2 =>
          match filter_price_range params f2 with
          | Some f3 => filter_seating params f3
          | None => None
          end
      | None => None
      end
  | None => None
  end.

Definition find_restaurants (params : dict) (all_restaurants : catalog)
  : option catalog :=
  match apply_filters params all_restaurants with
  | Some filtered =>
      if (5 <? List.length filtered)%nat
      then Some (firstn 5 (sort_by_rating filtered))
      else match filtered with
           | [] => Some (firstn 3 (sort_by_rating all_restaurants))
           | _ => Some filtered
           end
  | None => None
  end.

Definition generate_restaurant_suggestions (found all_restaurants : catalog)
  : M string :=
  get_llm_response (AskSuggestions found all_restaurants).

Definition generate_restaurant_details (found : option restaurant)
    (all_restaurants : catalog) : M string :=
  get_llm_response (AskDetails found all_restaurants).

(** [f"{v}"]: a string is inserted as it is, another value through [str]. *)
Definition format_value (v : json) : string :=
  match v with
  | JStr s => s
  | _ => str_of rt v
  end.

Definition weekday_names : list string :=
  ["Monday"; "Tuesday"; "Wednesday"; "Thursday"; "Friday"; "Saturday";
   "Sunday"].

(** [weekday_names[dt.weekday()]] *)
Definition weekday_name (dt : datetime) : string :=
  nth (Z.to_nat (weekday dt)) weekday_names "".

Definition parse_date_time (user_input : string)
  : M (option datetime * string) :=
  response <- get_llm_response (AskDateTime user_input) ;;
  match search_json_object response with
  | Some json_str =>
      match json_loads rt json_str with
      | Some parsed =>
          if given parsed "date" && given parsed "time" then
            let dt_string :=
              format_value (dict_get parsed "date") ++ " "
              ++ format_value (dict_get parsed "time") in
            match strptime rt dt_string with
            | Some dt =>
                if negb (String.eqb (strftime rt "%A" dt) (weekday_name dt))
                then
                  let dt_formatted := strftime rt "%B %d at %I:%M %p" dt in
                  ret (Some dt,
                       "Got it! Reservation for " ++ weekday_name dt ++ ", "
                       ++ dt_formatted ++ ".")
                else ret (Some dt, "")
            | None =>
                ret (None, "I couldn't understand that date format. Please specify a date and time.")
            end
          else
            ret (None, "I couldn't determine the date or time. Please specify both.")
      | None =>
          ret (None, "I'm having trouble understanding the date and time. Please use a format like 'tomorrow at 7 PM'.")
      end
  | None =>
      ret (None, "I couldn't parse that. Please specify when you'd like to make your reservation.")
  end.

(** [int(v)]: [None] when it raises ([ValueError], [TypeError] or
    [OverflowError]); a float is truncated towards zero. *)
Definition py_int (v : json) : option Z :=
  match v with
  | JInt z => Some z
  | JBool b => Some (if b then 1 else 0)
  | JFloat (FFinite q) => Some (Z.quot (Qnum q) (Zpos (Qden q)))
  | JFloat _ => None
  | JStr s => int_of_str rt s
  | _ => None
  end.

Definition parse_party_size (user_input : string) : M (option Z * string) :=
  response <- get_llm_response (AskPartySize user_input) ;;
  match search_json_object response with
  | Some json_str =>
      match json_loads rt json_str with
      | Some parsed =>
          if given parsed "party_size" then
            match py_int (dict_get parsed "party_size") with
            | Some n => ret (Some n, "")
            | None =>
                ret (None, "I'm having trouble understanding the party size. Please tell me how many people will be dining.")
            end
          else
            ret (None, "I couldn't determine the party size. How many people will be dining?")
      | None =>
          ret (None, "I'm having trouble understanding the party size. Please tell me how many people will be dining.")
      end
  | None =>
      ret (None, "I couldn't parse that. Please specify how many people are in your party.")
  end.

(** ** Reservation transaction *)

Inductive add_outcome : Type :=
| Added (reservation : reservation) (restaurants' : catalog)
| AddRaised
| NotFound.

(** The loop of [add_reservation]: the first restaurant whose id equals
    [restaurant_id] receives the reservation.  [datetime_obj.strftime] raises
    [AttributeError] on [None]; name and party size are stored as they
    come. *)
Fixpoint add_reservation_loop (rs : catalog) (restaurant_id : json)
    (name : option string) (datetime_obj : option datetime)
    (party_size : option Z) : add_outcome :=
  match rs with
  | [] => NotFound
  | restaurant :: rest =>
      if py_eq_int (r_id restaurant) restaurant_id then
        match datetime_obj with
        | Some dt =>
            let reservation_id :=
              Z.of_nat (List.length (r_reservations restaurant)) + 1 in
            let reservation :=
              mk_reservation reservation_id name
                (strftime rt "%Y-%m-%d %H:%M" dt) party_size "confirmed" in
            Added reservation
              (with_reservations restaurant
                 (r_reservations restaurant ++ [reservation])%list :: rest)
        | None => AddRaised
        end
      else
        match add_reservation_loop rest restaurant_id name datetime_obj
                party_size with
        | Added reservation rest' => Added reservation (restaurant :: rest')
        | AddRaised => AddRaised
        | NotFound => NotFound
        end
  end.

(** [add_reservation]: the list it is given is the [restaurants] of the
    world, which it updates in place and saves. *)
Definition add_reservation (restaurant_id : json) (name : option string)
    (datetime_obj : option datetime) (party_size : option Z)
  : M (bool * option reservation) :=
  rs <- get_restaurants ;;
  match add_reservation_loop rs restaurant_id name datetime_obj party_size with
  | Added reservation rs' =>
      (fun w => Ok tt (mk_world (session w) rs' (db_file w) (log w))) ;;;
      save_database ;;;
      ret (true, Some reservation)
  | AddRaised => raise AttributeError
  | NotFound => ret (false, None)
  end.

(** ** Conversation helpers *)

(** [l[::2]] *)
Fixpoint every_other {A} (l : list A) : list A :=
  match l with
  | [] => []
  | x :: rest =>
      x :: match rest with
           | [] => []
           | _ :: rest' => every_other rest'
           end
  end.

(** The history [process_state] hands to [generate_conversation_response]:
    for the [i]-th message [msg] of [chat_history[:-1:2]], the pair of
    [msg["content"]] and [chat_history[i+1]["content"]]. *)
Definition history_pairs (chat : list (role * string))
  : list (string * string) :=
  let picked := every_other (removelast chat) in
  map (fun im : nat * (role * string) =>
         (snd (snd im), snd (nth (S (fst im)) chat (Assistant, ""))))
      (combine (seq 0 (List.length picked)) picked).

Definition generate_conversation_response (user_input : string)
    (history : list (string * string)) (all_restaurants : catalog)
  : M string :=
  get_llm_response (AskConversation user_input history all_restaurants).

(** The dictionary the [except] branch of [detect_intent_with_context]
    returns. *)
Definition fallback_intent : dict :=
  [("intent", JStr "normal_conversation"); ("confidence", JStr "low");
   ("restaurant_id", JNull)].

(** [detect_intent_with_context]: when the reply holds no braces the function
    falls off its end and returns [None]. *)
Definition detect_intent_with_context (user_input : string)
    (recent_suggestions : list string) (last_message : string)
    (all_restaurants : catalog) : M (option dict) :=
  response <- get_llm_response
                (AskIntentWithContext user_input recent_suggestions
                   last_message all_restaurants) ;;
  match search_json_object response with
  | Some json_str =>
      match json_loads rt json_str with
      | Some parsed => ret (Some parsed)
      | None => ret (Some fallback_intent)
      end
  | None => ret None
  end.

(** The first restaurant of the suggestions whose lower-cased name occurs in
    the lower-cased input. *)
Fixpoint direct_name_match (suggestions : catalog) (user_input : string)
  : json :=
  match suggestions with
  | [] => JNull
  | r :: rest =>
      if contains (lower rt (r_name r)) (lower rt user_input)
      then JInt (r_id r)
      else direct_name_match rest user_input
  end.

(** ["reserv" in user_input.lower() or "book" in user_input.lower()] *)
Definition mentions_booking (user_input : string) : bool :=
  contains "reserv" (lower rt user_input)
  || contains "book" (lower rt user_input).

(** [next((r for r in restaurants if r["id"] == restaurant_id), None)] *)
Definition lookup_restaurant (rs : catalog) (restaurant_id : json)
  : option restaurant :=
  find (fun r => py_eq_int (r_id r) restaurant_id) rs.

(** The name shown for the matched restaurant, ["the restaurant"] when the
    id is not in the catalog. *)
Definition restaurant_name_or_default (rs : catalog) (restaurant_id : json)
  : string :=
  match lookup_restaurant rs restaurant_id with
  | Some r => r_name r
  | None => "the restaurant"
  end.

(** [chat_history[-2]["content"] if len(chat_history) > 1 else ""] *)
Definition last_message_of (chat : list (role * string)) : string :=
  if (1 <? List.length chat)%nat
  then snd (nth (List.length chat - 2) chat (Assistant, ""))
  else "".

Definition newline : string := String (ascii_of_nat 10) EmptyString.

(** [str(x)] of an optional string: [None] prints as ["None"]. *)
Definition show_name (n : option string) : string :=
  match n with Some s => s | None => "None" end.

Definition default_reply : string :=
  "I'm not sure what you're looking for. Would you like to search for restaurants or make a reservation?".

(** ** The orchestrator *)

(** One pass through the body of [process_state], up to the point where the
    session state is updated: the branch of [current_state] computes
    [next_state] and [response]. *)
Definition process_state_pass (user_input : string)
  : M (option State * option string) :=
  s <- get_session ;;
  let current_state := state s in
  emit (Dispatched current_state) ;;;
  match current_state with
  | INTENT_DETECTION =>
      intent <- detect_intent user_input ;;
      if String.eqb intent "restaurant_search" then
        ret (Some FIND_RESTAURANT, None)
      else if String.eqb intent "reservation" then
        if truthy (current_restaurant_id s) then
          ret (Some MAKE_RESERVATION,
               Some "Great! Let's make a reservation. Under what name should I make the reservation?")
        else
          ret (Some FIND_RESTAURANT,
               Some "I'd be happy to help you make a reservation. First, let's find a restaurant. Do you have any preferences for cuisine, location, or price range?")
      else if String.eqb intent "details" then
        if truthy (current_restaurant_id s) then
          ret (Some RESTAURANT_DETAILS, None)
        else
          ret (Some FIND_RESTAURANT,
               Some "I'd be happy to provide details about a restaurant. Which restaurant are you interested in?")
      else
        rs <- get_restaurants ;;
        response <- generate_conversation_response user_input
                      (history_pairs (chat_history s)) rs ;;
        ret (Some NORMAL_CONVERSATION, Some response)

  | FIND_RESTAURANT =>
      search_params <- extract_search_params user_input ;;
      rs <- get_restaurants ;;
      match find_restaurants search_params rs with
      | Some filtered =>
          update_session (set_filtered_restaurants filtered) ;;;
          response <- generate_restaurant_suggestions filtered rs ;;
          ret (Some RESTAURANT_SUGGESTION, Some response)
      | None => raise AttributeError
      end

  | RESTAURANT_SUGGESTION =>
      rs <- get_restaurants ;;
      let direct := direct_name_match (filtered_restaurants s) user_input in
      restaurant_id <-
        (if negb (truthy direct) then
           intent_data <- detect_intent_with_context user_input
                            (map r_name (filtered_restaurants s))
                            (last_message_of (chat_history s)) rs ;;
           match intent_data with
           | Some d => ret (dict_get d "restaurant_id")
           | None => raise AttributeError
           end
         else ret direct) ;;
      if truthy restaurant_id then
        update_session (set_current_restaurant_id restaurant_id) ;;;
        let restaurant := lookup_restaurant rs restaurant_id in
        if mentions_booking user_input then
          match restaurant with
          | Some r =>
              ret (Some MAKE_RESERVATION,
                   Some ("Great! I'll make a reservation at " ++ r_name r
                         ++ " for you. Under what name should I make the reservation?"))
          | None => raise TypeError
          end
        else
          response <- generate_restaurant_details restaurant rs ;;
          ret (Some RESTAURANT_DETAILS, Some response)
      else if mentions_booking user_input then
        ret (None,
             Some "Which of these restaurants would you like to make a reservation for? Please specify the restaurant name clearly.")
      else
        ret (Some INTENT_DETECTION, None)

  | RESTAURANT_DETAILS =>
      intent <- detect_intent user_input ;;
      if mentions_booking user_input || String.eqb intent "reservation" then
        ret (Some MAKE_RESERVATION,
             Some "Great! I'd be happy to make a reservation for you. Under what name should I make the reservation?")
      else
        ret (Some INTENT_DETECTION, None)

  | MAKE_RESERVATION =>
      ret (Some NAME_PROMPT,
           Some "Under what name should I make the reservation?")

  | NAME_PROMPT =>
      update_session
        (fun s => set_reservation_info
                    (set_ri_name (Some user_input) (reservation_info s)) s) ;;;
      ret (Some DATETIME_PROMPT,
           Some ("Thank you, " ++ user_input
                 ++ ". When would you like to make your reservation? Please specify the date and time."))

  | DATETIME_PROMPT =>
      parsed <- parse_date_time user_input ;;
      match parsed with
      | (Some datetime_obj, _) =>
          update_session
            (fun s => set_reservation_info
                        (set_ri_datetime (Some datetime_obj)
                           (reservation_info s)) s) ;;;
          ret (Some PARTY_PROMPT,
               Some ("Got it! Reservation for "
                     ++ strftime rt "%A, %B %d at %I:%M %p" datetime_obj
                     ++ ". How many people will be in your party?"))
      | (None, error_msg) => ret (None, Some error_msg)
      end

  | PARTY_PROMPT =>
      parsed <- parse_party_size user_input ;;
      match parsed with
      | (Some party_size, error_msg) =>
          if negb (party_size =? 0) then
            update_session
              (fun s => set_reservation_info
                          (set_ri_party_size (Some party_size)
                             (reservation_info s)) s) ;;;
            rs <- get_restaurants ;;
            s' <- get_session ;;
            match ri_datetime (reservation_info s') with
            | Some dt =>
                ret (Some CONFIRM_RESERVATION,
                     Some ("Great! Let me confirm your reservation:"
                           ++ newline ++ newline
                           ++ "Name: " ++ show_name (ri_name (reservation_info s'))
                           ++ newline
                           ++ "Restaurant: "
                           ++ restaurant_name_or_default rs
                                (current_restaurant_id s')
                           ++ newline
                           ++ "Date & Time: "
                           ++ strftime rt "%A, %B %d at %I:%M %p" dt
                           ++ newline
                           ++ "Party Size: " ++ str_of rt (JInt party_size)
                           ++ " people" ++ newline ++ newline
                           ++ "Is this information correct? (yes/no)"))
            | None => raise AttributeError
            end
          else ret (None, Some error_msg)
      | (None, error_msg) => ret (None, Some error_msg)
      end

  | CONFIRM_RESERVATION =>
      if contains "yes" (lower rt user_input)
         || contains "correct" (lower rt user_input)
         || contains "confirm" (lower rt user_input)
      then
        ret (Some RESERVATION_CONFIRMED,
             Some "Thank you for confirming. I'm processing your reservation now...")
      else
        ret (Some MAKE_RESERVATION,
             Some "Let's try again. Under what name should I make the reservation?")

  | RESERVATION_CONFIRMED =>
      added <- add_reservation (current_restaurant_id s)
                 (ri_name (reservation_info s))
                 (ri_datetime (reservation_info s))
                 (ri_party_size (reservation_info s)) ;;
      if fst added then
        rs <- get_restaurants ;;
        match ri_datetime (reservation_info s) with
        | Some dt =>
            ret (Some RESERVATION_SUCCESS,
                 Some ("Your reservation at "
                       ++ restaurant_name_or_default rs
                            (current_restaurant_id s)
                       ++ " has been confirmed! We look forward to serving you on "
                       ++ strftime rt "%A, %B %d at %I:%M %p" dt
                       ++ ". Is there anything else you would like to know?"))
        | None => raise AttributeError
        end
      else
        ret (Some ERROR_HANDLING,
             Some "I'm sorry, there was an error processing your reservation. Would you like to try again or speak with customer support?")

  | ERROR_HANDLING =>
      if contains "try" (lower rt user_input)
         || contains "again" (lower rt user_input)
      then
        ret (Some RESERVATION_RETRY,
             Some "Let's try making your reservation again. Under what name should I make the reservation?")
      else
        ret (Some SUPPORT,
             Some "I'll connect you with customer support. Please call +91 80 12345678 during business hours (9 AM - 6 PM) for assistance with your reservation.")

  | RESERVATION_RETRY =>
      ret (Some MAKE_RESERVATION,
           Some "Let's start over with your reservation. Under what name should I make the reservation?")

  | SUPPORT =>
      ret (Some INTENT_DETECTION,
           Some "Our customer support team is available to help you. Is there anything else I can assist you with?")

  | RESERVATION_SUCCESS =>
      ret (Some THANK_YOU,
           Some "Thank you for using Alfred! Your reservation has been confirmed. Is there anything else you would like assistance with?")

  | THANK_YOU => ret (Some INTENT_DETECTION, None)

  | NORMAL_CONVERSATION => ret (Some INTENT_DETECTION, None)

  | _ => ret (None, None)
  end.

(** [response or "I'm not sure ..."] *)
Definition response_or_default (response : option string) : string :=
  match response with
  | Some r => if String.eqb r "" then default_reply else r
  | None => default_reply
  end.

(** [process_state].  [depth] is the number of nested calls the interpreter
    still allows: the call that would exceed it raises [RecursionError]. *)
Fixpoint process_state (depth : nat) (user_input : string) : M string :=
  match depth with
  | O => raise RecursionError
  | S depth' =>
      s <- get_session ;;
      let current_state := state s in
      out <- process_state_pass user_input ;;
      let next_state := fst out in
      let response := snd out in
      match next_state with
      | Some ns => update_session (set_state ns)
      | None => ret tt
      end ;;;
      match response, next_state with
      | None, Some ns =>
          if negb (State_eqb ns current_state)
          then process_state depth' user_input
          else ret (response_or_default response)
      | _, _ => ret (response_or_default response)
      end
  end.

Definition greeting : string :=
  "Hello! I'm Alfred, your Bengaluru restaurant assistant. I can help you find restaurants and make reservations. What are you looking for today?".

(** What one run of the script did with the text of [st.chat_input]. *)
Inductive turn : Type :=
| Ignored
| Replied (response : string).

(** One run of [main]; [user_input] is what [st.chat_input] returned. *)
Definition main (user_input : option string) : M turn :=
  load_database ;;;
  s <- get_session ;;
  (if State_eqb (state s) GREETING
      && match chat_history s with [] => true | _ => false end
   then
     update_session
       (fun s => set_state INTENT_DETECTION
                   (set_chat_history
                      (chat_history s ++ [(Assistant, greeting)])%list s))
   else ret tt) ;;;
  match user_input with
  | Some text =>
      if String.eqb text "" then ret Ignored
      else
        s <- get_session ;;
        if match last_processed_input s with
           | Some previous => negb (String.eqb text previous)
           | None => true
           end
        then
          update_session (set_last_processed_input (Some text)) ;;;
          update_session
            (fun s => set_chat_history
                        (chat_history s ++ [(User, text)])%list s) ;;;
          response <- process_state (recursion_limit rt) text ;;
          update_session
            (fun s => set_chat_history
                        (chat_history s ++ [(Assistant, response)])%list s) ;;;
          ret (Replied response)
        else ret Ignored
  | None => ret Ignored
  end.

End Program.

(** * A concrete runtime

    [cpython] implements the library functions on ASCII text, in the C
    locale, closely enough to run the program on examples.  Its JSON decoder
    covers objects, arrays, strings without escapes, integers and the three
    literals; on a text outside this fragment (a fraction, an exponent, an
    escape) it answers [None] although [json.loads] may succeed, and [str_of]
    prints lists, dictionaries and floats as a placeholder.  No general
    theorem depends on it. *)

Definition ascii_code (c : ascii) : Z := Z.of_nat (nat_of_ascii c).

(** [c.isspace()] on an ASCII character *)
Definition is_space (c : ascii) : bool :=
  let n := ascii_code c in
  (n =? 32) || ((9 <=? n) && (n <=? 13)) || ((28 <=? n) && (n <=? 31)).

Definition digit_value (c : ascii) : option Z :=
  let n := ascii_code c in
  if (48 <=? n) && (n <=? 57) then Some (n - 48) else None.

Definition lower_ascii (c : ascii) : ascii :=
  let n := ascii_code c in
  if (65 <=? n) && (n <=? 90) then ascii_of_nat (nat_of_ascii c + 32) else c.

Fixpoint ascii_lower (s : string) : string :=
  match s with
  | EmptyString => EmptyString
  | String c rest => String (lower_ascii c) (ascii_lower rest)
  end.

Fixpoint skip_spaces (s : string) : string :=
  match s with
  | String c rest => if is_space c then skip_spaces rest else s
  | EmptyString => EmptyString
  end.

(** [s] without its trailing spaces. *)
Fixpoint drop_trailing_spaces (s : string) : string :=
  match s with
  | EmptyString => EmptyString
  | String c rest =>
      match drop_trailing_spaces rest with
      | EmptyString => if is_space c then EmptyString else String c EmptyString
      | kept => String c kept
      end
  end.

Definition ascii_strip (s : string) : string :=
  drop_trailing_spaces (skip_spaces s).

(** Decimal digits, single underscores allowed between them ([int("1_000")]);
    [acc] is the value read so far, [after_digit] tells whether the previous
    character was a digit. *)
Fixpoint read_int_digits (s : string) (acc : Z) (after_digit : bool)
  : option Z :=
  match s with
  | EmptyString => if after_digit then Some acc else None
  | String c rest =>
      match digit_value c with
      | Some d => read_int_digits rest (10 * acc + d) true
      | None =>
          if Ascii.eqb c "_" && after_digit
          then read_int_digits rest acc false
          else None
      end
  end.

Definition ascii_int_of_str (s : string) : option Z :=
  match ascii_strip s with
  | String "-" rest => option_map Z.opp (read_int_digits rest 0 false)
  | String "+" rest => read_int_digits rest 0 false
  | digits => read_int_digits digits 0 false
  end.

Fixpoint string_of_digits (fuel : nat) (n : Z) (acc : string) : string :=
  match fuel with
  | O => acc
  | S fuel' =>
      let acc' := String (ascii_of_nat (Z.to_nat (48 + n mod 10))) acc in
      if n / 10 =? 0 then acc' else string_of_digits fuel' (n / 10) acc'
  end.

(** [str(n)] for an integer. *)
Definition string_of_Z (n : Z) : string :=
  if n <? 0
  then String "-" (string_of_digits (Z.to_nat (Z.log2 (- n)) + 1) (- n) "")
  else string_of_digits (Z.to_nat (Z.log2 n) + 1) n "".

Definition ascii_str_of (v : json) : string :=
  match v with
  | JNull => "None"
  | JBool true => "True"
  | JBool false => "False"
  | JInt z => string_of_Z z
  | JStr s => s
  | _ => "<object>"
  end.

(** *** [strftime] in the C locale *)

Definition pad2 (n : Z) : string :=
  if n <? 10 then String "0" (string_of_Z n) else string_of_Z n.

Definition month_names : list string :=
  ["January"; "February"; "March"; "April"; "May"; "June"; "July"; "August";
   "September"; "October"; "November"; "December"].

Definition directive (c : ascii) (dt : datetime) : string :=
  if Ascii.eqb c "A" then nth (Z.to_nat (weekday dt)) weekday_names ""
  else if Ascii.eqb c "B"
  then nth (Z.to_nat (dt_month dt - 1)) month_names ""
  else if Ascii.eqb c "d" then pad2 (dt_day dt)
  else if Ascii.eqb c "m" then pad2 (dt_month dt)
  else if Ascii.eqb c "Y" then string_of_Z (dt_year dt)
  else if Ascii.eqb c "H" then pad2 (dt_hour dt)
  else if Ascii.eqb c "M" then pad2 (dt_minute dt)
  else if Ascii.eqb c "I"
  then pad2 (if dt_hour dt mod 12 =? 0 then 12 else dt_hour dt mod 12)
  else if Ascii.eqb c "p" then (if dt_hour dt <? 12 then "AM" else "PM")
  else String "%" (String c EmptyString).

Fixpoint c_strftime (fmt : string) (dt : datetime) : string :=
  match fmt with
  | EmptyString => EmptyString
  | String c rest =>
      if Ascii.eqb c "%" then
        match rest with
        | String d rest' => directive d dt ++ c_strftime rest' dt
        | EmptyString => "%"
        end
      else String c (c_strftime rest dt)
  end.

(** *** [strptime] for ["%Y-%m-%d %H:%M"] *)

(** The datetime constructor: [None] for the [ValueError] of a field out of
    range. *)
Definition make_datetime (y m d hh mm : Z) : option datetime :=
  match Bool.bool_dec (valid_datetime y m d hh mm) true with
  | left ok => Some (mk_datetime y m d hh mm ok)
  | right _ => None
  end.

(** One or two digits, as the regular expressions of [%m], [%d], [%H] and
    [%M] read them: two digits when they make a number of at most [hi], one
    digit otherwise. *)
Definition read_field (hi : Z) (s : string) : option (Z * string) :=
  match s with
  | String a rest =>
      match digit_value a with
      | Some x =>
          match rest with
          | String b rest' =>
              match digit_value b with
              | Some y =>
                  if 10 * x + y <=? hi then Some (10 * x + y, rest')
                  else Some (x, rest)
              | None => Some (x, rest)
              end
          | EmptyString => Some (x, rest)
          end
      | None => None
      end
  | EmptyString => None
  end.

Definition read_year (s : string) : option (Z * string) :=
  match s with
  | String a (String b (String c (String d rest))) =>
      match digit_value a, digit_value b, digit_value c, digit_value d with
      | Some x, Some y, Some z, Some t =>
          Some (1000 * x + 100 * y + 10 * z + t, rest)
      | _, _, _, _ => None
      end
  | _ => None
  end.

Definition expect (c : ascii) (s : string) : option string :=
  match s with
  | String a rest => if Ascii.eqb a c then Some rest else None
  | EmptyString => None
  end.

(** [%d] also accepts a space in front of a single digit. *)
Definition read_day (s : string) : option (Z * string) :=
  match s with
  | String " " rest =>
      match rest with
      | String a rest' =>
          match digit_value a with
          | Some x => Some (x, rest')
          | None => None
          end
      | EmptyString => None
      end
  | _ => read_field 31 s
  end.

Definition c_strptime (text : string) : option datetime :=
  match read_year text with
  | Some (y, s1) =>
      match expect "-" s1 with
      | Some s2 =>
          match read_field 12 s2 with
          | Some (m, s3) =>
              match expect "-" s3 with
              | Some s4 =>
                  match read_day s4 with
                  | Some (d, s5) =>
                      match s5 with
                      | String sp s6 =>
                          if is_space sp then
                            match read_field 23 (skip_spaces s6) with
                            | Some (hh, s7) =>
                                match expect ":" s7 with
                                | Some s8 =>
                                    match read_field 59 s8 with
                                    | Some (mm, EmptyString) =>
                                        if (1 <=? m) && (1 <=? d)
                                        then make_datetime y m d hh mm
                                        else None
                                    | _ => None
                                    end
                                | None => None
                                end
                            | None => None
                            end
                          else None
                      | EmptyString => None
                      end
                  | None => None
                  end
              | None => None
              end
          | None => None
          end
      | None => None
      end
  | None => None
  end.

(** *** [json.loads] on the fragment *)

(** JSON white space: space, tab, line feed, carriage return. *)
Definition is_json_space (c : ascii) : bool :=
  let n := ascii_code c in
  (n =? 32) || (n =? 9) || (n =? 10) || (n =? 13).

Fixpoint skip_json_spaces (s : string) : string :=
  match s with
  | String c rest => if is_json_space c then skip_json_spaces rest else s
  | EmptyString => EmptyString
  end.

Definition quote : ascii := ascii_of_nat 34.
Definition backslash : ascii := ascii_of_nat 92.

(** The characters of a string literal after its opening quote, and the text
    after its closing quote. *)
Fixpoint read_string (s : string) : option (string * string) :=
  match s with
  | EmptyString => None
  | String c rest =>
      if Ascii.eqb c quote then Some (EmptyString, rest)
      else if Ascii.eqb c backslash || (ascii_code c <? 32) then None
      else match read_string rest with
           | Some (body, after) => Some (String c body, after)
           | None => None
           end
  end.

(** The digits of an integer literal: their value and the text after. *)
Fixpoint read_digits (s : string) (acc : Z) : Z * string :=
  match s with
  | String c rest =>
      match digit_value c with
      | Some d => read_digits rest (10 * acc + d)
      | None => (acc, s)
      end
  | EmptyString => (acc, s)
  end.

Definition starts_fraction (s : string) : bool :=
  match s with
  | String c _ => Ascii.eqb c "." || Ascii.eqb c "e" || Ascii.eqb c "E"
  | EmptyString => false
  end.

(** An integer literal without sign: no leading zero, no fraction. *)
Definition read_natural (s : string) : option (Z * string) :=
  match s with
  | String c rest =>
      match digit_value c with
      | Some 0 =>
          match rest with
          | String c' _ =>
              match digit_value c' with
              | Some _ => None
              | None => if starts_fraction rest then None else Some (0, rest)
              end
          | EmptyString => Some (0, rest)
          end
      | Some _ =>
          let '(n, after) := read_digits s 0 in
          if starts_fraction after then None else Some (n, after)
      | None => None
      end
  | EmptyString => None
  end.

(** [d[key] = v] *)
Fixpoint dict_set (d : dict) (key : string) (v : json) : dict :=
  match d with
  | [] => [(key, v)]
  | (k, old) :: d' =>
      if String.eqb k key then (k, v) :: d' else (k, old) :: dict_set d' key v
  end.

Definition literal (word : string) (v : json) (s : string)
  : option (json * string) :=
  if String.prefix word s
  then Some (v, String.substring (String.length word)
                  (String.length s - String.length word) s)
  else None.

Fixpoint decode_value (fuel : nat) (s : string) : option (json * string) :=
  match fuel with
  | O => None
  | S fuel' =>
      match skip_json_spaces s with
      | EmptyString => None
      | String c rest =>
          if Ascii.eqb c "{" then
            match skip_json_spaces rest with
            | String c' rest' =>
                if Ascii.eqb c' "}" then Some (JObj [], rest')
                else decode_members fuel' rest []
            | EmptyString => None
            end
          else if Ascii.eqb c "[" then
            match skip_json_spaces rest with
            | String c' rest' =>
                if Ascii.eqb c' "]" then Some (JArr [], rest')
                else decode_items fuel' rest []
            | EmptyString => None
            end
          else if Ascii.eqb c quote then
            match read_string rest with
            | Some (body, after) => Some (JStr body, after)
            | None => None
            end
          else if Ascii.eqb c "-" then
            match read_natural rest with
            | Some (n, after) => Some (JInt (- n), after)
            | None => None
            end
          else if Ascii.eqb c "t" then literal "true" (JBool true) (String c rest)
          else if Ascii.eqb c "f" then literal "false" (JBool false) (String c rest)
          else if Ascii.eqb c "n" then literal "null" JNull (String c rest)
          else
            match read_natural (String c rest) with
            | Some (n, after) => Some (JInt n, after)
            | None => None
            end
      end
  end

with decode_members (fuel : nat) (s : string) (acc : dict)
  : option (json * string) :=
  match fuel with
  | O => None
  | S fuel' =>
      match skip_json_spaces s with
      | String c rest =>
          if Ascii.eqb c quote then
            match read_string rest with
            | Some (key, after_key) =>
                match skip_json_spaces after_key with
                | String colon after_colon =>
                    if Ascii.eqb colon ":" then
                      match decode_value fuel' after_colon with
                      | Some (v, after_value) =>
                          match skip_json_spaces after_value with
                          | String sep after_sep =>
                              if Ascii.eqb sep "," then
                                decode_members fuel' after_sep
                                  (dict_set acc key v)
                              else if Ascii.eqb sep "}" then
                                Some (JObj (dict_set acc key v), after_sep)
                              else None
                          | EmptyString => None
                          end
                      | None => None
                      end
                    else None
                | EmptyString => None
                end
            | None => None
            end
          else None
      | EmptyString => None
      end
  end

with decode_items (fuel : nat) (s : string) (acc : list json)
  : option (json * string) :=
  match fuel with
  | O => None
  | S fuel' =>
      match decode_value fuel' s with
      | Some (v, after_value) =>
          match skip_json_spaces after_value with
          | String sep after_sep =>
              if Ascii.eqb sep "," then
                decode_items fuel' after_sep (acc ++ [v])%list
              else if Ascii.eqb sep "]" then
                Some (JArr (acc ++ [v])%list, after_sep)
              else None
          | EmptyString => None
          end
      | None => None
      end
  end.

Definition c_json_loads (text : string) : option dict :=
  match decode_value (2 * String.length text + 2) text with
  | Some (JObj members, after) =>
      match skip_json_spaces after with
      | EmptyString => Some members
      | _ => None
      end
  | _ => None
  end.

Definition cpython : runtime :=
  mk_runtime c_json_loads c_strptime c_strftime ascii_int_of_str ascii_str_of
    ascii_lower ascii_strip 1000.

(** ** Vocabulary of the statements about the reservation transaction *)

(** No restaurant of the catalog has the id. *)
Definition id_absent (rs : catalog) (restaurant_id : json) : Prop :=
  forall r, In r rs -> py_eq_int (r_id r) restaurant_id = false.

(** Position of the restaurant the transaction would write to. *)
Fixpoint first_match (rs : catalog) (restaurant_id : json) : option nat :=
  match rs with
  | [] => None
  | r :: rest =>
      if py_eq_int (r_id r) restaurant_id then Some O
      else option_map S (first_match rest restaurant_id)
  end.

Fixpoint set_nth {A} (i : nat) (x : A) (l : list A) : list A :=
  match l, i with
  | [], _ => []
  | _ :: rest, O => x :: rest
  | y :: rest, S i' => y :: set_nth i' x rest
  end.

(** The reservation the transaction builds for a restaurant that holds [n]
    reservations. *)
Definition new_reservation (rt : runtime) (n : nat) (name : option string)
    (dt : datetime) (party_size : option Z) : reservation :=
  mk_reservation (Z.of_nat n + 1) name (strftime rt "%Y-%m-%d %H:%M" dt)
    party_size "confirmed".

(** A request to the transaction: the arguments of one call. *)
Record booking : Type := mk_booking {
  b_restaurant_id : json;
  b_name : option string;
  b_datetime : datetime;
  b_party_size : option Z
}.

(** Successive calls of [add_reservation] on the same list, with the
    reservation each one returned. *)
Fixpoint book_all (rt : runtime) (bs : list booking)
  : M (list (option reservation)) :=
  match bs with
  | [] => ret []
  | b :: rest =>
      added <- add_reservation rt (b_restaurant_id b) (b_name b)
                 (Some (b_datetime b)) (b_party_size b) ;;
      others <- book_all rt rest ;;
      ret (snd added :: others)
  end.

(** Does the booking write to the restaurant at position [i]? *)
Definition targets (rs : catalog) (i : nat) (b : booking) : bool :=
  match first_match rs (b_restaurant_id b) with
  | Some j => Nat.eqb j i
  | None => false
  end.

(** The reservations a restaurant that holds [n] reservations receives from
    the bookings [bs], all of them written to it. *)
Fixpoint news_from (rt : runtime) (n : nat) (bs : list booking)
  : list reservation :=
  match bs with
  | [] => []
  | b :: rest =>
      new_reservation rt n (b_name b) (b_datetime b) (b_party_size b)
      :: news_from rt (S n) rest
  end.

(** The reservations returned for the bookings that write to position
    [i]. *)
Fixpoint returned_for (rs : catalog) (i : nat) (bs : list booking)
    (outs : list (option reservation)) : list (option reservation) :=
  match bs, outs with
  | b :: bs', o :: outs' =>
      if targets rs i b then o :: returned_for rs i bs' outs'
      else returned_for rs i bs' outs'
  | _, _ => []
  end.

(** ** Sample data for the examples *)

Definition spice_garden : restaurant :=
  mk_restaurant 1 "Spice Garden" "South Indian" "Indiranagar" "Rs 1000-1500"
    (45 # 10) ["Indoor"; "Rooftop"] 80
    ("9:00 AM - 10:00 PM", "9:00 AM - 11:00 PM")
    ["Signature dish 1"; "Special drink 1"]
    "12, Main, Indiranagar, Bengaluru" "+91 8000000001" [].

Definition bengaluru_bytes : restaurant :=
  mk_restaurant 2 "Bengaluru Bytes" "Italian" "Koramangala" "Rs 2000-2500"
    (42 # 10) ["Outdoor"; "Garden"] 40
    ("10:00 AM - 11:00 PM", "10:00 AM - 11:00 PM")
    ["Signature dish 2"; "Special drink 2"]
    "7, Cross, Koramangala, Bengaluru" "+91 8000000002" [].

Definition sample_catalog : catalog := [spice_garden; bengaluru_bytes].

(** Saturday, 14 June 2025, 19:30. *)
Definition sample_datetime : datetime := mk_datetime 2025 6 14 19 30 eq_refl.

(** The world at session start, before the first run of [main]. *)
Definition initial_world (db : catalog) : world :=
  mk_world fresh_session [] db [].

(** A world in which [main] has loaded the sample catalog. *)
Definition sample_world : world :=
  mk_world fresh_session sample_catalog sample_catalog [].

Definition sample_bookings : list booking :=
  [mk_booking (JInt 1) (Some "Asha") sample_datetime (Some 4);
   mk_booking (JInt 2) (Some "Ravi") sample_datetime (Some 2);
   mk_booking (JInt 7) (Some "Nobody") sample_datetime (Some 3);
   mk_booking (JInt 1) (Some "Meera") sample_datetime (Some 6)].

(** ** Vocabulary of the statements about the search engine *)

(** A SearchQuery: four optional texts. *)
Record SearchQuery : Type := mk_query {
  q_cuisine : option string;
  q_location : option string;
  q_price_range : option string;
  q_seating : option string
}.

Definition field_value (o : option string) : json :=
  match o with
  | Some s => JStr s
  | None => JNull
  end.

(** The dictionary [find_restaurants] receives for a query. *)
Definition params_of_query (q : SearchQuery) : dict :=
  [("cuisine", field_value (q_cuisine q));
   ("location", field_value (q_location q));
   ("price_range", field_value (q_price_range q));
   ("seating", field_value (q_seating q))].

(** [a] is rated at least as high as [b]. *)
Definition rated_at_least (a b : restaurant) : Prop :=
  (r_rating b <= r_rating a)%Q.

(** ** Vocabulary of the statements about the extraction services *)

(** The object an extraction service decodes from a reply: the text between
    the first opening and the last closing brace, given to [json.loads]. *)
Definition decoded_reply (rt : runtime) (reply : string) : option dict :=
  match search_json_object reply with
  | Some json_str => json_loads rt json_str
  | None => None
  end.

(** The world after one question to the model. *)
Definition asked (w : world) (req : llm_request) : world :=
  mk_world (session w) (restaurants w) (db_file w) (Asked req :: log w).

(** A key or text between double quotes. *)
Definition quoted (s : string) : string :=
  String quote EmptyString ++ s ++ String quote EmptyString.

(** A model that gives the same reply to everything. *)
Definition always (reply : string) : oracle := fun _ _ => reply.

(** The reply [{"party_size": -3, "confidence": "high"}]. *)
Definition reply_minus_three : string :=
  "{" ++ quoted "party_size" ++ ": -3, " ++ quoted "confidence" ++ ": "
  ++ quoted "high" ++ "}".

(** The reply [{"date": "2025-06-14", "time": "19:30", "weekday": "Monday"}],
    whose weekday is wrong: the day is a Saturday. *)
Definition reply_wrong_weekday : string :=
  "Sure! {" ++ quoted "date" ++ ": " ++ quoted "2025-06-14" ++ ", "
  ++ quoted "time" ++ ": " ++ quoted "19:30" ++ ", "
  ++ quoted "weekday" ++ ": " ++ quoted "Monday" ++ "}".

(** ** Vocabulary of the statements about the orchestrator *)

(** The world with the session moved to state [st]. *)
Definition with_state (st : State) (w : world) : world :=
  mk_world (set_state st (session w)) (restaurants w) (db_file w) (log w).

(** The update [process_state] makes after a pass. *)
Definition apply_next (next_state : option State) (w : world) : world :=
  match next_state with
  | Some st => with_state st w
  | None => w
  end.

(** The catalogs written to the file so far, most recent first. *)
Fixpoint saves (l : list event) : list catalog :=
  match l with
  | [] => []
  | Saved rs :: l' => rs :: saves l'
  | _ :: l' => saves l'
  end.

(** Another process rewrote the catalog file. *)
Definition with_db_file (db : catalog) (w : world) : world :=
  mk_world (session w) (restaurants w) db (log w).

(** The worlds a session can be in: it starts with the defaults of [main]
    and an empty history, and then the script runs, once for each
    interaction; between two runs the catalog file may change. *)
Inductive reachable (rt : runtime) (llm : oracle) : world -> Prop :=
| reach_start : forall db, reachable rt llm (initial_world db)
| reach_run : forall w user_input,
    reachable rt llm w ->
    reachable rt llm (world_of (main rt llm user_input w))
| reach_file : forall w db,
    reachable rt llm w -> reachable rt llm (with_db_file db w).

(** The world after the user has submitted the texts one after the
    other. *)
Fixpoint run_turns (rt : runtime) (llm : oracle) (texts : list string)
    (w : world) : world :=
  match texts with
  | [] => w
  | text :: rest =>
      run_turns rt llm rest (world_of (main rt llm (Some text) w))
  end.

(** States the session can only be in once a restaurant is matched. *)
Definition after_match (st : State) : bool :=
  match st with
  | GREETING | INTENT_DETECTION | FIND_RESTAURANT | RESTAURANT_SUGGESTION
  | NORMAL_CONVERSATION => false
  | _ => true
  end.

(** States in which the name, the date and the party size have been
    collected. *)
Definition after_name (st : State) : bool :=
  match st with
  | DATETIME_PROMPT | PARTY_PROMPT | CONFIRM_RESERVATION
  | RESERVATION_CONFIRMED => true
  | _ => false
  end.

Definition after_datetime (st : State) : bool :=
  match st with
  | PARTY_PROMPT | CONFIRM_RESERVATION | RESERVATION_CONFIRMED => true
  | _ => false
  end.

Definition after_party (st : State) : bool :=
  match st with
  | CONFIRM_RESERVATION | RESERVATION_CONFIRMED => true
  | _ => false
  end.

Definition is_some {A} (o : option A) : bool :=
  match o with Some _ => true | None => false end.

(** The pass of [process_state] that started in state [st] is on record. *)
Definition passed (st : State) (w : world) : Prop :=
  In (Dispatched st) (log w).

(** The invariant of the session. *)
Record session_invariant (w : world) : Prop := mk_invariant {
  inv_match :
    after_match (state (session w)) = true ->
    truthy (current_restaurant_id (session w)) = true;
  inv_name :
    after_name (state (session w)) = true ->
    is_some (ri_name (reservation_info (session w))) = true;
  inv_datetime :
    after_datetime (state (session w)) = true ->
    is_some (ri_datetime (reservation_info (session w))) = true;
  inv_party :
    after_party (state (session w)) = true ->
    exists n, ri_party_size (reservation_info (session w)) = Some n /\ n <> 0;
  inv_match_passed :
    truthy (current_restaurant_id (session w)) = true ->
    passed RESTAURANT_SUGGESTION w;
  inv_name_passed :
    is_some (ri_name (reservation_info (session w))) = true ->
    passed NAME_PROMPT w;
  inv_datetime_passed :
    is_some (ri_datetime (reservation_info (session w))) = true ->
    passed DATETIME_PROMPT w;
  inv_party_passed :
    is_some (ri_party_size (reservation_info (session w))) = true ->
    passed PARTY_PROMPT w
}.

(** Did the run process the input, that is, call [process_state]? *)
Definition turn_processed (r : result turn) : bool :=
  match r with
  | Ok Ignored _ => false
  | _ => true
  end.

(** The input is a text, not empty, and not the one the session processed
    last. *)
Definition is_new_turn (user_input : option string) (w : world) : bool :=
  match user_input with
  | Some text =>
      negb (String.eqb text "")
      && match last_processed_input (session w) with
         | Some previous => negb (String.eqb text previous)
         | None => true
         end
  | None => false
  end.

(** The states of the failure-recovery path. *)
Definition recovery_state (st : State) : bool :=
  match st with
  | ERROR_HANDLING | RESERVATION_RETRY | MAKE_RESERVATION | NAME_PROMPT
  | DATETIME_PROMPT | PARTY_PROMPT | CONFIRM_RESERVATION
  | RESERVATION_CONFIRMED => true
  | _ => false
  end.

(** *** A scripted model *)

Definition reply_party_of_four : string :=
  "{" ++ quoted "party_size" ++ ": 4, " ++ quoted "confidence" ++ ": "
  ++ quoted "high" ++ "}".

(** The reply [{"intent": "details", "confidence": "high",
    "restaurant_id": 999}]: an id that is not in the sample catalog. *)
Definition reply_unknown_restaurant : string :=
  "{" ++ quoted "intent" ++ ": " ++ quoted "details" ++ ", "
  ++ quoted "confidence" ++ ": " ++ quoted "high" ++ ", "
  ++ quoted "restaurant_id" ++ ": 999}".

(** A deterministic stub: the reply depends on the request only. *)
Definition scripted : oracle :=
  fun _ req =>
    match req with
    | AskIntent user_input =>
        if contains "find" user_input then "restaurant_search"
        else if contains "more" user_input then "details"
        else "normal_conversation"
    | AskSearchParams _ => "{}"
    | AskSuggestions _ _ => "You could try Spice Garden or Bengaluru Bytes."
    | AskDetails _ _ => "A lovely place with rooftop seating."
    | AskDateTime _ => reply_wrong_weekday
    | AskPartySize _ => reply_party_of_four
    | AskConversation _ _ _ => "How can I help you today?"
    | AskIntentWithContext _ _ _ _ => reply_unknown_restaurant
    end.

(** A conversation that books a table at Spice Garden, up to the
    confirmation. *)
Definition booking_conversation : list string :=
  ["find italian food"; "Spice Garden sounds nice"; "please book a table";
   "ok"; "Asha"; "Saturday at 7:30 pm"; "four of us"; "yes"].

(** The same conversation, but the user names no restaurant and the model
    picks the id 999. *)
Definition misled_conversation : list string :=
  ["find italian food"; "the new place everyone talks about";
   "please book a table"; "ok"; "Asha"; "Saturday at 7:30 pm"; "four of us";
   "yes"].

(** Does [process_state] call itself after a pass that started in state [st]
    and computed [out]?  [response is None and next_state and next_state !=
    current_state] *)
Definition recurses (st : State) (out : option State * option string) : bool :=
  match snd out, fst out with
  | None, Some ns => negb (State_eqb ns st)
  | _, _ => false
  end.

(** The world once [main] has loaded the catalog file. *)
Definition loaded (w : world) : world :=
  mk_world (session w) (db_file w) (db_file w) (log w).

(** The world once [main] has shown the greeting, if it was due. *)
Definition greeted (w : world) : world :=
  if State_eqb (state (session w)) GREETING
     && match chat_history (session w) with [] => true | _ => false end
  then mk_world
         (set_state INTENT_DETECTION
            (set_chat_history
               (chat_history (session w) ++ [(Assistant, greeting)])%list
               (session w)))
         (restaurants w) (db_file w) (log w)
  else w.

(** The world in which [main] calls [process_state] on a new text. *)
Definition opened (text : string) (w : world) : world :=
  mk_world
    (set_chat_history
       (chat_history (session w) ++ [(User, text)])%list
       (set_last_processed_input (Some text) (session w)))
    (restaurants w) (db_file w) (log w).

(** The world in which [main] ends after the reply. *)
Definition answered (response : string) (w : world) : world :=
  mk_world
    (set_chat_history
       (chat_history (session w) ++ [(Assistant, response)])%list (session w))
    (restaurants w) (db_file w) (log w).

(** The world after the pass has put its state on record. *)
Definition dispatched (w : world) : world :=
  mk_world (session w) (restaurants w) (db_file w)
    (Dispatched (state (session w)) :: log w).

(** Runs of the script that start in a state of the recovery path
    (Error-Handling, Reservation-Retry, Make-Reservation, the three prompts,
    Confirm-Reservation, Reservation-Confirmed), one after the other, the
    catalog file being left alone in between. *)
Inductive recovery_path (rt : runtime) (llm : oracle) (w0 : world)
  : world -> Prop :=
| path_start : recovery_path rt llm w0 w0
| path_run : forall w user_input,
    recovery_path rt llm w0 w ->
    recovery_state (state (session w)) = true ->
    recovery_path rt llm w0 (world_of (main rt llm user_input w)).

(** The world in which the sample conversation has matched Spice Garden and
    shown its details. *)
Definition world_at_details : world :=
  run_turns cpython scripted ["find italian food"; "Spice Garden sounds nice"]
    (initial_world sample_catalog).

(** Does every run of the sequence start in a state of the recovery
    path? *)
Fixpoint stays_on_path (rt : runtime) (llm : oracle) (texts : list string)
    (w : world) : bool :=
  match texts with
  | [] => true
  | text :: rest =>
      recovery_state (state (session w))
      && stays_on_path rt llm rest (world_of (main rt llm (Some text) w))
  end.

(** The world after the misled conversation and the commit that failed. *)
Definition world_after_failure : world :=
  run_turns cpython scripted (misled_conversation ++ ["go ahead"])
    (initial_world sample_catalog).

(** The user tries again and goes through the prompts once more. *)
Definition retry_conversation : list string :=
  ["let us try again"; "fine"; "ready"; "Asha"; "Saturday at 7:30 pm";
   "four of us"; "yes"].

(** ** Vocabulary of the further statements *)

(** The text a query field asks for: nothing when the field is absent, empty
    or the marker ["null"], its lower-cased text otherwise. *)
Definition wanted (rt : runtime) (o : option string) : option string :=
  match o with
  | Some s =>
      if negb (String.eqb s "") && negb (String.eqb s "null")
      then Some (lower rt s)
      else None
  | None => None
  end.

Definition matches_cuisine (rt : runtime) (q : SearchQuery) (r : restaurant)
  : bool :=
  match wanted rt (q_cuisine q) with
  | Some c => contains c (lower rt (r_cuisine r))
  | None => true
  end.

Definition matches_location (rt : runtime) (q : SearchQuery) (r : restaurant)
  : bool :=
  match wanted rt (q_location q) with
  | Some l =>
      contains l (lower rt (r_location r))
      || contains l (lower rt (r_address r))
  | None => true
  end.

Definition matches_price_range (rt : runtime) (q : SearchQuery)
    (r : restaurant) : bool :=
  match wanted rt (q_price_range q) with
  | Some p => contains p (lower rt (r_price_range r))
  | None => true
  end.

Definition matches_seating (rt : runtime) (q : SearchQuery) (r : restaurant)
  : bool :=
  match wanted rt (q_seating q) with
  | Some t =>
      existsb (fun s => contains t (lower rt s)) (r_seating_arrangements r)
  | None => true
  end.

(** The restaurant meets every constraint of the query. *)
Definition matches (rt : runtime) (q : SearchQuery) (r : restaurant) : bool :=
  matches_cuisine rt q r && matches_location rt q r
  && matches_price_range rt q r && matches_seating rt q r.

(** Is the value a Python string? *)
Definition is_text (v : json) : bool :=
  match v with
  | JStr _ => true
  | _ => false
  end.

(** Does the character occur in the text? *)
Fixpoint has_char (c : ascii) (s : string) : bool :=
  match s with
  | EmptyString => false
  | String a rest => Ascii.eqb a c || has_char c rest
  end.

(** The four labels of the intent classifier. *)
Definition intent_labels : list string :=
  ["restaurant_search"; "reservation"; "details"; "normal_conversation"].

(** The world with another list of search results in the session. *)
Definition with_filtered (found : catalog) (w : world) : world :=
  mk_world (set_filtered_restaurants found (session w)) (restaurants w)
    (db_file w) (log w).

(** The world with another matched restaurant in the session. *)
Definition with_match (restaurant_id : json) (w : world) : world :=
  mk_world (set_current_restaurant_id restaurant_id (session w))
    (restaurants w) (db_file w) (log w).

(** Was the model asked to resolve a restaurant reference? *)
Definition asked_for_match (e : event) : bool :=
  match e with
  | Asked (AskIntentWithContext _ _ _ _) => true
  | _ => false
  end.

(** States that [class State] declares and [process_state] never moves
    to. *)
Definition unused_state (st : State) : bool :=
  match st with
  | DATA_COLLECTION | NAME_RECEIVED | DATETIME_RECEIVED | PARTY_RECEIVED
  | DATABASE_PUSH => true
  | _ => false
  end.

(** States whose pass always answers: the reservation flow from
    Make-Reservation on, and what follows a commit. *)
Definition steady_state (st : State) : bool :=
  match st with
  | MAKE_RESERVATION | NAME_PROMPT | DATETIME_PROMPT | PARTY_PROMPT
  | CONFIRM_RESERVATION | RESERVATION_CONFIRMED | ERROR_HANDLING
  | RESERVATION_RETRY | SUPPORT | RESERVATION_SUCCESS => true
  | _ => false
  end.

(** How many passes a turn that starts in the state can take while no
    restaurant is matched. *)
Definition passes_needed (st : State) : nat :=
  match st with
  | RESTAURANT_SUGGESTION | RESTAURANT_DETAILS | THANK_YOU
  | NORMAL_CONVERSATION => 3
  | INTENT_DETECTION => 2
  | _ => 1
  end.

Definition is_recursion_error {A} (r : result A) : bool :=
  match r with
  | Raise RecursionError _ => true
  | _ => false
  end.

(** Number of requests to the model on record. *)
Fixpoint requests (l : list event) : nat :=
  match l with
  | [] => 0
  | Asked _ :: l' => S (requests l')
  | _ :: l' => requests l'
  end.

(** States in which a turn is answered without the model: the pass puts no
    request and does not hand the turn to a state that does. *)
Definition silent_state (st : State) : bool :=
  match st with
  | GREETING | INTENT_DETECTION | FIND_RESTAURANT | RESTAURANT_SUGGESTION
  | RESTAURANT_DETAILS | DATETIME_PROMPT | PARTY_PROMPT | THANK_YOU
  | NORMAL_CONVERSATION => false
  | _ => true
  end.

(** [new] is [old] with reservations appended: the same restaurants in the
    same order, every key but "reservations" as it was, and every list of
    reservations extended at its end. *)
Definition grown_from (old new : restaurant) : Prop :=
  exists added,
    new = with_reservations old (r_reservations old ++ added)%list.

Definition catalog_grown_from (old new : catalog) : Prop :=
  Forall2 grown_from old new.
(** The shape of a session that has been greeted. *)
Definition greeted_shape (w : world) : Prop :=
  state (session w) <> GREETING /\
  unused_state (state (session w)) = false /\
  (List.length (filtered_restaurants (session w)) <= 5)%nat /\
  exists rest, chat_history (session w) = (Assistant, greeting) :: rest.


(** Number of reservations on record in the catalog. *)
Definition reservation_count (rs : catalog) : nat :=
  list_sum (map (fun r => List.length (r_reservations r)) rs).


(** The comprehension of [process_state] with its subscript checked:
    [chat_history[i+1]] raises [IndexError], here [None], when the index is
    out of range. *)
Fixpoint pair_up (chat : list (role * string))
    (picked : list (nat * (role * string)))
  : option (list (string * string)) :=
  match picked with
  | [] => Some []
  | (i, msg) :: rest =>
      match nth_error chat (S i) with
      | Some next =>
          match pair_up chat rest with
          | Some pairs => Some ((snd msg, snd next) :: pairs)
          | None => None
          end
      | None => None
      end
  end.

Definition history_pairs_checked (chat : list (role * string))
  : option (list (string * string)) :=
  let picked := every_other (removelast chat) in
  pair_up chat (combine (seq 0 (List.length picked)) picked).

(** [chat_history[i]["content"]] *)
Definition content_at (chat : list (role * string)) (i : nat) : string :=
  snd (nth i chat (Assistant, "")).


(** The reply [{"party_size": "0"}]. *)
Definition reply_zero_text : string :=
  "{" ++ quoted "party_size" ++ ": " ++ quoted "0" ++ "}".


(** The test of the Confirm-Reservation state:
    ['yes' in user_input.lower() or 'correct' in user_input.lower() or
    'confirm' in user_input.lower()] *)
Definition confirms (rt : runtime) (user_input : string) : bool :=
  contains "yes" (lower rt user_input)
  || contains "correct" (lower rt user_input)
  || contains "confirm" (lower rt user_input).


(** * Database bootstrap: [create_database] *)

(** Bengaluru neighborhoods *)
Definition areas : list string :=
  ["Indiranagar"; "Koramangala"; "MG Road"; "Church Street"; "HSR Layout";
   "Whitefield"; "Jayanagar"; "JP Nagar"; "Malleshwaram"; "Lavelle Road";
   "Brigade Road"; "UB City"; "Bannerghatta Road"; "Electronic City";
   "Yelahanka"].

(** Cuisine types *)
Definition cuisines : list string :=
  ["South Indian"; "North Indian"; "Chinese"; "Italian"; "Continental";
   "Japanese"; "Mexican"; "Mediterranean"; "Thai"; "Fusion";
   "Bengali"; "Chettinad"; "Punjabi"; "Mughlai"; "Goan"].

(** Seating arrangements *)
Definition seating_options : list string :=
  ["Indoor"; "Outdoor"; "Rooftop"; "Private cabins"; "Bar seating";
   "Community tables"; "Window seating"; "Booth seating"; "Terrace";
   "Garden"].

(** The rupee sign, in UTF-8. *)
Definition rupee : string :=
  String (ascii_of_nat 226)
    (String (ascii_of_nat 130) (String (ascii_of_nat 185) EmptyString)).

(** Price ranges (for 2 people in INR) *)
Definition price_ranges : list string :=
  map (append rupee)
    ["500-1000"; "1000-1500"; "1500-2000"; "2000-2500"; "2500-3000";
     "3000-4000"; "4000-5000"; "5000-6000"; "6000-8000"; "8000+"].

(** Restaurant names *)
Definition names : list string :=
  ["Spice Garden"; "Bengaluru Bytes"; "Silicon Spices"; "Garden City Grill";
   "Cubbon Cuisine"; "Lalbagh Lunches"; "Namma Kitchen"; "Tech Park Tavern";
   "Kodava Kitchen"; "Brigade Bistro"; "Infosys Eatery"; "Startup Sizzlers";
   "Royal Repast"; "Majestic Meals"; "Palace Platters"; "Coffee Connect";
   "Monsoon Masala"; "Mango Mantra"; "Windmill Wok"; "Bamboo Bytes"].

Definition streets : list string := ["Main"; "Cross"; "Avenue"; "Street"].

(** The numbers the generator of [random] hands out while one restaurant is
    built, one for each call in the order of the dictionary display; each
    call reduces its number to its own range, so that every outcome of the
    call comes from some number and every number gives an outcome. *)
Record draws : Type := mk_draws {
  d_cuisine : nat;
  d_location : nat;
  d_price_range : nat;
  d_rating : nat;
  d_seating_count : nat;
  d_seating : nat -> nat;
  d_capacity : nat;
  d_weekdays_open : nat;
  d_weekdays_close : nat;
  d_weekends_open : nat;
  d_weekends_close : nat;
  d_street_number : nat;
  d_street : nat;
  d_area : nat;
  d_contact : nat
}.

(** [random.choice(l)] *)
Definition choice (l : list string) (k : nat) : string :=
  nth (k mod List.length l) l "".

(** [random.randint(a, b)] *)
Definition randint (a b : Z) (k : nat) : Z :=
  a + Z.of_nat k mod (b - a + 1).

(** [round(random.uniform(3.5, 4.9), 1)]: one of the fifteen ratings from
    3.5 to 4.9. *)
Definition rating_draw (k : nat) : Q :=
  Qmake (35 + Z.of_nat (k mod 15)) 10.

Definition remove_at (j : nat) (pool : list string) : list string :=
  (firstn j pool ++ skipn (S j) pool)%list.

(** [random.sample(pool, n)]: [n] picks without replacement.  On a pool
    with less than [n] elements Python raises [ValueError]; the list here is
    then shorter than [n]. *)
Fixpoint sample (pool : list string) (picks : nat -> nat) (n : nat)
  : list string :=
  match n with
  | O => []
  | S n' =>
      match pool with
      | [] => []
      | _ :: _ =>
          let j := (picks O mod List.length pool)%nat in
          nth j pool "" :: sample (remove_at j pool) (fun i => picks (S i)) n'
      end
  end.

(** The dictionary built in round [i] of the loop of [create_database]. *)
Definition generate_restaurant (rt : runtime) (i : nat) (d : draws)
  : restaurant :=
  let number := str_of rt (JInt (Z.of_nat i + 1)) in
  let hours (opens closes : nat) :=
    str_of rt (JInt (randint 8 12 opens)) ++ ":00 AM - "
    ++ str_of rt (JInt (randint 9 11 closes)) ++ ":00 PM" in
  mk_restaurant
    (Z.of_nat i + 1)
    (nth i names "")
    (choice cuisines (d_cuisine d))
    (choice areas (d_location d))
    (choice price_ranges (d_price_range d))
    (rating_draw (d_rating d))
    (sample seating_options (d_seating d)
       (Z.to_nat (randint 2 5 (d_seating_count d))))
    (randint 20 200 (d_capacity d))
    (hours (d_weekdays_open d) (d_weekdays_close d),
     hours (d_weekends_open d) (d_weekends_close d))
    ["Signature dish " ++ number; "Special drink " ++ number]
    (str_of rt (JInt (randint 1 100 (d_street_number d))) ++ ", "
     ++ choice streets (d_street d) ++ ", " ++ choice areas (d_area d)
     ++ ", Bengaluru")
    ("+91 " ++ str_of rt (JInt (randint 6000000000 9999999999 (d_contact d))))
    [].

(** [create_database]: [file] is the content of [restaurants_db.json], if
    the file exists; the result is its content after the call.  [random]
    gives the draws of each round. *)
Definition create_database (rt : runtime) (file : option catalog)
    (random : nat -> draws) : catalog :=
  match file with
  | Some existing => existing
  | None => map (fun i => generate_restaurant rt i (random i)) (seq 0 20)
  end.

(** What every restaurant of a generated catalog satisfies. *)
Record generated (r : restaurant) : Prop := mk_generated {
  gen_cuisine : In (r_cuisine r) cuisines;
  gen_location : In (r_location r) areas;
  gen_price_range : In (r_price_range r) price_ranges;
  gen_rating : (35 # 10 <= r_rating r <= 49 # 10)%Q;
  gen_seating_count :
    (2 <= List.length (r_seating_arrangements r) <= 5)%nat;
  gen_seating_distinct : NoDup (r_seating_arrangements r);
  gen_seating_known : incl (r_seating_arrangements r) seating_options;
  gen_capacity : 20 <= r_capacity r <= 200;
  gen_reservations : r_reservations r = []
}.


(** ** Vocabulary of the statements about a whole booking dialogue *)

(** Whatever came before, the model's reply to the date request for [text]
    decodes to an object whose "date" and "time" [strptime] reads as [dt]. *)
Definition reads_date (rt : runtime) (llm : oracle) (text : string)
    (dt : datetime) : Prop :=
  forall history, exists parsed,
    decoded_reply rt (llm history (AskDateTime text)) = Some parsed /\
    given parsed "date" = true /\ given parsed "time" = true /\
    strptime rt (format_value rt (dict_get parsed "date") ++ " "
                 ++ format_value rt (dict_get parsed "time")) = Some dt.

(** Whatever came before, the model's reply to the party-size request for
    [text] decodes to an object whose "party_size" is the integer [n]. *)
Definition reads_party_size (rt : runtime) (llm : oracle) (text : string)
    (n : Z) : Prop :=
  forall history, exists parsed,
    decoded_reply rt (llm history (AskPartySize text)) = Some parsed /\
    given parsed "party_size" = true /\
    py_int rt (dict_get parsed "party_size") = Some n.

(** The texts are not empty and none repeats the text before it, so that
    [main] processes each of them; [previous] is the text processed last. *)
Fixpoint new_turns (previous : option string) (texts : list string) : bool :=
  match texts with
  | [] => true
  | text :: rest =>
      negb (String.eqb text "")
      && match previous with
         | Some p => negb (String.eqb text p)
         | None => true
         end
      && new_turns (Some text) rest
  end.

(** The states [process_state] has dispatched on so far, most recent
    first. *)
Fixpoint dispatches (l : list event) : list State :=
  match l with
  | [] => []
  | Dispatched st :: l' => st :: dispatches l'
  | _ :: l' => dispatches l'
  end.

(** The scripted model, but at a loss with dates. *)
Definition unsure : oracle :=
  fun history req =>
    match req with
    | AskDateTime _ => "Sorry, which day do you mean?"
    | _ => scripted history req
    end.

(** *** A runtime with the day names of another locale *)

Definition dutch_weekday_names : list string :=
  ["maandag"; "dinsdag"; "woensdag"; "donderdag"; "vrijdag"; "zaterdag";
   "zondag"].

(** [strftime] when the locale prints Dutch day names; the other directives
    are left as in the C locale. *)
Fixpoint dutch_strftime (fmt : string) (dt : datetime) : string :=
  match fmt with
  | EmptyString => EmptyString
  | String c rest =>
      if Ascii.eqb c "%" then
        match rest with
        | String d rest' =>
            (if Ascii.eqb d "A"
             then nth (Z.to_nat (weekday dt)) dutch_weekday_names ""
             else directive d dt)
            ++ dutch_strftime rest' dt
        | EmptyString => "%"
        end
      else String c (dutch_strftime rest dt)
  end.

Definition dutch : runtime :=
  mk_runtime c_json_loads c_strptime dutch_strftime ascii_int_of_str
    ascii_str_of ascii_lower ascii_strip 1000.

(* ================================================================== *)
(** * Theorems *)

Lemma State_eqb_eq a b : State_eqb a b = true <-> a = b.
Proof. unfold State_eqb; destruct (State_eq_dec a b); split; congruence. Qed.

Lemma State_eqb_refl a : State_eqb a a = true.
Proof. now apply State_eqb_eq. Qed.

(** * The reservation transaction *)

Section Transaction.

Variable rt : runtime.

Lemma first_match_none rs rid :
  first_match rs rid = None <-> id_absent rs rid.
Proof.
  unfold id_absent; induction rs as [|r rest IH]; simpl.
  - split; [intros _ r [] | reflexivity].
  - destruct (py_eq_int (r_id r) rid) eqn:E.
    + split; [discriminate|]. intros H. specialize (H r (or_introl eq_refl)).
      congruence.
    + destruct (first_match rest rid) eqn:F; simpl.
      * split; [discriminate|]. intros H.
        assert (Some n = None) by (apply IH; intros; apply H; now right).
        discriminate.
      * split; [|reflexivity]. intros _ x [<-|Hx]; [exact E|].
        now apply IH.
Qed.

Lemma add_reservation_loop_absent rs rid name dt ps :
  id_absent rs rid -> add_reservation_loop rt rs rid name dt ps = NotFound.
Proof.
  induction rs as [|r rest IH]; intros H; simpl; [reflexivity|].
  rewrite (H r (or_introl eq_refl)).
  rewrite IH; [reflexivity|]. intros x Hx; apply H; now right.
Qed.

Lemma add_reservation_loop_found rs rid name dt ps j :
  first_match rs rid = Some j ->
  exists r,
    nth_error rs j = Some r /\
    py_eq_int (r_id r) rid = true /\
    add_reservation_loop rt rs rid name (Some dt) ps
    = Added (new_reservation rt (List.length (r_reservations r)) name dt ps)
        (set_nth j
           (with_reservations r
              (r_reservations r
               ++ [new_reservation rt (List.length (r_reservations r)) name dt
                     ps])%list)
           rs).
Proof.
  revert j; induction rs as [|r rest IH]; intros j; simpl; [discriminate|].
  destruct (py_eq_int (r_id r) rid) eqn:E.
  - intros [= <-]. exists r. simpl. auto.
  - destruct (first_match rest rid) as [k|] eqn:F; simpl; [|discriminate].
    intros [= <-]. destruct (IH k eq_refl) as (r' & Hn & He & Ha).
    exists r'. simpl. rewrite Ha. auto.
Qed.

Lemma add_reservation_loop_raises rs rid name ps j :
  first_match rs rid = Some j ->
  add_reservation_loop rt rs rid name None ps = AddRaised.
Proof.
  revert j; induction rs as [|r rest IH]; intros j; simpl; [discriminate|].
  destruct (py_eq_int (r_id r) rid); [reflexivity|].
  destruct (first_match rest rid) as [k|]; simpl; [|discriminate].
  intros _. now rewrite (IH k).
Qed.

Lemma first_match_set_nth rs rid j r l :
  nth_error rs j = Some r ->
  first_match (set_nth j (with_reservations r l) rs) rid = first_match rs rid.
Proof.
  revert j; induction rs as [|x rest IH]; intros [|j]; simpl; try discriminate.
  - now intros [= ->].
  - intros H. now rewrite IH.
Qed.

Lemma nth_error_set_nth {A} (l : list A) i j x :
  (j < List.length l)%nat ->
  nth_error (set_nth j x l) i = if Nat.eqb i j then Some x else nth_error l i.
Proof.
  revert i j; induction l as [|y rest IH]; intros i j; simpl; [lia|].
  destruct j as [|j]; destruct i as [|i]; simpl; try reflexivity.
  intros H. apply IH. lia.
Qed.

End Transaction.

Section TransactionSteps.

Variable rt : runtime.

Lemma add_reservation_found w rid name dt ps j :
  first_match (restaurants w) rid = Some j ->
  exists r,
    nth_error (restaurants w) j = Some r /\
    let res := new_reservation rt (List.length (r_reservations r)) name dt ps in
    let rs' := set_nth j (with_reservations r (r_reservations r ++ [res])%list)
                 (restaurants w) in
    add_reservation rt rid name (Some dt) ps w
    = Ok (true, Some res)
        (mk_world (session w) rs' rs' (Saved rs' :: log w)).
Proof.
  intros H.
  destruct (add_reservation_loop_found rt _ _ name dt ps _ H) as (r & Hn & _ & Ha).
  exists r. split; [exact Hn|].
  unfold add_reservation, bind, get_restaurants. rewrite Ha. reflexivity.
Qed.

Lemma add_reservation_not_found w rid name dt ps :
  first_match (restaurants w) rid = None ->
  add_reservation rt rid name dt ps w = Ok (false, None) w.
Proof.
  intros H. apply first_match_none in H.
  unfold add_reservation, bind, get_restaurants.
  now rewrite (add_reservation_loop_absent rt _ _ name dt ps H).
Qed.

Lemma set_nth_length {A} (l : list A) i x :
  List.length (set_nth i x l) = List.length l.
Proof.
  revert i; induction l as [|y rest IH]; intros [|i]; simpl; auto.
Qed.

Lemma targets_set_nth rs j r l i b :
  nth_error rs j = Some r ->
  targets (set_nth j (with_reservations r l) rs) i b = targets rs i b.
Proof.
  intros H. unfold targets. now rewrite (first_match_set_nth _ _ _ _ _ H).
Qed.

Lemma returned_for_ext rs rs' i bs outs :
  (forall b, targets rs' i b = targets rs i b) ->
  returned_for rs' i bs outs = returned_for rs i bs outs.
Proof.
  intros H. revert outs; induction bs as [|b bs IH]; intros [|o outs]; simpl;
    try reflexivity.
  rewrite H, IH. reflexivity.
Qed.

Lemma filter_targets_ext rs rs' i bs :
  (forall b, targets rs' i b = targets rs i b) ->
  filter (targets rs' i) bs = filter (targets rs i) bs.
Proof.
  intros H. induction bs as [|b bs IH]; simpl; [reflexivity|].
  now rewrite H, IH.
Qed.

(** Successive bookings, seen from one restaurant: it receives exactly the
    bookings that target it, numbered upwards from its own count. *)
Lemma book_all_at bs :
  forall w i r,
    nth_error (restaurants w) i = Some r ->
    exists outs w',
      book_all rt bs w = Ok outs w' /\
      List.length outs = List.length bs /\
      returned_for (restaurants w) i bs outs
      = map Some (news_from rt (List.length (r_reservations r))
                    (filter (targets (restaurants w) i) bs)) /\
      nth_error (restaurants w') i
      = Some (with_reservations r
                (r_reservations r
                 ++ news_from rt (List.length (r_reservations r))
                      (filter (targets (restaurants w) i) bs))%list) /\
      (forall b, targets (restaurants w') i b = targets (restaurants w) i b).
Proof.
  induction bs as [|b bs IH]; intros w i r Hi.
  - exists [], w. simpl. rewrite app_nil_r. destruct r; auto.
  - simpl book_all. unfold bind at 1.
    destruct (first_match (restaurants w) (b_restaurant_id b)) as [j|] eqn:F.
    + destruct (add_reservation_found w _ (b_name b) (b_datetime b)
                  (b_party_size b) _ F) as (rj & Hj & Ha).
      cbv zeta in Ha. rewrite Ha. clear Ha.
      assert (Hlt : (j < List.length (restaurants w))%nat)
        by (apply nth_error_Some; congruence).
      assert (Tb : targets (restaurants w) i b = Nat.eqb j i)
        by (unfold targets; now rewrite F).
      set (res := new_reservation rt (List.length (r_reservations rj))
                    (b_name b) (b_datetime b) (b_party_size b)).
      set (rs' := set_nth j _ (restaurants w)).
      set (w1 := mk_world _ rs' rs' _).
      assert (Ht : forall b', targets rs' i b' = targets (restaurants w) i b')
        by (intros; apply targets_set_nth; exact Hj).
      destruct (Nat.eqb j i) eqn:Eji.
      * apply Nat.eqb_eq in Eji; subst j.
        assert (rj = r) by congruence; subst rj.
        assert (Hi1 : nth_error (restaurants w1) i
                      = Some (with_reservations r (r_reservations r ++ [res])%list)).
        { simpl. unfold rs'. rewrite nth_error_set_nth by exact Hlt.
          now rewrite Nat.eqb_refl. }
        destruct (IH w1 i _ Hi1) as (outs & w' & Hb & Hl & Hr & Hn & Hs).
        exists (Some res :: outs), w'.
        unfold bind. rewrite Hb.
        simpl in Hr, Hn. rewrite length_app in Hr, Hn. simpl in Hr, Hn.
        rewrite Nat.add_1_r in Hr, Hn.
        rewrite (returned_for_ext _ _ _ _ _ Ht) in Hr.
        rewrite (filter_targets_ext _ _ _ _ Ht) in Hr, Hn.
        simpl. rewrite Tb. simpl.
        repeat split.
        -- now rewrite Hl.
        -- now rewrite Hr.
        -- rewrite Hn. unfold with_reservations; simpl.
           now rewrite <- app_assoc.
        -- intros b'. rewrite Hs. apply Ht.
      * assert (Hi1 : nth_error (restaurants w1) i = Some r).
        { simpl. unfold rs'. rewrite nth_error_set_nth by exact Hlt.
          rewrite Nat.eqb_sym, Eji. exact Hi. }
        destruct (IH w1 i _ Hi1) as (outs & w' & Hb & Hl & Hr & Hn & Hs).
        exists (Some res :: outs), w'.
        unfold bind. rewrite Hb.
        simpl in Hr, Hn.
        rewrite (returned_for_ext _ _ _ _ _ Ht) in Hr.
        rewrite (filter_targets_ext _ _ _ _ Ht) in Hr, Hn.
        simpl. rewrite Tb.
        repeat split; auto.
        intros b'. rewrite Hs. apply Ht.
    + rewrite (add_reservation_not_found w _ (b_name b) (Some (b_datetime b))
                 (b_party_size b) F).
      assert (Tb : targets (restaurants w) i b = false)
        by (unfold targets; now rewrite F).
      destruct (IH w i _ Hi) as (outs & w' & Hb & Hl & Hr & Hn & Hs).
      exists (None :: outs), w'.
      unfold bind. rewrite Hb. simpl. rewrite Tb.
      repeat split; auto.
Qed.

End TransactionSteps.

(** ** C2 and C3: what a commit writes *)

Lemma news_from_ids rt n bs :
  map res_id (news_from rt n bs)
  = map (fun k => Z.of_nat (n + k)) (seq 1 (List.length bs)).
Proof.
  revert n; induction bs as [|b bs IH]; intros n; simpl; [reflexivity|].
  f_equal; [lia|].
  rewrite IH, <- (seq_shift _ 1), map_map. apply map_ext. intros k.
  f_equal; lia.
Qed.

Lemma news_from_confirmed rt n bs :
  Forall (fun x => res_status x = "confirmed") (news_from rt n bs).
Proof.
  revert n; induction bs as [|b bs IH]; intros n; simpl; constructor; auto.
Qed.

Lemma news_from_length rt n bs :
  List.length (news_from rt n bs) = List.length bs.
Proof.
  revert n; induction bs as [|b bs IH]; intros n; simpl; auto.
Qed.

(** C2. Reservation ids are per restaurant: in any sequence of commits on
    any catalog, the restaurant at a given position receives one reservation
    for each commit that targets it; the k-th of them is returned and stored
    with the id (number of reservations it held at the start) + k and the
    status "confirmed", whatever is committed to the other restaurants in
    between. *)
Theorem reservation_ids_count_up :
  forall (rt : runtime) (w : world) (bs : list booking) (i : nat)
         (r : restaurant),
    nth_error (restaurants w) i = Some r ->
    exists outs w' news,
      book_all rt bs w = Ok outs w' /\
      returned_for (restaurants w) i bs outs = map Some news /\
      nth_error (restaurants w') i
      = Some (with_reservations r (r_reservations r ++ news)%list) /\
      List.length news
      = List.length (filter (targets (restaurants w) i) bs) /\
      map res_id news
      = map (fun k => Z.of_nat (List.length (r_reservations r) + k))
          (seq 1 (List.length news)) /\
      Forall (fun x => res_status x = "confirmed") news.
Proof.
  intros rt w bs i r Hi.
  destruct (book_all_at rt bs w i r Hi) as (outs & w' & Hb & _ & Hr & Hn & _).
  exists outs, w',
    (news_from rt (List.length (r_reservations r))
       (filter (targets (restaurants w) i) bs)).
  repeat split; auto.
  - apply news_from_length.
  - rewrite news_from_length. apply news_from_ids.
  - apply news_from_confirmed.
Qed.

Lemma reservation_ids_count_up_witness :
  nth_error (restaurants sample_world) 0 = Some spice_garden /\
  exists outs w' news,
    book_all cpython sample_bookings sample_world = Ok outs w' /\
    returned_for (restaurants sample_world) 0 sample_bookings outs
    = map Some news /\
    nth_error (restaurants w') 0
    = Some (with_reservations spice_garden
              (r_reservations spice_garden ++ news)%list) /\
    List.length news
    = List.length (filter (targets (restaurants sample_world) 0)
                     sample_bookings) /\
    map res_id news
    = map (fun k => Z.of_nat (List.length (r_reservations spice_garden) + k))
        (seq 1 (List.length news)) /\
    Forall (fun x => res_status x = "confirmed") news.
Proof.
  split; [reflexivity|].
  exact (reservation_ids_count_up cpython sample_world sample_bookings 0
           spice_garden eq_refl).
Defined.

(** C3. A commit against an id that no restaurant of the catalog has
    returns [(False, None)] and changes nothing: the list in memory, the file
    and the log of saves are what they were. *)
Theorem add_reservation_unknown_id :
  forall (rt : runtime) (w : world) (restaurant_id : json)
         (name : option string) (datetime_obj : option datetime)
         (party_size : option Z),
    id_absent (restaurants w) restaurant_id ->
    add_reservation rt restaurant_id name datetime_obj party_size w
    = Ok (false, None) w.
Proof.
  intros rt w rid name dt ps H.
  apply add_reservation_not_found. now apply first_match_none.
Qed.

Lemma add_reservation_unknown_id_witness :
  id_absent (restaurants sample_world) (JInt 7) /\
  add_reservation cpython (JInt 7) (Some "Asha") (Some sample_datetime)
    (Some 4) sample_world
  = Ok (false, None) sample_world.
Proof.
  assert (H : id_absent (restaurants sample_world) (JInt 7)).
  { intros r [<-|[<-|[]]]; reflexivity. }
  split; [exact H|].
  exact (add_reservation_unknown_id cpython sample_world (JInt 7)
           (Some "Asha") (Some sample_datetime) (Some 4) H).
Defined.

(** * The search engine *)

Section Search.

Variable rt : runtime.

Lemma insert_by_rating_perm x l :
  Permutation (insert_by_rating x l) (x :: l).
Proof.
  induction l as [|y l IH]; simpl; [reflexivity|].
  destruct (Qle_bool (r_rating y) (r_rating x)); [reflexivity|].
  rewrite IH. apply perm_swap.
Qed.

Lemma sort_by_rating_perm l : Permutation (sort_by_rating l) l.
Proof.
  induction l as [|x l IH]; simpl; [reflexivity|].
  rewrite insert_by_rating_perm. now constructor.
Qed.

Lemma sort_by_rating_length l :
  List.length (sort_by_rating l) = List.length l.
Proof. apply Permutation_length, sort_by_rating_perm. Qed.

Lemma insert_by_rating_sorted x l :
  StronglySorted rated_at_least l ->
  StronglySorted rated_at_least (insert_by_rating x l).
Proof.
  induction l as [|y l IH]; intros Hs; simpl.
  - repeat constructor.
  - inversion Hs as [|? ? Hl Hy]; subst.
    destruct (Qle_bool (r_rating y) (r_rating x)) eqn:E.
    + apply Qle_bool_iff in E.
      constructor; [exact Hs|]. constructor; [exact E|].
      eapply Forall_impl; [|exact Hy]. unfold rated_at_least; intros z Hz.
      eapply Qle_trans; eauto.
    + constructor; [now apply IH|].
      apply (Permutation_Forall (Permutation_sym (insert_by_rating_perm x l))).
      constructor; [|exact Hy].
      unfold rated_at_least. apply Qlt_le_weak, Qnot_le_lt.
      intros H. apply Qle_bool_iff in H. congruence.
Qed.

Lemma sort_by_rating_sorted l :
  StronglySorted rated_at_least (sort_by_rating l).
Proof.
  induction l as [|x l IH]; simpl; [constructor|].
  now apply insert_by_rating_sorted.
Qed.

Lemma in_firstn {A} n (l : list A) x : In x (firstn n l) -> In x l.
Proof.
  intros H. rewrite <- (firstn_skipn n l). apply in_or_app. now left.
Qed.

Lemma in_skipn {A} n (l : list A) x : In x (skipn n l) -> In x l.
Proof.
  intros H. rewrite <- (firstn_skipn n l). apply in_or_app. now right.
Qed.

(** A sorted list, cut anywhere: nothing behind the cut is rated above
    anything in front of it. *)
Lemma sorted_cut n l :
  StronglySorted rated_at_least l ->
  forall a b, In a (firstn n l) -> In b (skipn n l) -> rated_at_least a b.
Proof.
  revert n; induction l as [|x l IH]; intros [|n] Hs a b; simpl;
    try contradiction.
  inversion Hs as [|? ? Hl Hx]; subst.
  intros [<-|Ha] Hb.
  - rewrite Forall_forall in Hx. apply Hx. eapply in_skipn; eauto.
  - eapply IH; eauto.
Qed.

Lemma firstn_sorted n l :
  StronglySorted rated_at_least l ->
  StronglySorted rated_at_least (firstn n l).
Proof.
  revert n; induction l as [|x l IH]; intros [|n] Hs; simpl;
    try constructor.
  - inversion Hs; subst; now apply IH.
  - inversion Hs as [|? ? Hl Hx]; subst.
    rewrite Forall_forall in *. intros y Hy. apply Hx.
    eapply in_firstn; eauto.
Qed.

Lemma given_field o key d :
  dict_get d key = field_value o ->
  given d key = true ->
  exists s, o = Some s.
Proof.
  unfold given; intros ->. destruct o; simpl; [eauto|discriminate].
Qed.

(** The filters cannot raise on the dictionary of a query, and they keep
    restaurants of the catalog only. *)
Lemma apply_filters_query q rs :
  exists filtered,
    apply_filters rt (params_of_query q) rs = Some filtered /\
    incl filtered rs.
Proof.
  unfold apply_filters.
  assert (H1 : exists f1, filter_cuisine rt (params_of_query q) rs = Some f1
                          /\ incl f1 rs).
  { unfold filter_cuisine.
    destruct (given (params_of_query q) "cuisine") eqn:G.
    - destruct (given_field (q_cuisine q) "cuisine" (params_of_query q) eq_refl G)
        as [s Hs].
      change (dict_get (params_of_query q) "cuisine")
        with (field_value (q_cuisine q)).
      rewrite Hs; simpl. destruct rs; eexists; split; try reflexivity.
      + apply incl_refl.
      + apply incl_filter.
    - eexists; split; [reflexivity|apply incl_refl]. }
  destruct H1 as (f1 & -> & I1).
  assert (H2 : exists f2, filter_location rt (params_of_query q) f1 = Some f2
                          /\ incl f2 f1).
  { unfold filter_location.
    destruct (given (params_of_query q) "location") eqn:G.
    - destruct (given_field (q_location q) "location" (params_of_query q) eq_refl G)
        as [s Hs].
      change (dict_get (params_of_query q) "location")
        with (field_value (q_location q)).
      rewrite Hs; simpl. eexists; split; [reflexivity|apply incl_filter].
    - eexists; split; [reflexivity|apply incl_refl]. }
  destruct H2 as (f2 & -> & I2).
  assert (H3 : exists f3, filter_price_range rt (params_of_query q) f2 = Some f3
                          /\ incl f3 f2).
  { unfold filter_price_range.
    destruct (given (params_of_query q) "price_range") eqn:G.
    - destruct (given_field (q_price_range q) "price_range" (params_of_query q) eq_refl G)
        as [s Hs].
      change (dict_get (params_of_query q) "price_range")
        with (field_value (q_price_range q)).
      rewrite Hs; simpl. destruct f2; eexists; split; try reflexivity.
      + apply incl_refl.
      + apply incl_filter.
    - eexists; split; [reflexivity|apply incl_refl]. }
  destruct H3 as (f3 & -> & I3).
  assert (H4 : exists f4, filter_seating rt (params_of_query q) f3 = Some f4
                          /\ incl f4 f3).
  { unfold filter_seating.
    destruct (given (params_of_query q) "seating") eqn:G.
    - destruct (given_field (q_seating q) "seating" (params_of_query q) eq_refl G)
        as [s Hs].
      change (dict_get (params_of_query q) "seating")
        with (field_value (q_seating q)).
      rewrite Hs; simpl. eexists; split; [reflexivity|apply incl_filter].
    - eexists; split; [reflexivity|apply incl_refl]. }
  destruct H4 as (f4 & -> & I4).
  exists f4; split; [reflexivity|].
  eapply incl_tran; [exact I4|]. eapply incl_tran; [exact I3|].
  eapply incl_tran; eauto.
Qed.

End Search.

(** ** C5: the search never comes back empty-handed *)

Lemma length_zero_nil {A} (l : list A) : List.length l = 0%nat <-> l = [].
Proof. destruct l; simpl; split; intros; congruence. Qed.

(** C5. For every SearchQuery and catalog, [find_restaurants] returns a
    list, and the list is empty only for the empty catalog.  When the four
    filters leave no restaurant, the result is the first three restaurants of
    the catalog sorted by descending rating (all of them if it has fewer):
    sorted, taken from the catalog, and none of the restaurants left out is
    rated above one of them. *)
Theorem find_restaurants_never_empty :
  forall (rt : runtime) (q : SearchQuery) (rs : catalog),
    exists filtered found,
      apply_filters rt (params_of_query q) rs = Some filtered /\
      find_restaurants rt (params_of_query q) rs = Some found /\
      (found = [] <-> rs = []) /\
      (filtered = [] ->
       found = firstn 3 (sort_by_rating rs) /\
       List.length found = Nat.min 3 (List.length rs) /\
       StronglySorted rated_at_least found /\
       Permutation rs (found ++ skipn 3 (sort_by_rating rs)) /\
       forall a b,
         In a found -> In b (skipn 3 (sort_by_rating rs)) ->
         rated_at_least a b).
Proof.
  intros rt q rs.
  destruct (apply_filters_query rt q rs) as (filtered & Hf & Hi).
  unfold find_restaurants. rewrite Hf.
  destruct (5 <? List.length filtered)%nat eqn:E5.
  - apply Nat.ltb_lt in E5.
    exists filtered, (firstn 5 (sort_by_rating filtered)).
    split; [reflexivity|]. split; [reflexivity|]. split.
    + split.
      * intros H. apply length_zero_nil in H.
        rewrite length_firstn, sort_by_rating_length in H. lia.
      * intros ->. destruct filtered as [|x ?]; [simpl in E5; lia|].
        destruct (Hi x (or_introl eq_refl)).
    + intros ->. simpl in E5. lia.
  - destruct filtered as [|x filtered].
    + exists [], (firstn 3 (sort_by_rating rs)).
      split; [reflexivity|]. split; [reflexivity|]. split.
      * split; intros H; apply length_zero_nil; apply length_zero_nil in H.
        -- rewrite length_firstn, sort_by_rating_length in H. lia.
        -- rewrite length_firstn, sort_by_rating_length. lia.
      * intros _. split; [reflexivity|]. split.
        { now rewrite length_firstn, sort_by_rating_length. }
        split; [apply firstn_sorted, sort_by_rating_sorted|].
        split.
        { rewrite firstn_skipn. symmetry. apply sort_by_rating_perm. }
        apply sorted_cut, sort_by_rating_sorted.
    + exists (x :: filtered), (x :: filtered).
      split; [reflexivity|]. split; [reflexivity|]. split.
      * split; [discriminate|].
        intros ->. destruct (Hi x (or_introl eq_refl)).
      * discriminate.
Qed.

Lemma find_restaurants_never_empty_witness :
  exists filtered found,
    apply_filters cpython
      (params_of_query (mk_query (Some "Martian") None None None))
      sample_catalog = Some filtered /\
    find_restaurants cpython
      (params_of_query (mk_query (Some "Martian") None None None))
      sample_catalog = Some found /\
    (found = [] <-> sample_catalog = []) /\
    (filtered = [] ->
     found = firstn 3 (sort_by_rating sample_catalog) /\
     List.length found = Nat.min 3 (List.length sample_catalog) /\
     StronglySorted rated_at_least found /\
     Permutation sample_catalog
       (found ++ skipn 3 (sort_by_rating sample_catalog)) /\
     forall a b,
       In a found -> In b (skipn 3 (sort_by_rating sample_catalog)) ->
       rated_at_least a b).
Proof.
  exact (find_restaurants_never_empty cpython
           (mk_query (Some "Martian") None None None) sample_catalog).
Defined.

(** * The calendar *)

Lemma mod7_eq a b k : a = b + k * 7 -> a mod 7 = b mod 7.
Proof. intros ->. apply Z_mod_plus_full. Qed.

(** Leap days up to and including year [y], against those before it. *)
Lemma leap_count y :
  y / 4 - y / 100 + y / 400
  = (y - 1) / 4 - (y - 1) / 100 + (y - 1) / 400 + (if is_leap y then 1 else 0).
Proof.
  unfold is_leap.
  destruct (y mod 4 =? 0) eqn:E4; destruct (y mod 100 =? 0) eqn:E100;
    destruct (y mod 400 =? 0) eqn:E400; simpl;
    rewrite ?Z.eqb_eq, ?Z.eqb_neq in *;
    Z.div_mod_to_equations; lia.
Qed.

(** The same count from the century and the year within it. *)
Lemma century_split y :
  y / 4 - y / 100 + y / 400
  = 24 * (y / 100) + (y mod 100) / 4 + (y / 100) / 4.
Proof. Z.div_mod_to_equations; lia. Qed.

Ltac eval_month_term :=
  repeat match goal with
         | |- context [13 * ?a / 5] =>
             let v := eval vm_compute in (13 * a / 5) in
             change (13 * a / 5) with v
         end.

(** Python's [weekday()], computed from the ordinal of the day, is Zeller's
    congruence. *)
Lemma weekday_is_zeller y m d :
  1 <= m <= 12 ->
  weekday_of_date y m d = zeller_weekday y m d.
Proof.
  intros Hm.
  unfold weekday_of_date, zeller_weekday, zeller, toordinal, days_before_year,
    days_before_month.
  rewrite Zplus_mod_idemp_l.
  destruct (m <? 3) eqn:E3.
  - assert (H12 : m = 1 \/ m = 2) by lia.
    pose proof (century_split (y - 1)) as HC.
    pose proof (Z.div_mod (y - 1) 100 ltac:(lia)) as HD.
    apply mod7_eq with (k := 52 * (y - 1) + 17 * ((y - 1) / 100) + 4 * m - 9).
    destruct H12 as [-> | ->]; eval_month_term;
      cbn [Z.ltb Z.compare Pos.compare Pos.compare_cont andb];
      generalize dependent ((y - 1) / 4); generalize dependent ((y - 1) / 400);
      generalize dependent ((y - 1) mod 100 / 4);
      generalize dependent ((y - 1) / 100 / 4);
      generalize dependent ((y - 1) mod 100);
      generalize dependent ((y - 1) / 100); intros; lia.
  - assert (H3 : m = 3 \/ m = 4 \/ m = 5 \/ m = 6 \/ m = 7
               \/ m = 8 \/ m = 9 \/ m = 10 \/ m = 11 \/ m = 12) by lia.
    pose proof (leap_count y) as HL.
    pose proof (century_split y) as HC.
    pose proof (Z.div_mod y 100 ltac:(lia)) as HD.
    apply mod7_eq with (k := 52 * (y - 1) + 17 * (y / 100) + 4 * m - 5).
    destruct (is_leap y);
    destruct H3 as [->|[->|[->|[->|[->|[->|[->|[->|[->| ->]]]]]]]]];
      eval_month_term; cbn [Z.ltb Z.compare Pos.compare Pos.compare_cont andb];
      generalize dependent ((y - 1) / 4); generalize dependent ((y - 1) / 400);
      generalize dependent ((y - 1) / 100);
      generalize dependent (y / 4); generalize dependent (y / 400);
      generalize dependent (y mod 100 / 4);
      generalize dependent (y / 100 / 4);
      generalize dependent (y mod 100);
      generalize dependent (y / 100); intros; lia.
Qed.

Lemma datetime_month_range dt : 1 <= dt_month dt <= 12.
Proof.
  pose proof (dt_valid dt) as H. unfold valid_datetime in H.
  rewrite !andb_true_iff, !Z.leb_le in H. lia.
Qed.

Lemma weekday_range dt : 0 <= weekday dt < 7.
Proof. unfold weekday, weekday_of_date. apply Z.mod_pos_bound. lia. Qed.

Lemma weekday_name_in dt : In (weekday_name dt) weekday_names.
Proof.
  unfold weekday_name. apply nth_In.
  pose proof (weekday_range dt). simpl. lia.
Qed.

(** * The extraction services *)

(** ** C6: the weekday of a parsed date *)



(** ** C8: the party size *)

(** C8 as stated fails.  The reply with the party size -3 makes the
    extractor return -3: it does not return a positive integer or nothing. *)
Lemma parse_party_size_returns_negative :
  parse_party_size cpython (always reply_minus_three) "minus three of us"
    sample_world
  = Ok (Some (-3), "")
      (asked sample_world (AskPartySize "minus three of us")) /\
  ~ 0 < -3.
Proof. split; [reflexivity | lia]. Qed.

(** C8, amended.  The party-size extractor never raises and only asks the
    model once.  It returns either nothing with a clarification message that
    is not empty, or an integer with the empty message.  It returns nothing
    when the reply cannot be decoded and when the "party_size" field is
    falsy: zero, null or missing.  A non-zero integer field is returned as it
    is, whatever its sign. *)
Theorem parse_party_size_integer_or_absent :
  forall (rt : runtime) (llm : oracle) (user_input : string) (w : world),
    exists out,
      parse_party_size rt llm user_input w
      = Ok out (asked w (AskPartySize user_input)) /\
      ((fst out = None /\ snd out <> "") \/ (exists n, out = (Some n, ""))) /\
      (decoded_reply rt (llm (log w) (AskPartySize user_input)) = None ->
       fst out = None) /\
      (forall parsed,
          decoded_reply rt (llm (log w) (AskPartySize user_input))
          = Some parsed ->
          (truthy (dict_get parsed "party_size") = false -> fst out = None) /\
          (forall n, dict_get parsed "party_size" = JInt n -> n <> 0 ->
                     out = (Some n, ""))).
Proof.
  intros rt llm user_input w.
  unfold parse_party_size, bind, get_llm_response, decoded_reply, asked.
  destruct (search_json_object (llm (log w) (AskPartySize user_input)))
    as [json_str|].
  - destruct (json_loads rt json_str) as [parsed|].
    + unfold given. destruct (truthy (dict_get parsed "party_size")) eqn:T.
      * destruct (is_not_null_text (dict_get parsed "party_size")) eqn:N;
          simpl andb; cbv iota.
        -- destruct (py_int rt (dict_get parsed "party_size")) as [n|] eqn:P.
           ++ eexists; split; [reflexivity|]. split; [right; eauto|].
              split; [discriminate|]. intros p [= <-]. split; [congruence|].
              intros k Hk _. rewrite Hk in P. simpl in P. congruence.
           ++ eexists; split; [reflexivity|]. split; [left; split; [reflexivity|discriminate]|].
              split; [reflexivity|]. intros p [= <-]. split; [reflexivity|].
              intros k Hk _. rewrite Hk in P. discriminate.
        -- eexists; split; [reflexivity|]. split; [left; split; [reflexivity|discriminate]|].
           split; [reflexivity|]. intros p [= <-]. split; [reflexivity|].
           intros k Hk _. rewrite Hk in N. discriminate.
      * simpl andb; cbv iota.
        eexists; split; [reflexivity|]. split; [left; split; [reflexivity|discriminate]|].
        split; [reflexivity|]. intros p [= <-]. split; [reflexivity|].
        intros k Hk Hz. rewrite Hk in T. simpl in T.
        apply negb_false_iff, Z.eqb_eq in T. contradiction.
    + eexists; split; [reflexivity|]. split; [left; split; [reflexivity|discriminate]|].
      split; [reflexivity|]. discriminate.
  - eexists; split; [reflexivity|]. split; [left; split; [reflexivity|discriminate]|].
    split; [reflexivity|]. discriminate.
Qed.

Lemma parse_party_size_integer_or_absent_witness :
  exists out,
    parse_party_size cpython (always reply_minus_three) "minus three of us"
      sample_world
    = Ok out (asked sample_world (AskPartySize "minus three of us")) /\
    out = (Some (-3), "").
Proof.
  destruct (parse_party_size_integer_or_absent cpython
              (always reply_minus_three) "minus three of us" sample_world)
    as (out & Hrun & _ & _ & Hparsed).
  exists out. split; [exact Hrun|].
  refine (proj2 (Hparsed [("party_size", JInt (-3));
                          ("confidence", JStr "high")] _) (-3) _ _).
  - reflexivity.
  - reflexivity.
  - discriminate.
Defined.

(** * The orchestrator *)

(** ** What the services do to the world *)

Section Services.

Variable rt : runtime.
Variable llm : oracle.

Lemma detect_intent_run ui w :
  exists i, detect_intent rt llm ui w = Ok i (asked w (AskIntent ui)).
Proof.
  unfold detect_intent, bind, get_llm_response, ret, asked.
  repeat match goal with |- context [if ?b then _ else _] => destruct b end;
    eexists; reflexivity.
Qed.

Lemma extract_search_params_run ui w :
  exists d, extract_search_params rt llm ui w
            = Ok d (asked w (AskSearchParams ui)).
Proof.
  unfold extract_search_params, bind, get_llm_response, ret, asked.
  destruct (search_json_object _); [destruct (json_loads rt _)|];
    eexists; reflexivity.
Qed.

Lemma parse_date_time_run ui w :
  exists out, parse_date_time rt llm ui w = Ok out (asked w (AskDateTime ui)).
Proof.
  unfold parse_date_time, bind, get_llm_response, ret, asked.
  destruct (search_json_object _); [destruct (json_loads rt _)|];
    repeat match goal with
           | |- context [if ?b then _ else _] => destruct b
           | |- context [match strptime rt ?s with _ => _ end] =>
               destruct (strptime rt s)
           end;
    eexists; reflexivity.
Qed.

Lemma parse_party_size_run ui w :
  exists out, parse_party_size rt llm ui w = Ok out (asked w (AskPartySize ui)).
Proof.
  unfold parse_party_size, bind, get_llm_response, ret, asked.
  destruct (search_json_object _); [destruct (json_loads rt _)|];
    repeat match goal with
           | |- context [if ?b then _ else _] => destruct b
           | |- context [match py_int rt ?s with _ => _ end] =>
               destruct (py_int rt s)
           end;
    eexists; reflexivity.
Qed.

Lemma detect_intent_with_context_run ui names last all w :
  exists d, detect_intent_with_context rt llm ui names last all w
            = Ok d (asked w (AskIntentWithContext ui names last all)).
Proof.
  unfold detect_intent_with_context, bind, get_llm_response, ret, asked.
  destruct (search_json_object _); [destruct (json_loads rt _)|];
    eexists; reflexivity.
Qed.

Lemma add_reservation_run rid name dt ps w :
  (exists res rs',
      add_reservation rt rid name dt ps w
      = Ok (true, Some res) (mk_world (session w) rs' rs' (Saved rs' :: log w))
      /\ add_reservation_loop rt (restaurants w) rid name dt ps = Added res rs')
  \/ (add_reservation rt rid name dt ps w = Raise AttributeError w
      /\ add_reservation_loop rt (restaurants w) rid name dt ps = AddRaised)
  \/ (add_reservation rt rid name dt ps w = Ok (false, None) w
      /\ add_reservation_loop rt (restaurants w) rid name dt ps = NotFound).
Proof.
  unfold add_reservation, bind, get_restaurants, save_database, ret, raise.
  destruct (add_reservation_loop rt (restaurants w) rid name dt ps) eqn:E;
    [left|right; left|right; right]; eauto.
Qed.

End Services.

(** ** Case analysis of a pass *)

Ltac service_step :=
  match goal with
  | |- context [detect_intent ?r ?l ?ui ?w] =>
      let H := fresh in
      destruct (detect_intent_run r l ui w) as [? H]; rewrite H; clear H
  | |- context [extract_search_params ?r ?l ?ui ?w] =>
      let H := fresh in
      destruct (extract_search_params_run r l ui w) as [? H]; rewrite H;
      clear H
  | |- context [parse_date_time ?r ?l ?ui ?w] =>
      let H := fresh in
      destruct (parse_date_time_run r l ui w) as [[? ?] H]; rewrite H; clear H
  | |- context [parse_party_size ?r ?l ?ui ?w] =>
      let H := fresh in
      destruct (parse_party_size_run r l ui w) as [[? ?] H]; rewrite H; clear H
  | |- context [detect_intent_with_context ?r ?l ?ui ?n ?m ?a ?w] =>
      let H := fresh in
      destruct (detect_intent_with_context_run r l ui n m a w) as [? H];
      rewrite H; clear H
  | |- context [add_reservation ?r ?rid ?n ?d ?p ?w] =>
      let H := fresh in
      let L := fresh "Hloop" in
      destruct (add_reservation_run r rid n d p w)
        as [(? & ? & H & L)|[[H L]|[H L]]]; rewrite H; clear H
  end.

Ltac break_match :=
  match goal with
  | |- context [match ?x with _ => _ end] =>
      lazymatch x with
      | context [match _ with _ => _ end] => fail
      | _ => destruct x eqn:?
      end
  end.

Ltac pass_step :=
  first
    [ service_step
    | progress (unfold bind, ret, raise, get_session, get_restaurants,
                update_session, emit, generate_conversation_response,
                generate_restaurant_suggestions, generate_restaurant_details,
                get_llm_response, asked, apply_next, with_state)
    | progress cbn [session state restaurants db_file log
                    current_restaurant_id reservation_info
                    filtered_restaurants chat_history last_processed_input
                    set_state set_chat_history set_current_restaurant_id
                    set_reservation_info set_filtered_restaurants
                    set_last_processed_input set_ri_name set_ri_datetime
                    set_ri_party_size ri_name ri_datetime ri_party_size
                    world_of fst snd]
    | break_match ].

(** Splits the world into its fields and the state into its 22 cases, and
    runs the pass in each. *)
Ltac pass_cases w :=
  let s := fresh "s" in
  destruct w as [s ? ? ?]; destruct s as [[] ? ? [? ? ?] ? ?];
  unfold process_state_pass; repeat pass_step.

Section Orchestrator.

Variable rt : runtime.
Variable llm : oracle.

Lemma process_state_S d ui w :
  process_state rt llm (S d) ui w
  = match process_state_pass rt llm ui w with
    | Ok out w' =>
        if recurses (state (session w)) out
        then process_state rt llm d ui (apply_next (fst out) w')
        else Ok (response_or_default (snd out)) (apply_next (fst out) w')
    | Raise e w' => Raise e w'
    end.
Proof.
  cbn [process_state]. unfold bind at 1 2. unfold get_session at 1.
  destruct (process_state_pass rt llm ui w) as [[ns resp] w'|e w'];
    [|reflexivity].
  unfold recurses, apply_next, with_state, bind, update_session, ret.
  destruct ns as [ns|]; destruct resp as [resp|]; cbn [fst snd];
    try reflexivity.
  destruct (negb (State_eqb ns (state (session w)))); reflexivity.
Qed.

(** A property that every pass and the state update after it preserve holds
    after [process_state], however it ends. *)
Lemma process_state_preserves (P : world -> Prop) ui :
  (forall w, P w ->
             match process_state_pass rt llm ui w with
             | Ok out w' => P (apply_next (fst out) w')
             | Raise _ w' => P w'
             end) ->
  forall d w, P w -> P (world_of (process_state rt llm d ui w)).
Proof.
  intros Hpass. induction d as [|d IH]; intros w Hw; [exact Hw|].
  rewrite process_state_S. specialize (Hpass w Hw).
  destruct (process_state_pass rt llm ui w) as [out w'|e w']; [|exact Hpass].
  destruct (recurses (state (session w)) out); [now apply IH|exact Hpass].
Qed.

(** ** The invariant *)

Lemma pass_invariant ui w :
  session_invariant w ->
  match process_state_pass rt llm ui w with
  | Ok out w' => session_invariant (apply_next (fst out) w')
  | Raise _ w' => session_invariant w'
  end.
Proof.
  intros [H1 H2 H3 H4 H5 H6 H7 H8]. unfold passed in *.
  pass_cases w;
    cbn [session state restaurants db_file log current_restaurant_id
         reservation_info ri_name ri_datetime ri_party_size after_match
         after_name after_datetime after_party is_some] in *;
    constructor; unfold passed;
    cbn [session state restaurants db_file log current_restaurant_id
         reservation_info ri_name ri_datetime ri_party_size after_match
         after_name after_datetime after_party is_some set_state In];
    intros; try discriminate; auto 8.
  all: try (eexists; split; [reflexivity|];
            match goal with
            | H : negb (_ =? 0) = true |- _ =>
                apply negb_true_iff, Z.eqb_neq in H; exact H
            end).
Qed.

Lemma process_state_invariant d ui w :
  session_invariant w ->
  session_invariant (world_of (process_state rt llm d ui w)).
Proof.
  apply process_state_preserves. intros; now apply pass_invariant.
Qed.

(** The invariant only looks at the state, the matched restaurant, the
    draft and the log. *)
Lemma session_invariant_ext w w' :
  state (session w') = state (session w) ->
  current_restaurant_id (session w') = current_restaurant_id (session w) ->
  reservation_info (session w') = reservation_info (session w) ->
  log w' = log w ->
  session_invariant w -> session_invariant w'.
Proof.
  intros Hs Hi Hr Hl [H1 H2 H3 H4 H5 H6 H7 H8]. unfold passed in *.
  constructor; unfold passed; rewrite ?Hs, ?Hi, ?Hr, ?Hl; assumption.
Qed.

(** ** The structure of a run of [main] *)

Lemma main_unfold user_input w :
  main rt llm user_input w
  = if is_new_turn user_input w then
      match user_input with
      | Some text =>
          match process_state rt llm (recursion_limit rt) text
                  (opened text (greeted (loaded w))) with
          | Ok response w' => Ok (Replied response) (answered response w')
          | Raise e w' => Raise e w'
          end
      | None => Ok Ignored (greeted (loaded w))
      end
    else Ok Ignored (greeted (loaded w)).
Proof.
  unfold main, is_new_turn, greeted, loaded, opened, answered.
  unfold bind at 1 2 3. unfold load_database at 1. unfold get_session at 1.
  cbn [session state chat_history restaurants db_file log].
  destruct (State_eqb (state (session w)) GREETING
            && match chat_history (session w) with
               | [] => true
               | _ :: _ => false
               end);
    unfold update_session at 1; unfold ret at 1;
    cbn [session state chat_history restaurants db_file log];
    (destruct user_input as [text|]; [|reflexivity]);
    (destruct (String.eqb text ""); [reflexivity|]);
    unfold bind at 1; unfold get_session at 1;
    cbn [session last_processed_input set_state set_chat_history negb andb];
    (destruct (last_processed_input (session w)) as [previous|];
     [destruct (String.eqb text previous)|]);
    cbn [negb]; try reflexivity;
    unfold bind, update_session, ret;
    cbn [session state chat_history restaurants db_file log];
    (destruct (process_state rt llm (recursion_limit rt) text _);
     reflexivity).
Qed.

Lemma greeted_invariant w : session_invariant w -> session_invariant (greeted w).
Proof.
  unfold greeted.
  destruct (State_eqb (state (session w)) GREETING) eqn:E; cbn [andb]; auto.
  destruct (chat_history (session w)); auto.
  apply State_eqb_eq in E.
  intros [H1 H2 H3 H4 H5 H6 H7 H8]. unfold passed in *.
  constructor; unfold passed;
    cbn [session state set_state set_chat_history current_restaurant_id
         reservation_info log after_match after_name after_datetime
         after_party]; auto; discriminate.
Qed.

Lemma main_invariant user_input w :
  session_invariant w ->
  session_invariant (world_of (main rt llm user_input w)).
Proof.
  intros H. rewrite main_unfold.
  assert (Hg : session_invariant (greeted (loaded w))).
  { apply greeted_invariant.
    apply (session_invariant_ext w); auto. }
  destruct (is_new_turn user_input w); [|exact Hg].
  destruct user_input as [text|]; [|exact Hg].
  assert (Ho : session_invariant (opened text (greeted (loaded w)))).
  { apply (session_invariant_ext (greeted (loaded w))); auto. }
  pose proof (process_state_invariant (recursion_limit rt) text _ Ho) as Hp.
  destruct (process_state rt llm (recursion_limit rt) text _) as [resp w'|e w'];
    cbn [world_of] in *; [|exact Hp].
  apply (session_invariant_ext w'); auto.
Qed.

Lemma initial_invariant db : session_invariant (initial_world db).
Proof. constructor; cbn; intros; discriminate. Qed.

Lemma reachable_invariant w : reachable rt llm w -> session_invariant w.
Proof.
  induction 1 as [db|w ui _ IH|w db _ IH].
  - apply initial_invariant.
  - now apply main_invariant.
  - apply (session_invariant_ext w); auto.
Qed.

Lemma run_turns_reachable texts w :
  reachable rt llm w -> reachable rt llm (run_turns rt llm texts w).
Proof.
  revert w; induction texts as [|text rest IH]; intros w H; [exact H|].
  cbn [run_turns]. apply IH. now constructor.
Qed.

(** ** Where the catalog is written *)

Lemma add_reservation_loop_added rs rid name dt ps res rs' :
  add_reservation_loop rt rs rid name dt ps = Added res rs' ->
  exists d, dt = Some d.
Proof.
  revert res rs'; induction rs as [|r rest IH]; intros res rs'; simpl;
    [discriminate|].
  destruct (py_eq_int (r_id r) rid).
  - destruct dt; [eauto|discriminate].
  - destruct (add_reservation_loop rt rest rid name dt ps); try discriminate.
    intros _. eapply IH. reflexivity.
Qed.

(** The pass of the Reservation-Confirmed state: it commits, fails or
    raises as the transaction does, and touches nothing of the session. *)
Lemma confirmed_pass ui w :
  state (session w) = RESERVATION_CONFIRMED ->
  let s := session w in
  let outcome :=
    add_reservation_loop rt (restaurants w) (current_restaurant_id s)
      (ri_name (reservation_info s)) (ri_datetime (reservation_info s))
      (ri_party_size (reservation_info s)) in
  (exists res rs' msg,
      outcome = Added res rs' /\
      process_state_pass rt llm ui w
      = Ok (Some RESERVATION_SUCCESS, Some msg)
          (mk_world s rs' rs' (Saved rs' :: log (dispatched w))))
  \/ (outcome = AddRaised /\
      process_state_pass rt llm ui w = Raise AttributeError (dispatched w))
  \/ (outcome = NotFound /\
      exists msg,
        process_state_pass rt llm ui w
        = Ok (Some ERROR_HANDLING, Some msg) (dispatched w)).
Proof.
  destruct w as [s rs db lg]. cbn [session]. intros Hs. cbv zeta.
  unfold dispatched. cbn [session state restaurants db_file log].
  remember (process_state_pass rt llm ui (mk_world s rs db lg)) as p eqn:Hp.
  unfold process_state_pass in Hp.
  unfold bind at 1 2 in Hp. unfold get_session at 1 in Hp.
  unfold emit at 1 in Hp.
  cbn [session state restaurants db_file log] in Hp. rewrite Hs in Hp |- *.
  unfold bind at 1 in Hp.
  destruct (add_reservation_run rt (current_restaurant_id s)
              (ri_name (reservation_info s)) (ri_datetime (reservation_info s))
              (ri_party_size (reservation_info s))
              (mk_world s rs db (Dispatched RESERVATION_CONFIRMED :: lg)))
    as [(res & rs' & H & L)|[[H L]|[H L]]]; rewrite H in Hp; clear H;
    cbn [restaurants session log db_file fst] in L, Hp.
  - left. destruct (add_reservation_loop_added _ _ _ _ _ _ _ L) as [d Hd].
    unfold bind, get_restaurants, ret in Hp. rewrite Hd in Hp.
    exists res, rs'. eexists. split; [exact L|]. rewrite Hp. reflexivity.
  - right; left. split; [exact L|exact Hp].
  - right; right. split; [exact L|]. unfold ret in Hp. eexists. exact Hp.
Qed.

(** Any other pass writes nothing, and does not lead [process_state] into
    the Reservation-Confirmed state within the same turn. *)
Lemma quiet_pass ui w :
  state (session w) <> RESERVATION_CONFIRMED ->
  match process_state_pass rt llm ui w with
  | Ok out w' =>
      saves (log w') = saves (log w) /\ db_file w' = db_file w /\
      restaurants w' = restaurants w /\
      (recurses (state (session w)) out = true ->
       fst out <> Some RESERVATION_CONFIRMED)
  | Raise _ w' =>
      saves (log w') = saves (log w) /\ db_file w' = db_file w /\
      restaurants w' = restaurants w
  end.
Proof.
  intros Hs. pass_cases w; cbn [session state] in Hs; try congruence;
    cbn [saves recurses fst snd]; repeat split; auto; discriminate.
Qed.

Lemma quiet_process_state ui d :
  forall w,
    state (session w) <> RESERVATION_CONFIRMED ->
    let w' := world_of (process_state rt llm d ui w) in
    saves (log w') = saves (log w) /\ db_file w' = db_file w /\
    restaurants w' = restaurants w.
Proof.
  induction d as [|d IH]; intros w Hs; cbv zeta; [cbn; auto|].
  rewrite process_state_S. pose proof (quiet_pass ui w Hs) as Hq.
  destruct (process_state_pass rt llm ui w) as [[ns resp] w1|e w1];
    [|exact Hq].
  destruct Hq as (Q1 & Q2 & Q3 & Q4).
  destruct (recurses (state (session w)) (ns, resp)) eqn:R.
  - specialize (Q4 eq_refl). cbn [fst] in *.
    destruct ns as [ns|]; [|destruct resp; discriminate R].
    assert (Hn : state (session (apply_next (Some ns) w1))
                 <> RESERVATION_CONFIRMED) by (cbn; congruence).
    destruct (IH _ Hn) as (I1 & I2 & I3).
    unfold apply_next, with_state in I1, I2, I3 |- *.
    cbn [log db_file restaurants] in I1, I2, I3.
    rewrite I1, I2, I3. auto.
  - cbn [world_of fst]. destruct ns; cbn; auto.
Qed.

(** ** Turns *)

Lemma greeted_state_confirmed w :
  state (session (greeted w)) = RESERVATION_CONFIRMED <->
  state (session w) = RESERVATION_CONFIRMED.
Proof.
  unfold greeted. destruct (State_eqb (state (session w)) GREETING) eqn:E;
    cbn [andb]; [|tauto].
  apply State_eqb_eq in E.
  destruct (chat_history (session w)); [|tauto].
  cbn. rewrite E. split; discriminate.
Qed.

Lemma greeted_frame w :
  log (greeted w) = log w /\ db_file (greeted w) = db_file w /\
  restaurants (greeted w) = restaurants w /\
  current_restaurant_id (session (greeted w))
  = current_restaurant_id (session w) /\
  reservation_info (session (greeted w)) = reservation_info (session w) /\
  last_processed_input (session (greeted w))
  = last_processed_input (session w).
Proof.
  unfold greeted.
  destruct (State_eqb (state (session w)) GREETING
            && match chat_history (session w) with
               | [] => true
               | _ :: _ => false
               end); cbn; auto 10.
Qed.

Lemma greeted_same w :
  state (session w) <> GREETING -> greeted w = w.
Proof.
  intros H. unfold greeted.
  destruct (State_eqb (state (session w)) GREETING) eqn:E; [|reflexivity].
  apply State_eqb_eq in E. contradiction.
Qed.

(** A turn that is not processed only loads the catalog and, at session
    start, greets. *)
Lemma ignored_turn user_input w :
  is_new_turn user_input w = false ->
  main rt llm user_input w = Ok Ignored (greeted (loaded w)).
Proof.
  intros H. rewrite main_unfold, H. reflexivity.
Qed.

(** A processed turn that starts anywhere but in the Reservation-Confirmed
    state writes nothing. *)
Lemma quiet_turn user_input w :
  state (session w) <> RESERVATION_CONFIRMED ->
  let w' := world_of (main rt llm user_input w) in
  saves (log w') = saves (log w) /\ db_file w' = db_file w.
Proof.
  intros Hs. cbv zeta. rewrite main_unfold.
  destruct (greeted_frame (loaded w)) as (G1 & G2 & _).
  cbn [loaded log db_file] in G1, G2.
  destruct (is_new_turn user_input w); [|cbn [world_of]; now rewrite G1, G2].
  destruct user_input as [text|]; [|cbn [world_of]; now rewrite G1, G2].
  assert (Ho : state (session (opened text (greeted (loaded w))))
               <> RESERVATION_CONFIRMED).
  { cbn [opened session state set_chat_history set_last_processed_input].
    rewrite greeted_state_confirmed. exact Hs. }
  destruct (quiet_process_state text (recursion_limit rt) _ Ho)
    as (Q1 & Q2 & _).
  cbn [opened log db_file] in Q1, Q2.
  destruct (process_state rt llm (recursion_limit rt) text _) as [resp w1|e w1];
    cbn [world_of answered log db_file] in *; rewrite Q1, Q2, G1, G2; auto.
Qed.

(** A processed turn that starts in the Reservation-Confirmed state is one
    pass: the transaction decides how it ends, and the matched restaurant
    and the draft stay as they are. *)
Lemma confirmed_turn text w :
  state (session w) = RESERVATION_CONFIRMED ->
  is_new_turn (Some text) w = true ->
  (0 < recursion_limit rt)%nat ->
  let s := session w in
  let w' := world_of (main rt llm (Some text) w) in
  current_restaurant_id (session w') = current_restaurant_id s /\
  reservation_info (session w') = reservation_info s /\
  match add_reservation_loop rt (db_file w) (current_restaurant_id s)
          (ri_name (reservation_info s)) (ri_datetime (reservation_info s))
          (ri_party_size (reservation_info s)) with
  | Added res rs' =>
      state (session w') = RESERVATION_SUCCESS /\ db_file w' = rs' /\
      log w' = Saved rs' :: Dispatched RESERVATION_CONFIRMED :: log w
  | AddRaised =>
      state (session w') = RESERVATION_CONFIRMED /\ db_file w' = db_file w /\
      log w' = Dispatched RESERVATION_CONFIRMED :: log w
  | NotFound =>
      state (session w') = ERROR_HANDLING /\ db_file w' = db_file w /\
      log w' = Dispatched RESERVATION_CONFIRMED :: log w
  end.
Proof.
  intros Hs Hn Hl. cbv zeta. rewrite main_unfold, Hn.
  rewrite greeted_same by (cbn; congruence).
  destruct (recursion_limit rt) as [|d]; [lia|].
  rewrite process_state_S.
  assert (Ho : state (session (opened text (loaded w)))
               = RESERVATION_CONFIRMED) by exact Hs.
  destruct (confirmed_pass text _ Ho)
    as [(res & rs' & msg & L & P)|[[L P]|[L (msg & P)]]];
    cbn [opened loaded session restaurants current_restaurant_id
         reservation_info set_chat_history set_last_processed_input] in L;
    rewrite L, P; cbn; rewrite ?Hs; cbn;
    repeat split; auto;
    destruct (String.eqb msg ""); reflexivity.
Qed.

Lemma cons_neq {A} (x : A) l : x :: l <> l.
Proof.
  intros H. apply (f_equal (@List.length A)) in H. simpl in H. lia.
Qed.

End Orchestrator.

(** ** C1: when a reservation is committed *)

(** C1 as stated fails.  The model picked the id 999 for the restaurant.
    The session then walks through the three prompts and the confirmation:
    it is in the Reservation-Confirmed state, the draft is complete and the
    matched id is not null, and yet the next turn commits nothing.  A
    complete draft and a matched id do not suffice for a commit. *)
Lemma full_draft_without_commit :
  let w := run_turns cpython scripted misled_conversation
             (initial_world sample_catalog) in
  let w' := world_of (main cpython scripted (Some "go ahead") w) in
  reachable cpython scripted w /\
  state (session w) = RESERVATION_CONFIRMED /\
  reservation_info (session w)
  = mk_reservation_info (Some "Asha") (Some sample_datetime) (Some 4) /\
  current_restaurant_id (session w) = JInt 999 /\
  is_new_turn (Some "go ahead") w = true /\
  saves (log w') = saves (log w) /\
  db_file w' = db_file w /\
  map r_reservations (db_file w') = [[]; []] /\
  state (session w') = ERROR_HANDLING.
Proof.
  cbv zeta. split.
  - apply run_turns_reachable, reach_start.
  - vm_compute. repeat split; reflexivity.
Qed.

Lemma truthy_not_null v : truthy v = true -> v <> JNull.
Proof. intros H ->. discriminate. Qed.

(** C1, amended.  In every world a session can reach:
    - if the session is in the Reservation-Confirmed state, the passes of
      the Restaurant-Suggestion state and of the Name, DateTime and Party
      prompts are behind it, the matched restaurant id is truthy and the
      three fields of the draft are set;
    - a run commits (writes the catalog) only if it processes a new turn in
      the Reservation-Confirmed state with the three fields set and a
      matched id that is not null, and then it appends to the first
      restaurant of that id the reservation built from the draft;
    - a new turn processed in the Reservation-Confirmed state commits if and
      only if a restaurant of the catalog has the matched id. *)
Theorem commit_needs_full_draft :
  forall (rt : runtime) (llm : oracle) (w : world)
         (user_input : option string),
    reachable rt llm w ->
    let s := session w in
    let w' := world_of (main rt llm user_input w) in
    (state s = RESERVATION_CONFIRMED ->
     passed RESTAURANT_SUGGESTION w /\ passed NAME_PROMPT w /\
     passed DATETIME_PROMPT w /\ passed PARTY_PROMPT w /\
     truthy (current_restaurant_id s) = true /\
     is_some (ri_name (reservation_info s)) = true /\
     is_some (ri_datetime (reservation_info s)) = true /\
     is_some (ri_party_size (reservation_info s)) = true) /\
    (saves (log w') <> saves (log w) ->
     state s = RESERVATION_CONFIRMED /\
     is_new_turn user_input w = true /\
     current_restaurant_id s <> JNull /\
     exists nm dt n j r,
       reservation_info s = mk_reservation_info (Some nm) (Some dt) (Some n) /\
       first_match (db_file w) (current_restaurant_id s) = Some j /\
       nth_error (db_file w) j = Some r /\
       db_file w'
       = set_nth j
           (with_reservations r
              (r_reservations r
               ++ [new_reservation rt (List.length (r_reservations r))
                     (Some nm) dt (Some n)])%list)
           (db_file w)) /\
    (state s = RESERVATION_CONFIRMED ->
     is_new_turn user_input w = true ->
     (0 < recursion_limit rt)%nat ->
     (saves (log w') <> saves (log w) <->
      first_match (db_file w) (current_restaurant_id s) <> None)).
Proof.
  intros rt llm w user_input Hr. cbv zeta.
  pose proof (reachable_invariant rt llm w Hr) as [H1 H2 H3 H4 H5 H6 H7 H8].
  assert (Hfull : state (session w) = RESERVATION_CONFIRMED ->
                  truthy (current_restaurant_id (session w)) = true /\
                  exists nm dt n,
                    reservation_info (session w)
                    = mk_reservation_info (Some nm) (Some dt) (Some n)).
  { intros Hs. rewrite Hs in *. split; [now apply H1|].
    specialize (H2 eq_refl). specialize (H3 eq_refl).
    destruct (H4 eq_refl) as (n & Hn & _).
    destruct (reservation_info (session w)) as [[nm|] [dt|] ps];
      cbn in *; try discriminate. subst ps. eauto. }
  (* what a processed turn in the Reservation-Confirmed state does *)
  assert (Hturn : forall text,
             state (session w) = RESERVATION_CONFIRMED ->
             is_new_turn (Some text) w = true ->
             (0 < recursion_limit rt)%nat ->
             let w' := world_of (main rt llm (Some text) w) in
             match first_match (db_file w) (current_restaurant_id (session w))
             with
             | Some j =>
                 saves (log w') <> saves (log w) /\
                 exists nm dt n r,
                   reservation_info (session w)
                   = mk_reservation_info (Some nm) (Some dt) (Some n) /\
                   nth_error (db_file w) j = Some r /\
                   db_file w'
                   = set_nth j
                       (with_reservations r
                          (r_reservations r
                           ++ [new_reservation rt
                                 (List.length (r_reservations r))
                                 (Some nm) dt (Some n)])%list)
                       (db_file w)
             | None => saves (log w') = saves (log w)
             end).
  { intros text Hs Hn Hl. cbv zeta.
    destruct (confirmed_turn rt llm text w Hs Hn Hl) as (_ & _ & Hc).
    destruct (Hfull Hs) as (_ & nm & dt & n & Hri).
    rewrite Hri in Hc. cbn [ri_name ri_datetime ri_party_size] in Hc.
    destruct (first_match (db_file w) (current_restaurant_id (session w)))
      as [j|] eqn:F.
    - destruct (add_reservation_loop_found rt _ _ (Some nm) dt (Some n) _ F)
        as (r & Hj & _ & Ha).
      rewrite Ha in Hc. destruct Hc as (_ & Hdb & Hlog).
      split; [rewrite Hlog; cbn [saves]; apply cons_neq|].
      exists nm, dt, n, r. auto.
    - apply first_match_none in F.
      rewrite (add_reservation_loop_absent rt _ _ (Some nm) (Some dt)
                 (Some n) F) in Hc.
      destruct Hc as (_ & _ & Hlog). now rewrite Hlog. }
  split; [|split].
  - intros Hs. destruct (Hfull Hs) as (Ht & nm & dt & n & Hri).
    rewrite Hs in *. rewrite Hri in *. cbn [ri_name ri_datetime ri_party_size is_some] in *.
    repeat split; auto.
  - intros Hsaved.
    destruct (State_eq_dec (state (session w)) RESERVATION_CONFIRMED)
      as [Hs|Hs];
      [|destruct (quiet_turn rt llm user_input w Hs) as [Hq _]; congruence].
    destruct (is_new_turn user_input w) eqn:Hn.
    2:{ rewrite (ignored_turn rt llm _ _ Hn) in Hsaved.
        cbn [world_of] in Hsaved.
        rewrite (proj1 (greeted_frame (loaded w))) in Hsaved.
        now contradiction Hsaved. }
    destruct user_input as [text|]; [|discriminate Hn].
    assert (Hl : (0 < recursion_limit rt)%nat).
    { destruct (recursion_limit rt) eqn:El; [|lia].
      rewrite main_unfold, Hn, El in Hsaved. cbn in Hsaved.
      rewrite (proj1 (greeted_frame (loaded w))) in Hsaved.
      now contradiction Hsaved. }
    specialize (Hturn text Hs Hn Hl). cbv zeta in Hturn.
    destruct (Hfull Hs) as (Ht & _).
    destruct (first_match (db_file w) (current_restaurant_id (session w)))
      as [j|]; [|contradiction].
    destruct Hturn as (_ & nm & dt & n & r & Hri & Hj & Hdb).
    split; [exact Hs|]. split; [reflexivity|].
    split; [now apply truthy_not_null|].
    exists nm, dt, n, j, r. auto.
  - intros Hs Hn Hl.
    destruct user_input as [text|]; [|discriminate Hn].
    specialize (Hturn text Hs Hn Hl). cbv zeta in Hturn.
    destruct (first_match (db_file w) (current_restaurant_id (session w)))
      as [j|].
    + split; [discriminate|]. intros _. apply Hturn.
    + split; [contradiction|]. intros H; now contradiction H.
Qed.

Lemma commit_needs_full_draft_witness :
  let w := run_turns cpython scripted booking_conversation
             (initial_world sample_catalog) in
  let w' := world_of (main cpython scripted (Some "go ahead") w) in
  reachable cpython scripted w /\
  saves (log w') <> saves (log w) /\
  state (session w) = RESERVATION_CONFIRMED /\
  current_restaurant_id (session w) <> JNull /\
  exists nm dt n j r,
    reservation_info (session w)
    = mk_reservation_info (Some nm) (Some dt) (Some n) /\
    first_match (db_file w) (current_restaurant_id (session w)) = Some j /\
    nth_error (db_file w) j = Some r /\
    db_file w'
    = set_nth j
        (with_reservations r
           (r_reservations r
            ++ [new_reservation cpython (List.length (r_reservations r))
                  (Some nm) dt (Some n)])%list)
        (db_file w).
Proof.
  cbv zeta.
  assert (Hr : reachable cpython scripted
                 (run_turns cpython scripted booking_conversation
                    (initial_world sample_catalog)))
    by apply run_turns_reachable, reach_start.
  assert (Hs : saves (log (world_of (main cpython scripted (Some "go ahead")
                  (run_turns cpython scripted booking_conversation
                     (initial_world sample_catalog)))))
               <> saves (log (run_turns cpython scripted booking_conversation
                                (initial_world sample_catalog))))
    by (vm_compute; discriminate).
  destruct (commit_needs_full_draft cpython scripted _ (Some "go ahead") Hr)
    as (_ & Honly & _).
  destruct (Honly Hs) as (H1 & _ & H3 & H4).
  repeat split; auto.
Defined.

Section Turns.

Variable rt : runtime.
Variable llm : oracle.

(** A run that writes the catalog processes a new turn in the
    Reservation-Confirmed state. *)
Lemma committing_turn user_input w :
  saves (log (world_of (main rt llm user_input w))) <> saves (log w) ->
  state (session w) = RESERVATION_CONFIRMED /\
  (0 < recursion_limit rt)%nat /\
  exists text, user_input = Some text /\ is_new_turn (Some text) w = true.
Proof.
  intros Hsaved.
  destruct (State_eq_dec (state (session w)) RESERVATION_CONFIRMED)
    as [Hs|Hs];
    [|destruct (quiet_turn rt llm user_input w Hs) as [Hq _]; congruence].
  destruct (is_new_turn user_input w) eqn:Hn.
  2:{ rewrite (ignored_turn rt llm _ _ Hn) in Hsaved.
      cbn [world_of] in Hsaved.
      rewrite (proj1 (greeted_frame (loaded w))) in Hsaved.
      now contradiction Hsaved. }
  destruct user_input as [text|]; [|discriminate Hn].
  split; [exact Hs|]. split; [|eauto].
  destruct (recursion_limit rt) eqn:El; [|lia].
  rewrite main_unfold, Hn, El in Hsaved. cbn in Hsaved.
  rewrite (proj1 (greeted_frame (loaded w))) in Hsaved.
  now contradiction Hsaved.
Qed.

(** Whatever the state, a run commits nothing when no restaurant of the
    catalog has the matched id. *)
Lemma turn_with_absent_id user_input w :
  id_absent (db_file w) (current_restaurant_id (session w)) ->
  let w' := world_of (main rt llm user_input w) in
  saves (log w') = saves (log w) /\ db_file w' = db_file w.
Proof.
  intros Ha. cbv zeta.
  destruct (State_eq_dec (state (session w)) RESERVATION_CONFIRMED)
    as [Hs|Hs]; [|now apply quiet_turn].
  destruct (is_new_turn user_input w) eqn:Hn.
  2:{ rewrite (ignored_turn rt llm _ _ Hn). cbn [world_of].
      destruct (greeted_frame (loaded w)) as (G1 & G2 & _).
      now rewrite G1, G2. }
  destruct user_input as [text|]; [|discriminate Hn].
  destruct (recursion_limit rt) eqn:El.
  - rewrite main_unfold, Hn, El. cbn.
    destruct (greeted_frame (loaded w)) as (G1 & G2 & _).
    now rewrite G1, G2.
  - assert (Hl : (0 < recursion_limit rt)%nat) by lia.
    destruct (confirmed_turn rt llm text w Hs Hn Hl) as (_ & _ & Hc).
    rewrite (add_reservation_loop_absent rt _ _ _ _ _ Ha) in Hc.
    destruct Hc as (_ & Hdb & Hlog). now rewrite Hlog, Hdb.
Qed.

(** A run writes the catalog at most once. *)
Lemma turn_saves_at_most_one user_input w :
  let w' := world_of (main rt llm user_input w) in
  saves (log w') = saves (log w)
  \/ exists rs', saves (log w') = rs' :: saves (log w).
Proof.
  cbv zeta.
  destruct (State_eq_dec (state (session w)) RESERVATION_CONFIRMED)
    as [Hs|Hs]; [|left; now apply quiet_turn].
  destruct (is_new_turn user_input w) eqn:Hn.
  2:{ left. rewrite (ignored_turn rt llm _ _ Hn). cbn [world_of].
      now rewrite (proj1 (greeted_frame (loaded w))). }
  destruct user_input as [text|]; [|discriminate Hn].
  destruct (recursion_limit rt) eqn:El.
  - left. rewrite main_unfold, Hn, El. cbn.
    now rewrite (proj1 (greeted_frame (loaded w))).
  - assert (Hl : (0 < recursion_limit rt)%nat) by lia.
    destruct (confirmed_turn rt llm text w Hs Hn Hl) as (_ & _ & Hc).
    destruct (add_reservation_loop rt (db_file w) _ _ _ _) as [res rs'| |];
      destruct Hc as (_ & _ & Hlog); rewrite Hlog; cbn [saves]; eauto.
Qed.

End Turns.

(** ** C9: the draft after a commit *)

(** C9 as stated fails.  The sample conversation commits a reservation for
    Asha at Spice Garden.  When the next turn comes, and after it, the draft still holds her name,
    the date and the party size: nothing was reset. *)
Lemma draft_kept_after_commit :
  let w := run_turns cpython scripted (booking_conversation ++ ["go ahead"])
             (initial_world sample_catalog) in
  let w' := world_of (main cpython scripted (Some "thanks a lot") w) in
  reachable cpython scripted w /\
  state (session w) = RESERVATION_SUCCESS /\
  map r_reservations (db_file w)
  = [[mk_reservation 1 (Some "Asha") "2025-06-14 19:30" (Some 4)
        "confirmed"]; []] /\
  ri_name (reservation_info (session w)) = Some "Asha" /\
  ri_datetime (reservation_info (session w)) = Some sample_datetime /\
  ri_party_size (reservation_info (session w)) = Some 4 /\
  reservation_info (session w')
  = mk_reservation_info (Some "Asha") (Some sample_datetime) (Some 4).
Proof.
  cbv zeta. split.
  - apply run_turns_reachable, reach_start.
  - vm_compute. repeat split; reflexivity.
Qed.

(** C9, amended.  A commit leaves the draft alone: after the run that
    commits a reservation, holder name, date-time and party size are what
    they were before it, and none of them is absent. *)
Theorem draft_survives_commit :
  forall (rt : runtime) (llm : oracle) (w : world)
         (user_input : option string),
    reachable rt llm w ->
    let w' := world_of (main rt llm user_input w) in
    saves (log w') <> saves (log w) ->
    reservation_info (session w') = reservation_info (session w) /\
    is_some (ri_name (reservation_info (session w'))) = true /\
    is_some (ri_datetime (reservation_info (session w'))) = true /\
    is_some (ri_party_size (reservation_info (session w'))) = true.
Proof.
  intros rt llm w user_input Hr. cbv zeta. intros Hsaved.
  destruct (committing_turn rt llm _ _ Hsaved) as (Hs & Hl & text & -> & Hn).
  destruct (confirmed_turn rt llm text w Hs Hn Hl) as (_ & Hri & _).
  rewrite Hri. split; [reflexivity|].
  pose proof (reachable_invariant rt llm w Hr) as [_ H2 H3 H4 _ _ _ _].
  rewrite Hs in *. destruct (H4 eq_refl) as (n & Hp & _). rewrite Hp.
  repeat split; auto.
Qed.

Lemma draft_survives_commit_witness :
  let w := run_turns cpython scripted booking_conversation
             (initial_world sample_catalog) in
  let w' := world_of (main cpython scripted (Some "go ahead") w) in
  reachable cpython scripted w /\
  saves (log w') <> saves (log w) /\
  reservation_info (session w') = reservation_info (session w) /\
  is_some (ri_name (reservation_info (session w'))) = true /\
  is_some (ri_datetime (reservation_info (session w'))) = true /\
  is_some (ri_party_size (reservation_info (session w'))) = true.
Proof.
  cbv zeta.
  assert (Hr : reachable cpython scripted
                 (run_turns cpython scripted booking_conversation
                    (initial_world sample_catalog)))
    by apply run_turns_reachable, reach_start.
  assert (Hs : saves (log (world_of (main cpython scripted (Some "go ahead")
                  (run_turns cpython scripted booking_conversation
                     (initial_world sample_catalog)))))
               <> saves (log (run_turns cpython scripted booking_conversation
                                (initial_world sample_catalog))))
    by (vm_compute; discriminate).
  split; [exact Hr|]. split; [exact Hs|].
  exact (draft_survives_commit cpython scripted _ (Some "go ahead") Hr Hs).
Defined.

(** ** C10: the matched restaurant on the recovery path *)

Section Recovery.

Variable rt : runtime.
Variable llm : oracle.

(** Only the pass of the Restaurant-Suggestion state writes the matched
    restaurant id, and [process_state] does not enter that state within a
    turn that started elsewhere. *)
Lemma pass_keeps_match ui w :
  state (session w) <> RESTAURANT_SUGGESTION ->
  match process_state_pass rt llm ui w with
  | Ok out w' =>
      current_restaurant_id (session w') = current_restaurant_id (session w)
      /\ (recurses (state (session w)) out = true ->
          fst out <> Some RESTAURANT_SUGGESTION)
  | Raise _ w' =>
      current_restaurant_id (session w') = current_restaurant_id (session w)
  end.
Proof.
  intros Hs. pass_cases w; cbn [session state] in Hs; try congruence;
    cbn [recurses fst snd]; repeat split; auto; discriminate.
Qed.

Lemma process_state_keeps_match ui d :
  forall w,
    state (session w) <> RESTAURANT_SUGGESTION ->
    current_restaurant_id (session (world_of (process_state rt llm d ui w)))
    = current_restaurant_id (session w).
Proof.
  induction d as [|d IH]; intros w Hs; [reflexivity|].
  rewrite process_state_S. pose proof (pass_keeps_match ui w Hs) as Hq.
  destruct (process_state_pass rt llm ui w) as [[ns resp] w1|e w1];
    [|exact Hq].
  destruct Hq as (Q1 & Q2).
  destruct (recurses (state (session w)) (ns, resp)) eqn:R.
  - specialize (Q2 eq_refl). cbn [fst] in *.
    destruct ns as [ns|]; [|destruct resp; discriminate R].
    rewrite IH by (cbn; congruence). exact Q1.
  - cbn [world_of fst]. destruct ns; exact Q1.
Qed.

(** A run that starts outside the Restaurant-Suggestion state keeps the
    matched restaurant id. *)
Lemma turn_keeps_match user_input w :
  state (session w) <> RESTAURANT_SUGGESTION ->
  current_restaurant_id (session (world_of (main rt llm user_input w)))
  = current_restaurant_id (session w).
Proof.
  intros Hs. rewrite main_unfold.
  destruct (greeted_frame (loaded w)) as (_ & _ & _ & G & _).
  cbn [loaded session] in G.
  destruct (is_new_turn user_input w); [|exact G].
  destruct user_input as [text|]; [|exact G].
  assert (Ho : state (session (opened text (greeted (loaded w))))
               <> RESTAURANT_SUGGESTION).
  { cbn [opened session state set_chat_history set_last_processed_input].
    unfold greeted.
    destruct (State_eqb (state (session (loaded w))) GREETING
              && match chat_history (session (loaded w)) with
                 | [] => true
                 | _ :: _ => false
                 end); [discriminate|exact Hs]. }
  pose proof (process_state_keeps_match text (recursion_limit rt) _ Ho) as Hp.
  cbn [opened session current_restaurant_id set_chat_history
       set_last_processed_input] in Hp.
  destruct (process_state rt llm (recursion_limit rt) text _) as [resp w1|e w1];
    cbn [world_of answered session current_restaurant_id set_chat_history]
      in *; congruence.
Qed.

Lemma recovery_not_suggestion st :
  recovery_state st = true -> st <> RESTAURANT_SUGGESTION.
Proof. intros H ->. discriminate. Qed.

End Recovery.

(** C10.  Along any sequence of runs that each start in a state of the
    recovery path, the matched restaurant id stays what it was.  If no
    restaurant of the catalog had that id at the start, the catalog and the
    list of saves stay what they were as well, and every turn processed in
    the Reservation-Confirmed state fails again: it commits nothing and
    leads to the Error-Handling state. *)
Theorem recovery_keeps_absent_match :
  forall (rt : runtime) (llm : oracle) (w0 w : world),
    recovery_path rt llm w0 w ->
    current_restaurant_id (session w) = current_restaurant_id (session w0) /\
    (id_absent (db_file w0) (current_restaurant_id (session w0)) ->
     db_file w = db_file w0 /\
     saves (log w) = saves (log w0) /\
     forall text,
       state (session w) = RESERVATION_CONFIRMED ->
       is_new_turn (Some text) w = true ->
       (0 < recursion_limit rt)%nat ->
       let w' := world_of (main rt llm (Some text) w) in
       state (session w') = ERROR_HANDLING /\
       current_restaurant_id (session w')
       = current_restaurant_id (session w0) /\
       db_file w' = db_file w0 /\
       saves (log w') = saves (log w0)).
Proof.
  intros rt llm w0 w Hp.
  assert (Hid : current_restaurant_id (session w)
                = current_restaurant_id (session w0)).
  { induction Hp as [|w ui _ IH Hrec]; [reflexivity|].
    rewrite turn_keeps_match by now apply recovery_not_suggestion.
    exact IH. }
  split; [exact Hid|]. intros Ha.
  assert (Hdb : db_file w = db_file w0 /\ saves (log w) = saves (log w0)).
  { clear Hid. induction Hp as [|w ui Hp IH Hrec]; [auto|].
    destruct IH as [I1 I2].
    assert (Hw : id_absent (db_file w) (current_restaurant_id (session w))).
    { rewrite I1.
      assert (Hid : current_restaurant_id (session w)
                    = current_restaurant_id (session w0)).
      { clear - Hp. induction Hp as [|w ui _ IH Hrec]; [reflexivity|].
        rewrite turn_keeps_match by now apply recovery_not_suggestion.
        exact IH. }
      now rewrite Hid. }
    destruct (turn_with_absent_id rt llm ui w Hw) as [T1 T2].
    split; congruence. }
  destruct Hdb as [Hdb Hsv]. split; [exact Hdb|]. split; [exact Hsv|].
  intros text Hs Hn Hl. cbv zeta.
  assert (Hw : id_absent (db_file w) (current_restaurant_id (session w)))
    by (now rewrite Hdb, Hid).
  destruct (confirmed_turn rt llm text w Hs Hn Hl) as (C1 & _ & Hc).
  rewrite (add_reservation_loop_absent rt _ _ _ _ _ Hw) in Hc.
  destruct Hc as (Hst & Hd & Hlog).
  repeat split; try congruence.
  rewrite Hlog. exact Hsv.
Qed.

Lemma run_turns_recovery rt llm w0 texts :
  forall w,
    recovery_path rt llm w0 w ->
    stays_on_path rt llm texts w = true ->
    recovery_path rt llm w0 (run_turns rt llm texts w).
Proof.
  induction texts as [|text rest IH]; intros w Hp Hs; [exact Hp|].
  cbn [stays_on_path] in Hs. apply andb_true_iff in Hs as [H1 H2].
  cbn [run_turns]. apply IH; [|exact H2]. now constructor.
Qed.

Lemma recovery_keeps_absent_match_witness :
  let w0 := world_after_failure in
  let w := run_turns cpython scripted retry_conversation w0 in
  let w' := world_of (main cpython scripted (Some "go ahead now") w) in
  recovery_path cpython scripted w0 w /\
  id_absent (db_file w0) (current_restaurant_id (session w0)) /\
  state (session w) = RESERVATION_CONFIRMED /\
  state (session w') = ERROR_HANDLING /\
  current_restaurant_id (session w') = current_restaurant_id (session w0) /\
  db_file w' = db_file w0 /\
  saves (log w') = saves (log w0).
Proof.
  cbv zeta.
  assert (Hp : recovery_path cpython scripted world_after_failure
                 (run_turns cpython scripted retry_conversation
                    world_after_failure)).
  { apply run_turns_recovery; [constructor|]. vm_compute. reflexivity. }
  assert (Ha : id_absent (db_file world_after_failure)
                 (current_restaurant_id (session world_after_failure))).
  { apply first_match_none. vm_compute. reflexivity. }
  assert (Hs : state (session (run_turns cpython scripted retry_conversation
                                 world_after_failure))
               = RESERVATION_CONFIRMED) by (vm_compute; reflexivity).
  split; [exact Hp|]. split; [exact Ha|]. split; [exact Hs|].
  refine (proj2 (proj2 (proj2 (recovery_keeps_absent_match cpython scripted
                                 _ _ Hp) Ha)) "go ahead now" Hs _ _).
  - vm_compute. reflexivity.
  - vm_compute. lia.
Defined.

(** ** C4: the duplicate-turn guard *)

Section Guard.

Variable rt : runtime.
Variable llm : oracle.

(** What [process_state] never touches: the chat history, the guard token,
    and the agreement of the list in memory with the file. *)
Lemma pass_frame ui w :
  let w' := world_of (process_state_pass rt llm ui w) in
  chat_history (session w') = chat_history (session w) /\
  last_processed_input (session w') = last_processed_input (session w) /\
  (restaurants w = db_file w -> restaurants w' = db_file w').
Proof. cbv zeta. pass_cases w; auto. Qed.

Lemma process_state_frame d ui w :
  restaurants w = db_file w ->
  let w' := world_of (process_state rt llm d ui w) in
  chat_history (session w') = chat_history (session w) /\
  last_processed_input (session w') = last_processed_input (session w) /\
  restaurants w' = db_file w'.
Proof.
  intros Hsync. cbv zeta.
  apply (process_state_preserves rt llm
           (fun x => chat_history (session x) = chat_history (session w) /\
                     last_processed_input (session x)
                     = last_processed_input (session w) /\
                     restaurants x = db_file x)); [|auto].
  intros x (X1 & X2 & X3).
  destruct (pass_frame ui x) as (P1 & P2 & P3).
  destruct (process_state_pass rt llm ui x) as [[ns resp] x'|e x'];
    cbn [world_of fst] in *.
  - destruct ns; cbn; repeat split; try congruence; auto.
  - repeat split; try congruence; auto.
Qed.

Lemma greeted_chat w :
  chat_history (session w) <> [] -> greeted w = w.
Proof.
  intros H. unfold greeted. destruct (chat_history (session w));
    [contradiction|]. now rewrite andb_false_r.
Qed.

Lemma greeted_idempotent w : greeted (greeted w) = greeted w.
Proof.
  destruct (State_eqb (state (session w)) GREETING
            && match chat_history (session w) with
               | [] => true
               | _ :: _ => false
               end) eqn:E.
  - apply greeted_same. unfold greeted. rewrite E. discriminate.
  - assert (H : greeted w = w) by (unfold greeted; now rewrite E).
    now rewrite !H.
Qed.

Lemma loaded_synced w : restaurants w = db_file w -> loaded w = w.
Proof. destruct w; cbn. now intros ->. Qed.

Lemma greeted_synced w :
  restaurants w = db_file w -> restaurants (greeted w) = db_file (greeted w).
Proof.
  destruct (greeted_frame w) as (_ & G2 & G3 & _). congruence.
Qed.

Lemma app_not_nil {A} (l : list A) x : (l ++ [x])%list <> [].
Proof. destruct l; discriminate. Qed.

End Guard.

Section Dispatch.

Variable rt : runtime.
Variable llm : oracle.

(** A pass dispatches once, on the state of the session. *)
Lemma pass_dispatches ui w :
  dispatches (log (world_of (process_state_pass rt llm ui w)))
  = state (session w) :: dispatches (log w).
Proof. pass_cases w; reflexivity. Qed.

(** A call of [process_state] that the interpreter allows dispatches first
    on the state of the session, and then on the states it moves through. *)
Lemma process_state_dispatches ui d :
  forall w,
    exists later,
      dispatches (log (world_of (process_state rt llm (S d) ui w)))
      = (later ++ state (session w) :: dispatches (log w))%list.
Proof.
  induction d as [|d IH]; intros w; rewrite process_state_S;
    pose proof (pass_dispatches ui w) as Hp;
    destruct (process_state_pass rt llm ui w) as [[ns resp] w'|e w'];
    cbn [world_of] in Hp.
  - exists []. destruct (recurses (state (session w)) (ns, resp));
      cbn [process_state raise world_of fst]; destruct ns; exact Hp.
  - exists []. exact Hp.
  - destruct (recurses (state (session w)) (ns, resp)).
    + destruct (IH (apply_next (fst (ns, resp)) w')) as [later Hl].
      exists (later ++ [state (session (apply_next (fst (ns, resp)) w'))])%list.
      rewrite Hl. rewrite <- app_assoc. cbn [app]. do 2 f_equal.
      cbn [fst]. destruct ns; exact Hp.
    + exists []. cbn [world_of fst]. destruct ns; exact Hp.
  - exists []. exact Hp.
Qed.

Lemma greeted_loaded_state w :
  state (session (greeted (loaded w))) = state (session (greeted w)).
Proof.
  unfold greeted, loaded. cbn [session state chat_history].
  destruct (State_eqb (state (session w)) GREETING
            && match chat_history (session w) with
               | [] => true
               | _ :: _ => false
               end); reflexivity.
Qed.

End Dispatch.

(** C4 as stated fails.  Two submissions of the same text are not always
    processed once, and a processed turn does not always make one state
    transition.  In the first session the text is the one the session
    processed last, and neither submission is processed.  In the second the
    one processed submission dispatches on Intent-Detection and on
    Find-Restaurant and leaves the session in Restaurant-Suggestion: two
    transitions.  In the third the date is not understood and the processed
    submission leaves the session in DateTime-Prompt: no transition. *)
Lemma duplicate_pair_transitions_vary :
  (let w := run_turns cpython scripted ["hello"]
              (initial_world sample_catalog) in
   let first := main cpython scripted (Some "hello") w in
   let second := main cpython scripted (Some "hello") (world_of first) in
   turn_processed first = false /\ turn_processed second = false) /\
  (let w := world_of (main cpython scripted None
                        (initial_world sample_catalog)) in
   let first := main cpython scripted (Some "find italian food") w in
   let second :=
     main cpython scripted (Some "find italian food") (world_of first) in
   state (session w) = INTENT_DETECTION /\
   dispatches (log (world_of second)) = [FIND_RESTAURANT; INTENT_DETECTION] /\
   state (session (world_of second)) = RESTAURANT_SUGGESTION) /\
  (let w := run_turns cpython unsure (firstn 5 booking_conversation)
              (initial_world sample_catalog) in
   let first := main cpython unsure (Some "some day") w in
   let second := main cpython unsure (Some "some day") (world_of first) in
   state (session w) = DATETIME_PROMPT /\
   turn_processed first = true /\
   state (session (world_of second)) = DATETIME_PROMPT).
Proof.
  cbv zeta. repeat split; vm_compute; reflexivity.
Qed.

(** C4.  Whatever the session and the text, a second submission of the same
    text right after the first is ignored: the run returns without calling
    [process_state] and leaves the world as the first run left it, with the
    same state, the same log of dispatches, requests and saves and the same
    catalog.  The first submission is processed exactly when the text is not
    empty and differs from the text the session processed last.  It is then
    processed by one call of [process_state], which dispatches first on the
    state of the session and may move through further states in the same
    turn; these are all the dispatches of the two submissions.  When the
    text is empty or was the last one processed, neither submission is
    processed: nothing is dispatched, asked or written.  In both cases the
    two submissions write the catalog at most once. *)
Theorem duplicate_turn_ignored :
  forall (rt : runtime) (llm llm' : oracle) (user_input : option string)
         (w : world),
    let first := main rt llm user_input w in
    let second := main rt llm' user_input (world_of first) in
    second = Ok Ignored (world_of first) /\
    turn_processed first = is_new_turn user_input w /\
    turn_processed second = false /\
    (saves (log (world_of second)) = saves (log w)
     \/ exists rs', saves (log (world_of second)) = rs' :: saves (log w)) /\
    if is_new_turn user_input w then
      exists text,
        user_input = Some text /\
        first
        = match process_state rt llm (recursion_limit rt) text
                  (opened text (greeted (loaded w))) with
          | Ok response w' => Ok (Replied response) (answered response w')
          | Raise e w' => Raise e w'
          end /\
        ((0 < recursion_limit rt)%nat ->
         exists later,
           dispatches (log (world_of second))
           = (later ++ state (session (greeted w)) :: dispatches (log w))%list)
    else
      first = Ok Ignored (greeted (loaded w)) /\
      log (world_of second) = log w /\
      db_file (world_of second) = db_file w.
Proof.
  intros rt llm llm' user_input w. cbv zeta.
  pose proof (turn_saves_at_most_one rt llm user_input w) as Hsaves.
  cbv zeta in Hsaves.
  assert (Hguard :
            main rt llm' user_input (world_of (main rt llm user_input w))
            = Ok Ignored (world_of (main rt llm user_input w))
            /\ turn_processed (main rt llm user_input w)
               = is_new_turn user_input w).
  { assert (Hsync : restaurants (greeted (loaded w))
                    = db_file (greeted (loaded w)))
      by (apply greeted_synced; reflexivity).
    rewrite (main_unfold rt llm).
    destruct (is_new_turn user_input w) eqn:Hn.
    - destruct user_input as [text|]; [|discriminate Hn].
      assert (Ho : restaurants (opened text (greeted (loaded w)))
                   = db_file (opened text (greeted (loaded w))))
        by exact Hsync.
      destruct (process_state_frame rt llm (recursion_limit rt) text _ Ho)
        as (F1 & F2 & F3).
      cbn [opened session chat_history last_processed_input set_chat_history
           set_last_processed_input] in F1, F2.
      assert (Hlast : forall x,
                 last_processed_input (session x) = Some text ->
                 is_new_turn (Some text) x = false).
      { intros x Hx. unfold is_new_turn. rewrite Hx, String.eqb_refl.
        now rewrite andb_false_r. }
      destruct (process_state rt llm (recursion_limit rt) text _)
        as [resp w1|e w1]; cbn [world_of turn_processed] in *.
      + assert (Hnew : is_new_turn (Some text) (answered resp w1) = false)
          by (apply Hlast; exact F2).
        split; [|reflexivity].
        rewrite (ignored_turn rt llm' _ _ Hnew).
        rewrite loaded_synced by exact F3.
        rewrite greeted_chat; [reflexivity|].
        cbn. apply app_not_nil.
      + assert (Hnew : is_new_turn (Some text) w1 = false)
          by (apply Hlast; exact F2).
        split; [|reflexivity].
        rewrite (ignored_turn rt llm' _ _ Hnew).
        rewrite loaded_synced by exact F3.
        rewrite greeted_chat; [reflexivity|].
        rewrite F1. apply app_not_nil.
    - cbn [world_of turn_processed].
      assert (Hnew : is_new_turn user_input (greeted (loaded w)) = false).
      { unfold is_new_turn in *.
        destruct (greeted_frame (loaded w)) as (_ & _ & _ & _ & _ & G).
        rewrite G. exact Hn. }
      split; [|reflexivity].
      rewrite (ignored_turn rt llm' _ _ Hnew).
      rewrite loaded_synced by exact Hsync.
      now rewrite greeted_idempotent. }
  destruct Hguard as [E P]. rewrite E. cbn [world_of turn_processed].
  split; [reflexivity|]. split; [exact P|]. split; [reflexivity|].
  split; [exact Hsaves|].
  destruct (is_new_turn user_input w) eqn:Hn.
  - destruct user_input as [text|]; [|discriminate Hn].
    exists text. split; [reflexivity|].
    split; [rewrite main_unfold, Hn; reflexivity|].
    intros Hl. rewrite main_unfold, Hn.
    destruct (recursion_limit rt) as [|d]; [lia|].
    destruct (process_state_dispatches rt llm text d
                (opened text (greeted (loaded w)))) as [later Hd].
    cbn [opened session state set_chat_history set_last_processed_input log]
      in Hd.
    rewrite greeted_loaded_state in Hd.
    destruct (greeted_frame (loaded w)) as (G & _). rewrite G in Hd.
    cbn [loaded log] in Hd.
    exists later.
    destruct (process_state rt llm (S d) text _) as [r w1|e w1]; exact Hd.
  - rewrite (ignored_turn rt llm _ _ Hn). cbn [world_of].
    destruct (greeted_frame (loaded w)) as (G1 & G2 & _).
    split; [reflexivity|]. split; [exact G1|exact G2].
Qed.

Lemma duplicate_turn_ignored_witness :
  let w := world_of (main cpython scripted None
                       (initial_world sample_catalog)) in
  let first := main cpython scripted (Some "find italian food") w in
  let second :=
    main cpython (always "no") (Some "find italian food") (world_of first) in
  (0 < recursion_limit cpython)%nat /\
  second = Ok Ignored (world_of first) /\
  exists later,
    dispatches (log (world_of second))
    = (later ++ state (session (greeted w)) :: dispatches (log w))%list.
Proof.
  cbv zeta.
  assert (Hl : (0 < recursion_limit cpython)%nat) by (vm_compute; lia).
  pose proof (duplicate_turn_ignored cpython scripted (always "no")
                (Some "find italian food")
                (world_of (main cpython scripted None
                             (initial_world sample_catalog)))) as H.
  cbv zeta in H. destruct H as (H1 & _ & _ & _ & H5).
  change (is_new_turn (Some "find italian food")
            (world_of (main cpython scripted None
                         (initial_world sample_catalog)))) with true in H5.
  destruct H5 as (text & _ & _ & Hd).
  split; [exact Hl|]. split; [exact H1|exact (Hd Hl)].
Defined.

(** ** C7: the cycle between Restaurant-Details and Intent-Detection *)

Section DetailsLoop.

Variable rt : runtime.
Variable llm : oracle.
Variable user_input : string.

(** The model classifies the input as a request for details, every time. *)
Hypothesis always_details :
  forall w, detect_intent rt llm user_input w
            = Ok "details" (asked w (AskIntent user_input)).

Hypothesis no_booking_word : mentions_booking rt user_input = false.

Lemma intent_pass_redispatches w :
  state (session w) = INTENT_DETECTION ->
  truthy (current_restaurant_id (session w)) = true ->
  process_state_pass rt llm user_input w
  = Ok (Some RESTAURANT_DETAILS, None)
      (asked (dispatched w) (AskIntent user_input)).
Proof.
  intros Hs Ht. unfold process_state_pass.
  unfold bind at 1 2. unfold get_session at 1. unfold emit at 1.
  rewrite Hs. unfold bind at 1. rewrite always_details.
  cbn [String.eqb Ascii.eqb Bool.eqb session current_restaurant_id].
  rewrite Ht. unfold dispatched. rewrite Hs. reflexivity.
Qed.

Lemma details_pass_redispatches w :
  state (session w) = RESTAURANT_DETAILS ->
  process_state_pass rt llm user_input w
  = Ok (Some INTENT_DETECTION, None)
      (asked (dispatched w) (AskIntent user_input)).
Proof.
  intros Hs. unfold process_state_pass.
  unfold bind at 1 2. unfold get_session at 1. unfold emit at 1.
  rewrite Hs. unfold bind at 1. rewrite always_details.
  rewrite no_booking_word.
  cbn [String.eqb Ascii.eqb Bool.eqb orb].
  unfold dispatched. rewrite Hs. reflexivity.
Qed.

(** With such a model [process_state] bounces between the two states and
    ends in [RecursionError], however deep the interpreter lets it go. *)
Lemma details_loop d :
  forall w,
    state (session w) = INTENT_DETECTION
    \/ state (session w) = RESTAURANT_DETAILS ->
    truthy (current_restaurant_id (session w)) = true ->
    exists w', process_state rt llm d user_input w = Raise RecursionError w'.
Proof.
  induction d as [|d IH]; intros w Hs Ht; [eexists; reflexivity|].
  rewrite process_state_S. destruct Hs as [Hs|Hs].
  - rewrite (intent_pass_redispatches w Hs Ht).
    unfold recurses. cbn [fst snd]. rewrite Hs. cbn [State_eqb negb].
    change (negb (State_eqb RESTAURANT_DETAILS INTENT_DETECTION)) with true.
    cbv iota. apply IH; [now right|exact Ht].
  - rewrite (details_pass_redispatches w Hs).
    unfold recurses. cbn [fst snd]. rewrite Hs.
    change (negb (State_eqb INTENT_DETECTION RESTAURANT_DETAILS)) with true.
    cbv iota. apply IH; [now left|exact Ht].
Qed.

End DetailsLoop.

(** C7 fails.  In the sample conversation the user has been shown the
    details of Spice Garden and asks for more; the scripted model, a
    deterministic stub, classifies this as a request for details.  The
    session is reachable and in the Restaurant-Details state, and from there
    [process_state] never returns a reply: for every recursion depth it ends
    in [RecursionError], and so does the run of [main] with the interpreter's
    limit. *)
Theorem details_turn_never_replies :
  reachable cpython scripted world_at_details /\
  state (session world_at_details) = RESTAURANT_DETAILS /\
  current_restaurant_id (session world_at_details) = JInt 1 /\
  (forall depth w,
      session w = session world_at_details ->
      exists w',
        process_state cpython scripted depth "tell me more" w
        = Raise RecursionError w') /\
  (exists w',
      main cpython scripted (Some "tell me more") world_at_details
      = Raise RecursionError w').
Proof.
  assert (Hd : forall w, detect_intent cpython scripted "tell me more" w
                         = Ok "details" (asked w (AskIntent "tell me more")))
    by (intros; reflexivity).
  assert (Hb : mentions_booking cpython "tell me more" = false)
    by reflexivity.
  split; [apply run_turns_reachable, reach_start|].
  split; [reflexivity|]. split; [reflexivity|]. split.
  - intros depth w Hw.
    apply (details_loop cpython scripted "tell me more" Hd Hb).
    + right. now rewrite Hw.
    + now rewrite Hw.
  - rewrite main_unfold.
    change (is_new_turn (Some "tell me more") world_at_details) with true.
    cbv iota.
    destruct (details_loop cpython scripted "tell me more" Hd Hb
                (recursion_limit cpython)
                (opened "tell me more" (greeted (loaded world_at_details))))
      as [w' Hw'].
    + right. reflexivity.
    + reflexivity.
    + rewrite Hw'. eauto.
Qed.

(** * Further properties of the search engine *)

Section SearchMore.

Variable rt : runtime.

Lemma filter_and {A} (p q : A -> bool) l :
  filter q (filter p l) = filter (fun x => p x && q x) l.
Proof.
  induction l as [|x l IH]; simpl; [reflexivity|].
  destruct (p x); simpl; [destruct (q x)|]; now rewrite IH.
Qed.

Lemma given_query_field o key d :
  dict_get d key = field_value o ->
  given d key
  = match o with
    | Some s => negb (String.eqb s "") && negb (String.eqb s "null")
    | None => false
    end.
Proof. unfold given. intros ->. destruct o; reflexivity. Qed.

Lemma filter_cuisine_query q l :
  filter_cuisine rt (params_of_query q) l
  = Some (filter (matches_cuisine rt q) l).
Proof.
  unfold filter_cuisine, matches_cuisine, wanted.
  rewrite (given_query_field (q_cuisine q)) by reflexivity.
  change (dict_get (params_of_query q) "cuisine")
    with (field_value (q_cuisine q)).
  destruct (q_cuisine q) as [s|]; cbn [field_value].
  - destruct (negb (String.eqb s "") && negb (String.eqb s "null")).
    + destruct l; reflexivity.
    + f_equal. induction l; simpl; congruence.
  - f_equal. induction l; simpl; congruence.
Qed.

Lemma filter_location_query q l :
  filter_location rt (params_of_query q) l
  = Some (filter (matches_location rt q) l).
Proof.
  unfold filter_location, matches_location, wanted.
  rewrite (given_query_field (q_location q)) by reflexivity.
  change (dict_get (params_of_query q) "location")
    with (field_value (q_location q)).
  destruct (q_location q) as [s|]; cbn [field_value].
  - destruct (negb (String.eqb s "") && negb (String.eqb s "null")).
    + reflexivity.
    + f_equal. induction l; simpl; congruence.
  - f_equal. induction l; simpl; congruence.
Qed.

Lemma filter_price_range_query q l :
  filter_price_range rt (params_of_query q) l
  = Some (filter (matches_price_range rt q) l).
Proof.
  unfold filter_price_range, matches_price_range, wanted.
  rewrite (given_query_field (q_price_range q)) by reflexivity.
  change (dict_get (params_of_query q) "price_range")
    with (field_value (q_price_range q)).
  destruct (q_price_range q) as [s|]; cbn [field_value].
  - destruct (negb (String.eqb s "") && negb (String.eqb s "null")).
    + destruct l; reflexivity.
    + f_equal. induction l; simpl; congruence.
  - f_equal. induction l; simpl; congruence.
Qed.

Lemma filter_seating_query q l :
  filter_seating rt (params_of_query q) l
  = Some (filter (matches_seating rt q) l).
Proof.
  unfold filter_seating, matches_seating, wanted.
  rewrite (given_query_field (q_seating q)) by reflexivity.
  change (dict_get (params_of_query q) "seating")
    with (field_value (q_seating q)).
  destruct (q_seating q) as [s|]; cbn [field_value].
  - destruct (negb (String.eqb s "") && negb (String.eqb s "null")).
    + reflexivity.
    + f_equal. induction l; simpl; congruence.
  - f_equal. induction l; simpl; congruence.
Qed.

(** The four filters, one after the other, keep the restaurants that meet
    all the constraints, in the order of the catalog. *)
Lemma apply_filters_matches q rs :
  apply_filters rt (params_of_query q) rs = Some (filter (matches rt q) rs).
Proof.
  unfold apply_filters.
  rewrite filter_cuisine_query, filter_location_query,
    filter_price_range_query, filter_seating_query.
  rewrite !filter_and. f_equal. apply filter_ext. intros r.
  unfold matches. now rewrite !andb_assoc.
Qed.

Lemma find_restaurants_query q rs :
  find_restaurants rt (params_of_query q) rs
  = Some (if (5 <? List.length (filter (matches rt q) rs))%nat
          then firstn 5 (sort_by_rating (filter (matches rt q) rs))
          else match filter (matches rt q) rs with
               | [] => firstn 3 (sort_by_rating rs)
               | found => found
               end).
Proof.
  unfold find_restaurants. rewrite apply_filters_matches.
  destruct (5 <? List.length (filter (matches rt q) rs))%nat; [reflexivity|].
  destruct (filter (matches rt q) rs); reflexivity.
Qed.

End SearchMore.

(** X1.  For a query of optional texts, the four filters of
    [find_restaurants] together keep exactly the restaurants of the catalog
    that meet every constraint of the query, in the order of the catalog. *)
Theorem filters_are_conjunctive :
  forall (rt : runtime) (q : SearchQuery) (rs : catalog),
    apply_filters rt (params_of_query q) rs = Some (filter (matches rt q) rs)
    /\ forall r, In r (filter (matches rt q) rs)
                 <-> In r rs /\ matches_cuisine rt q r = true
                     /\ matches_location rt q r = true
                     /\ matches_price_range rt q r = true
                     /\ matches_seating rt q r = true.
Proof.
  intros rt q rs. split; [apply apply_filters_matches|].
  intros r. rewrite filter_In. unfold matches.
  rewrite !andb_true_iff. tauto.
Qed.

Section SearchBounds.

Variable rt : runtime.

Lemma filter_cuisine_incl params l f :
  filter_cuisine rt params l = Some f -> incl f l.
Proof.
  unfold filter_cuisine. destruct (given params "cuisine").
  - destruct l as [|x l]; [intros [= <-]; apply incl_refl|].
    destruct (dict_get params "cuisine"); try discriminate.
    intros [= <-]. exact (incl_filter _ (x :: l)).
  - intros [= <-]. apply incl_refl.
Qed.

Lemma filter_location_incl params l f :
  filter_location rt params l = Some f -> incl f l.
Proof.
  unfold filter_location. destruct (given params "location").
  - destruct (dict_get params "location"); try discriminate.
    intros [= <-]. apply incl_filter.
  - intros [= <-]. apply incl_refl.
Qed.

Lemma filter_price_range_incl params l f :
  filter_price_range rt params l = Some f -> incl f l.
Proof.
  unfold filter_price_range. destruct (given params "price_range").
  - destruct l as [|x l]; [intros [= <-]; apply incl_refl|].
    destruct (dict_get params "price_range"); try discriminate.
    intros [= <-]. exact (incl_filter _ (x :: l)).
  - intros [= <-]. apply incl_refl.
Qed.

Lemma filter_seating_incl params l f :
  filter_seating rt params l = Some f -> incl f l.
Proof.
  unfold filter_seating. destruct (given params "seating").
  - destruct (dict_get params "seating");
      try (destruct (forallb _ l); [intros [= <-]; intros x []|discriminate]).
    intros [= <-]. apply incl_filter.
  - intros [= <-]. apply incl_refl.
Qed.

Lemma apply_filters_incl params rs f :
  apply_filters rt params rs = Some f -> incl f rs.
Proof.
  unfold apply_filters.
  destruct (filter_cuisine rt params rs) as [f1|] eqn:E1; [|discriminate].
  destruct (filter_location rt params f1) as [f2|] eqn:E2; [|discriminate].
  destruct (filter_price_range rt params f2) as [f3|] eqn:E3; [|discriminate].
  intros E4.
  apply filter_cuisine_incl in E1. apply filter_location_incl in E2.
  apply filter_price_range_incl in E3. apply filter_seating_incl in E4.
  eapply incl_tran; [exact E4|]. eapply incl_tran; [exact E3|].
  eapply incl_tran; eauto.
Qed.

Lemma sort_by_rating_incl l : incl (sort_by_rating l) l.
Proof.
  intros x Hx. eapply Permutation_in; [apply sort_by_rating_perm|exact Hx].
Qed.

Lemma find_restaurants_incl params rs found :
  find_restaurants rt params rs = Some found ->
  (List.length found <= 5)%nat /\ incl found rs.
Proof.
  unfold find_restaurants.
  destruct (apply_filters rt params rs) as [f|] eqn:E; [|discriminate].
  apply apply_filters_incl in E.
  destruct (5 <? List.length f)%nat eqn:E5.
  - intros [= <-]. split; [exact (firstn_le_length 5 (sort_by_rating f))|].
    intros x Hx. apply E, sort_by_rating_incl.
    exact (in_firstn 5 (sort_by_rating f) x Hx).
  - apply Nat.ltb_ge in E5. destruct f as [|y f].
    + intros [= <-].
      split;
        [apply (Nat.le_trans _ 3);
         [exact (firstn_le_length 3 (sort_by_rating rs))|lia]|].
      intros x Hx. apply sort_by_rating_incl.
      exact (in_firstn 3 (sort_by_rating rs) x Hx).
    + intros [= <-]. auto.
Qed.

End SearchBounds.

(** X2.  Whatever dictionary the model's reply decodes to, when
    [find_restaurants] returns it returns at most five restaurants, all of
    them taken from the catalog. *)
Theorem find_restaurants_bounded :
  forall (rt : runtime) (params : dict) (rs found : catalog),
    find_restaurants rt params rs = Some found ->
    (List.length found <= 5)%nat /\ incl found rs.
Proof. intros rt params rs found. apply find_restaurants_incl. Qed.

Lemma find_restaurants_bounded_witness :
  find_restaurants cpython [("cuisine", JStr "indian")] sample_catalog
  = Some [spice_garden] /\
  (List.length [spice_garden] <= 5)%nat /\
  incl [spice_garden] sample_catalog.
Proof.
  assert (H : find_restaurants cpython [("cuisine", JStr "indian")]
                sample_catalog = Some [spice_garden]) by reflexivity.
  split; [exact H|].
  exact (find_restaurants_bounded cpython _ _ _ H).
Defined.

(** X3.  For a query of optional texts: when more than five restaurants meet
    it, the result is five of them, sorted by descending rating, and no
    matching restaurant that was left out is rated above one that was
    returned; when one to five restaurants meet it, the result is exactly
    those, in the order of the catalog. *)
Theorem find_restaurants_top_five :
  forall (rt : runtime) (q : SearchQuery) (rs : catalog),
    let hits := filter (matches rt q) rs in
    ((5 < List.length hits)%nat ->
     exists found rest,
       find_restaurants rt (params_of_query q) rs = Some found /\
       List.length found = 5%nat /\
       Permutation hits (found ++ rest) /\
       StronglySorted rated_at_least found /\
       forall a b, In a found -> In b rest -> rated_at_least a b) /\
    ((0 < List.length hits <= 5)%nat ->
     find_restaurants rt (params_of_query q) rs = Some hits).
Proof.
  intros rt q rs. cbv zeta. rewrite find_restaurants_query. split.
  - intros H. apply Nat.ltb_lt in H as H'. rewrite H'.
    exists (firstn 5 (sort_by_rating (filter (matches rt q) rs))),
      (skipn 5 (sort_by_rating (filter (matches rt q) rs))).
    split; [reflexivity|]. split.
    { rewrite length_firstn, sort_by_rating_length. lia. }
    split.
    { rewrite firstn_skipn. symmetry. apply sort_by_rating_perm. }
    split; [apply firstn_sorted, sort_by_rating_sorted|].
    apply sorted_cut, sort_by_rating_sorted.
  - intros [H1 H2]. apply Nat.ltb_ge in H2. rewrite H2.
    destruct (filter (matches rt q) rs); [simpl in H1; lia|reflexivity].
Qed.

Lemma find_restaurants_top_five_witness :
  (0 < List.length
         (filter (matches cpython (mk_query (Some "Italian") None None None))
            sample_catalog) <= 5)%nat /\
  find_restaurants cpython
    (params_of_query (mk_query (Some "Italian") None None None))
    sample_catalog
  = Some (filter (matches cpython (mk_query (Some "Italian") None None None))
            sample_catalog).
Proof.
  assert (H : (0 < List.length
                     (filter (matches cpython
                                (mk_query (Some "Italian") None None None))
                        sample_catalog) <= 5)%nat)
    by (vm_compute; lia).
  split; [exact H|].
  exact (proj2 (find_restaurants_top_five cpython
                  (mk_query (Some "Italian") None None None) sample_catalog)
           H).
Defined.

(** * Further properties of the extraction services *)

Lemma append_assoc_s (a b c : string) : (a ++ b) ++ c = a ++ b ++ c.
Proof. induction a as [|x a IH]; simpl; [reflexivity|now rewrite IH]. Qed.

Lemma from_first_brace_found before rest :
  has_char "{" before = false ->
  from_first_brace (before ++ String "{" rest) = Some (String "{" rest).
Proof.
  induction before as [|c before IH]; simpl; [reflexivity|].
  intros H. apply orb_false_iff in H as [H1 H2]. rewrite H1. now apply IH.
Qed.

Lemma from_first_brace_inv s t :
  from_first_brace s = Some t ->
  exists before rest,
    s = before ++ t /\ t = String "{" rest /\ has_char "{" before = false.
Proof.
  induction s as [|c s IH]; simpl; [discriminate|].
  destruct (Ascii.eqb c "{") eqn:E.
  - intros [= <-]. apply Ascii.eqb_eq in E. subst c.
    exists "", s. auto.
  - intros H. destruct (IH H) as (before & rest & -> & -> & Hb).
    exists (String c before), rest. simpl. rewrite E, Hb. auto.
Qed.

Lemma upto_last_brace_none s :
  has_char "}" s = false -> upto_last_brace s = None.
Proof.
  induction s as [|c s IH]; simpl; [reflexivity|].
  intros H. apply orb_false_iff in H as [H1 H2]. now rewrite IH, H1.
Qed.

Lemma upto_last_brace_found body after :
  has_char "}" after = false ->
  upto_last_brace (body ++ String "}" after) = Some (body ++ "}").
Proof.
  intros H. induction body as [|c body IH]; simpl.
  - now rewrite (upto_last_brace_none _ H).
  - now rewrite IH.
Qed.

Lemma upto_last_brace_inv s p :
  upto_last_brace s = Some p ->
  exists body after,
    s = p ++ after /\ p = body ++ "}" /\ has_char "}" after = false.
Proof.
  revert p; induction s as [|c s IH]; intros p; simpl; [discriminate|].
  destruct (upto_last_brace s) as [p'|] eqn:E.
  - intros [= <-]. destruct (IH p' eq_refl) as (body & after & -> & -> & Ha).
    exists (String c body), after. auto.
  - destruct (Ascii.eqb c "}") eqn:Ec; [|discriminate].
    intros [= <-]. apply Ascii.eqb_eq in Ec. subst c.
    exists "", s. simpl. repeat split.
    clear IH. induction s as [|d s IH]; simpl in *; [reflexivity|].
    destruct (upto_last_brace s); [discriminate|].
    destruct (Ascii.eqb d "}"); [discriminate|]. now apply IH.
Qed.

(** X5.  The search for a JSON object in a reply ([re.search] with the
    pattern of an opening brace, anything, a closing brace) returns the text
    from the first opening brace to the last closing brace: whatever stands
    before the first opening brace and after the last closing brace is
    dropped, and every result has this form. *)
Theorem search_json_object_first_to_last :
  (forall before body after,
      has_char "{" before = false ->
      has_char "}" after = false ->
      search_json_object (before ++ "{" ++ body ++ "}" ++ after)
      = Some ("{" ++ body ++ "}")) /\
  (forall text found,
      search_json_object text = Some found ->
      exists before body after,
        text = before ++ found ++ after /\
        found = "{" ++ body ++ "}" /\
        has_char "{" before = false /\
        has_char "}" after = false).
Proof.
  split.
  - intros before body after Hb Ha. unfold search_json_object.
    change ("{" ++ body ++ "}" ++ after)
      with (String "{" (body ++ String "}" after)).
    rewrite (from_first_brace_found _ _ Hb).
    change (String "{" (body ++ String "}" after))
      with (String "{" body ++ String "}" after).
    now rewrite (upto_last_brace_found _ _ Ha).
  - intros text found. unfold search_json_object.
    destruct (from_first_brace text) as [t|] eqn:F; [|discriminate].
    intros U.
    destruct (from_first_brace_inv _ _ F) as (before & rest & -> & -> & Hb).
    destruct (upto_last_brace_inv _ _ U) as (body & after & E & -> & Ha).
    destruct body as [|c body].
    + simpl in E. injection E as Hc _. discriminate Hc.
    + simpl in E. injection E as <- E'.
      exists before, body, after. simpl. rewrite E'. auto.
Qed.

Lemma search_json_object_first_to_last_witness :
  has_char "{" "Sure, here it is: " = false /\
  has_char "}" " Anything else?" = false /\
  search_json_object
    ("Sure, here it is: " ++ "{" ++ "a{b}c" ++ "}" ++ " Anything else?")
  = Some ("{" ++ "a{b}c" ++ "}").
Proof.
  assert (H1 : has_char "{" "Sure, here it is: " = false) by reflexivity.
  assert (H2 : has_char "}" " Anything else?" = false) by reflexivity.
  split; [exact H1|]. split; [exact H2|].
  exact (proj1 search_json_object_first_to_last _ "a{b}c" _ H1 H2).
Defined.

Lemma prefix_iff needle hay :
  String.prefix needle hay = true <-> exists post, hay = needle ++ post.
Proof.
  revert hay; induction needle as [|c needle IH]; intros hay; simpl.
  - split; [intros _; now exists hay|intros _; now destruct hay].
  - destruct hay as [|d hay]; [split; [discriminate|intros [p [=]]]|].
    simpl. destruct (ascii_dec c d) as [->|Hn].
    + rewrite IH. split; intros [p Hp]; exists p; congruence.
    + split; [discriminate|]. intros [p [= -> _]]. contradiction.
Qed.

(** [needle in hay] holds exactly when the text splits around the needle. *)
Lemma contains_iff needle hay :
  contains needle hay = true <->
  exists pre post, hay = pre ++ needle ++ post.
Proof.
  induction hay as [|c hay IH]; cbn [contains].
  - rewrite orb_false_r, prefix_iff. split.
    + intros [post H]. exists "", post. exact H.
    + intros (pre & post & H). destruct pre; [now exists post|discriminate].
  - rewrite orb_true_iff, prefix_iff, IH. split.
    + intros [[post H]|(pre & post & H)].
      * exists "", post. exact H.
      * exists (String c pre), post. simpl. now rewrite H.
    + intros (pre & post & H). destruct pre as [|d pre].
      * left. now exists post.
      * right. simpl in H. injection H as _ H. now exists pre, post.
Qed.

Lemma contains_longer a b c hay :
  contains (a ++ b ++ c) hay = true -> contains b hay = true.
Proof.
  rewrite !contains_iff. intros (pre & post & ->).
  exists (pre ++ a), (c ++ post). now rewrite !append_assoc_s.
Qed.

(** X6.  The intent classifier never raises, asks the model once and always
    answers with one of the four labels.  It looks for keywords in the
    stripped, lower-cased reply in a fixed order: a reply that mentions
    "search" is a restaurant search whatever else it says; otherwise one
    that mentions "reservation" or "book" is a reservation; otherwise one
    that mentions "details" or "information" asks for details; any other
    reply is normal conversation. *)
Theorem detect_intent_labels :
  forall (rt : runtime) (llm : oracle) (user_input : string) (w : world),
    let reply := lower rt (strip rt (llm (log w) (AskIntent user_input))) in
    exists intent,
      detect_intent rt llm user_input w
      = Ok intent (asked w (AskIntent user_input)) /\
      In intent intent_labels /\
      (contains "search" reply = true -> intent = "restaurant_search") /\
      (contains "search" reply = false ->
       contains "reservation" reply || contains "book" reply = true ->
       intent = "reservation") /\
      (contains "search" reply = false ->
       contains "reservation" reply || contains "book" reply = false ->
       contains "details" reply || contains "information" reply = true ->
       intent = "details") /\
      (contains "restaurant_search" reply = false ->
       contains "search" reply = false ->
       contains "reservation" reply || contains "book" reply = false ->
       contains "details" reply || contains "information" reply = false ->
       intent = "normal_conversation").
Proof.
  intros rt llm user_input w. cbv zeta.
  unfold detect_intent, bind, get_llm_response, ret, asked, intent_labels.
  set (reply := lower rt (strip rt (llm (log w) (AskIntent user_input)))).
  pose proof (contains_longer "restaurant_" "search" "" reply) as Hlong.
  change ("restaurant_" ++ "search" ++ "") with "restaurant_search" in Hlong.
  destruct (contains "restaurant_search" reply) eqn:E0;
    [rewrite (Hlong eq_refl)|]; clear Hlong;
    destruct (contains "search" reply) eqn:E1;
    destruct (contains "reservation" reply) eqn:E2;
    destruct (contains "book" reply) eqn:E3;
    destruct (contains "details" reply) eqn:E4;
    destruct (contains "information" reply) eqn:E5;
    cbn [orb]; eexists; (split; [reflexivity|]);
    (split; [simpl; tauto|]);
    repeat split; intros; try discriminate; try reflexivity.
Qed.

(** X7.  The date/time extractor never raises and asks the model once.
    When it returns no timestamp it returns a message that is not empty.
    It returns no timestamp when the reply cannot be decoded, and when the
    "date" or the "time" field of the decoded object is missing, null,
    empty or the text "null". *)
Theorem parse_date_time_absent_has_message :
  forall (rt : runtime) (llm : oracle) (user_input : string) (w : world),
    exists out,
      parse_date_time rt llm user_input w
      = Ok out (asked w (AskDateTime user_input)) /\
      (fst out = None -> snd out <> "") /\
      (decoded_reply rt (llm (log w) (AskDateTime user_input)) = None ->
       fst out = None) /\
      (forall parsed,
          decoded_reply rt (llm (log w) (AskDateTime user_input))
          = Some parsed ->
          given parsed "date" && given parsed "time" = false ->
          out = (None,
                 "I couldn't determine the date or time. Please specify both.")).
Proof.
  intros rt llm user_input w.
  unfold parse_date_time, bind, get_llm_response, decoded_reply, asked, ret.
  destruct (search_json_object (llm (log w) (AskDateTime user_input)))
    as [json_str|].
  - destruct (json_loads rt json_str) as [parsed|].
    + destruct (given parsed "date" && given parsed "time") eqn:G.
      * destruct (strptime rt _) as [dt|].
        -- destruct (negb _); eexists; (split; [reflexivity|]);
             cbn [fst snd]; repeat split; try discriminate;
             intros p [= <-] H; congruence.
        -- eexists; (split; [reflexivity|]); cbn [fst snd];
             repeat split; try discriminate; intros p [= <-] H; congruence.
      * eexists; (split; [reflexivity|]); cbn [fst snd];
          repeat split; try discriminate; intros p [= <-]; reflexivity.
    + eexists; (split; [reflexivity|]); cbn [fst snd];
        repeat split; try discriminate.
  - eexists; (split; [reflexivity|]); cbn [fst snd];
      repeat split; try discriminate.
Qed.

(** * Further properties of the orchestrator *)

Section Passes.

Variable rt : runtime.
Variable llm : oracle.

Lemma extract_search_params_decoded ui w :
  extract_search_params rt llm ui w
  = Ok match decoded_reply rt (llm (log w) (AskSearchParams ui)) with
       | Some params => params
       | None => []
       end (asked w (AskSearchParams ui)).
Proof.
  unfold extract_search_params, bind, get_llm_response, decoded_reply, ret,
    asked.
  destruct (search_json_object _); [destruct (json_loads rt _)|]; reflexivity.
Qed.

(** The pass of the Find-Restaurant state. *)
Lemma find_pass ui w :
  state (session w) = FIND_RESTAURANT ->
  let w1 := asked (dispatched w) (AskSearchParams ui) in
  let params :=
    match decoded_reply rt (llm (log (dispatched w)) (AskSearchParams ui)) with
    | Some params => params
    | None => []
    end in
  process_state_pass rt llm ui w
  = match find_restaurants rt params (restaurants w) with
    | Some found =>
        Ok (Some RESTAURANT_SUGGESTION,
            Some (llm (log w1) (AskSuggestions found (restaurants w))))
          (asked (with_filtered found w1)
             (AskSuggestions found (restaurants w)))
    | None => Raise AttributeError w1
    end.
Proof.
  intros Hs. cbv zeta. unfold process_state_pass.
  unfold bind at 1 2. unfold get_session at 1. unfold emit at 1.
  rewrite Hs. unfold bind at 1.
  rewrite extract_search_params_decoded.
  unfold dispatched. rewrite Hs.
  unfold bind at 1. unfold get_restaurants at 1.
  unfold asked, with_filtered. cbn [log session restaurants db_file].
  destruct (find_restaurants rt _ (restaurants w)) as [found|];
    reflexivity.
Qed.

Lemma find_restaurants_unfiltered rs :
  find_restaurants rt [] rs
  = Some (if (5 <? List.length rs)%nat
          then firstn 5 (sort_by_rating rs)
          else rs).
Proof.
  unfold find_restaurants, apply_filters, filter_cuisine, filter_location,
    filter_price_range, filter_seating, given. cbn [dict_get truthy andb].
  destruct (5 <? List.length rs)%nat; [reflexivity|].
  destruct rs; reflexivity.
Qed.

Lemma find_restaurants_location_raises params rs :
  given params "location" = true ->
  is_text (dict_get params "location") = false ->
  find_restaurants rt params rs = None.
Proof.
  intros G T. unfold find_restaurants, apply_filters.
  destruct (filter_cuisine rt params rs); [|reflexivity].
  unfold filter_location. rewrite G.
  destruct (dict_get params "location"); try reflexivity. discriminate.
Qed.

Lemma find_restaurants_cuisine_raises params rs :
  given params "cuisine" = true ->
  is_text (dict_get params "cuisine") = false ->
  rs <> [] ->
  find_restaurants rt params rs = None.
Proof.
  intros G T Hrs. unfold find_restaurants, apply_filters, filter_cuisine.
  rewrite G. destruct rs; [contradiction|].
  destruct (dict_get params "cuisine"); try reflexivity. discriminate.
Qed.

End Passes.

(** X4.  When the reply to the search-parameter request cannot be decoded,
    the pass of the Find-Restaurant state searches without constraints: it
    stores the whole catalog as the result, or its five best-rated
    restaurants in descending order when it has more than five, asks the
    model for suggestions and moves to Restaurant-Suggestion. *)
Theorem find_pass_without_parameters :
  forall (rt : runtime) (llm : oracle) (user_input : string) (w : world),
    state (session w) = FIND_RESTAURANT ->
    decoded_reply rt (llm (log (dispatched w)) (AskSearchParams user_input))
    = None ->
    let found := if (5 <? List.length (restaurants w))%nat
                 then firstn 5 (sort_by_rating (restaurants w))
                 else restaurants w in
    exists reply,
      process_state_pass rt llm user_input w
      = Ok (Some RESTAURANT_SUGGESTION, Some reply)
          (asked (with_filtered found
                    (asked (dispatched w) (AskSearchParams user_input)))
             (AskSuggestions found (restaurants w))).
Proof.
  intros rt llm ui w Hs Hd. cbv zeta.
  rewrite (find_pass rt llm ui w Hs). rewrite Hd.
  rewrite find_restaurants_unfiltered. eexists. reflexivity.
Qed.

Lemma find_pass_without_parameters_witness :
  let w := with_state FIND_RESTAURANT sample_world in
  state (session w) = FIND_RESTAURANT /\
  decoded_reply cpython
    (always "I do not know." (log (dispatched w))
       (AskSearchParams "something nice"))
  = None /\
  exists reply,
    process_state_pass cpython (always "I do not know.") "something nice" w
    = Ok (Some RESTAURANT_SUGGESTION, Some reply)
        (asked (with_filtered sample_catalog
                  (asked (dispatched w) (AskSearchParams "something nice")))
           (AskSuggestions sample_catalog sample_catalog)).
Proof.
  cbv zeta.
  assert (Hs : state (session (with_state FIND_RESTAURANT sample_world))
               = FIND_RESTAURANT) by reflexivity.
  assert (Hd : decoded_reply cpython
                 (always "I do not know."
                    (log (dispatched (with_state FIND_RESTAURANT sample_world)))
                    (AskSearchParams "something nice")) = None)
    by reflexivity.
  split; [exact Hs|]. split; [exact Hd|].
  exact (find_pass_without_parameters cpython (always "I do not know.")
           "something nice" _ Hs Hd).
Defined.

(** X8.  A search parameter that is present but is not a text makes the
    search raise [AttributeError]: a "location" that is a number, a list or
    an object always does, a "cuisine" of that kind does on every catalog
    that is not empty.  The pass of the Find-Restaurant state then ends in
    that exception and leaves the session as it was: same state, same
    stored results, no suggestion requested. *)
Theorem find_pass_non_text_parameter :
  forall (rt : runtime) (llm : oracle) (user_input : string) (w : world)
         (params : dict),
    state (session w) = FIND_RESTAURANT ->
    decoded_reply rt (llm (log (dispatched w)) (AskSearchParams user_input))
    = Some params ->
    (given params "location" = true /\
     is_text (dict_get params "location") = false)
    \/ (given params "cuisine" = true /\
        is_text (dict_get params "cuisine") = false /\
        restaurants w <> []) ->
    find_restaurants rt params (restaurants w) = None /\
    process_state_pass rt llm user_input w
    = Raise AttributeError
        (asked (dispatched w) (AskSearchParams user_input)).
Proof.
  intros rt llm ui w params Hs Hd Hbad.
  assert (Hf : find_restaurants rt params (restaurants w) = None).
  { destruct Hbad as [[G T]|(G & T & Hrs)].
    - now apply find_restaurants_location_raises.
    - now apply find_restaurants_cuisine_raises. }
  split; [exact Hf|].
  rewrite (find_pass rt llm ui w Hs). rewrite Hd, Hf. reflexivity.
Qed.

Lemma find_pass_non_text_parameter_witness :
  let w := with_state FIND_RESTAURANT sample_world in
  let reply := "{" ++ quoted "cuisine" ++ ": 5}" in
  decoded_reply cpython
    (always reply (log (dispatched w)) (AskSearchParams "five"))
  = Some [("cuisine", JInt 5)] /\
  process_state_pass cpython (always reply) "five" w
  = Raise AttributeError (asked (dispatched w) (AskSearchParams "five")).
Proof.
  cbv zeta.
  assert (Hs : state (session (with_state FIND_RESTAURANT sample_world))
               = FIND_RESTAURANT) by reflexivity.
  assert (Hd : decoded_reply cpython
                 (always ("{" ++ quoted "cuisine" ++ ": 5}")
                    (log (dispatched (with_state FIND_RESTAURANT sample_world)))
                    (AskSearchParams "five"))
               = Some [("cuisine", JInt 5)]) by reflexivity.
  split; [exact Hd|].
  refine (proj2 (find_pass_non_text_parameter cpython _ "five" _ _ Hs Hd _)).
  right. repeat split; try reflexivity. discriminate.
Defined.

Section SuggestionPass.

Variable rt : runtime.
Variable llm : oracle.

(** The first suggestion whose name occurs in the input decides the direct
    match. *)
Lemma direct_name_match_first suggestions ui :
  truthy (direct_name_match rt suggestions ui) = true ->
  exists before r after,
    suggestions = (before ++ r :: after)%list /\
    direct_name_match rt suggestions ui = JInt (r_id r) /\
    contains (lower rt (r_name r)) (lower rt ui) = true /\
    forall x, In x before ->
              contains (lower rt (r_name x)) (lower rt ui) = false.
Proof.
  induction suggestions as [|r rest IH]; simpl; [discriminate|].
  destruct (contains (lower rt (r_name r)) (lower rt ui)) eqn:E.
  - intros _. exists [], r, rest. repeat split; auto. intros x [].
  - intros H. destruct (IH H) as (before & r' & after & -> & Hd & Hc & Hb).
    exists (r :: before), r', after. repeat split; auto.
    intros x [<-|Hx]; auto.
Qed.

(** The pass of the Restaurant-Suggestion state when a suggestion is named
    in the input. *)
Lemma suggestion_pass_direct ui w :
  state (session w) = RESTAURANT_SUGGESTION ->
  let direct :=
    direct_name_match rt (filtered_restaurants (session w)) ui in
  truthy direct = true ->
  let w1 := with_match direct (dispatched w) in
  process_state_pass rt llm ui w
  = if mentions_booking rt ui then
      match lookup_restaurant (restaurants w) direct with
      | Some r =>
          Ok (Some MAKE_RESERVATION,
              Some ("Great! I'll make a reservation at " ++ r_name r
                    ++ " for you. Under what name should I make the reservation?"))
            w1
      | None => Raise TypeError w1
      end
    else
      Ok (Some RESTAURANT_DETAILS,
          Some (llm (log w1)
                  (AskDetails (lookup_restaurant (restaurants w) direct)
                     (restaurants w))))
        (asked w1
           (AskDetails (lookup_restaurant (restaurants w) direct)
              (restaurants w))).
Proof.
  intros Hs. cbv zeta. intros Ht. unfold process_state_pass.
  unfold bind at 1 2. unfold get_session at 1. unfold emit at 1.
  rewrite Hs. unfold bind at 1. unfold get_restaurants at 1.
  cbn [restaurants session]. rewrite Ht. cbn [negb].
  unfold bind at 1. unfold ret at 1. rewrite Ht.
  unfold bind at 1. unfold update_session at 1.
  unfold with_match, dispatched. rewrite Hs.
  cbn [session restaurants db_file log].
  destruct (mentions_booking rt ui).
  - destruct (lookup_restaurant (restaurants w) _); reflexivity.
  - reflexivity.
Qed.

(** The same pass when no suggestion is named and the model is asked. *)
Lemma suggestion_pass_asked ui w :
  state (session w) = RESTAURANT_SUGGESTION ->
  truthy (direct_name_match rt (filtered_restaurants (session w)) ui)
  = false ->
  let req :=
    AskIntentWithContext ui (map r_name (filtered_restaurants (session w)))
      (last_message_of (chat_history (session w))) (restaurants w) in
  let w1 := asked (dispatched w) req in
  process_state_pass rt llm ui w
  = match search_json_object (llm (log (dispatched w)) req) with
    | None => Raise AttributeError w1
    | Some json_str =>
        let restaurant_id :=
          dict_get match json_loads rt json_str with
                   | Some parsed => parsed
                   | None => fallback_intent
                   end "restaurant_id" in
        if truthy restaurant_id then
          if mentions_booking rt ui then
            match lookup_restaurant (restaurants w) restaurant_id with
            | Some r =>
                Ok (Some MAKE_RESERVATION,
                    Some ("Great! I'll make a reservation at " ++ r_name r
                          ++ " for you. Under what name should I make the reservation?"))
                  (with_match restaurant_id w1)
            | None => Raise TypeError (with_match restaurant_id w1)
            end
          else
            Ok (Some RESTAURANT_DETAILS,
                Some (llm (log w1)
                        (AskDetails
                           (lookup_restaurant (restaurants w) restaurant_id)
                           (restaurants w))))
              (asked (with_match restaurant_id w1)
                 (AskDetails
                    (lookup_restaurant (restaurants w) restaurant_id)
                    (restaurants w)))
        else if mentions_booking rt ui then
          Ok (None,
              Some "Which of these restaurants would you like to make a reservation for? Please specify the restaurant name clearly.")
            w1
        else Ok (Some INTENT_DETECTION, None) w1
    end.
Proof.
  intros Hs Ht. cbv zeta. unfold process_state_pass.
  unfold bind at 1 2. unfold get_session at 1. unfold emit at 1.
  rewrite Hs. unfold bind at 1. unfold get_restaurants at 1.
  cbn [restaurants session]. rewrite Ht. cbn [negb].
  unfold bind at 1 2.
  unfold detect_intent_with_context, bind, get_llm_response, asked,
    dispatched, with_match.
  rewrite Hs. cbn [session restaurants db_file log].
  destruct (search_json_object _) as [json_str|]; [|reflexivity].
  cbv zeta.
  destruct (json_loads rt json_str) as [parsed|]; unfold ret;
    (destruct (truthy (dict_get _ "restaurant_id"));
     [unfold update_session; cbn [session restaurants db_file log];
      destruct (mentions_booking rt ui);
      [destruct (lookup_restaurant (restaurants w) _)|]|
      destruct (mentions_booking rt ui)]); reflexivity.
Qed.

End SuggestionPass.

(** X9.  In the Restaurant-Suggestion state a suggestion named in the
    input wins without the model: when the lower-cased name of a stored
    suggestion (with a non-zero id) occurs in the lower-cased input, the
    pass matches the first such suggestion, stores its id in the session
    and does not ask the model to resolve the reference. *)
Theorem direct_match_skips_model :
  forall (rt : runtime) (llm : oracle) (user_input : string) (w : world),
    state (session w) = RESTAURANT_SUGGESTION ->
    truthy (direct_name_match rt (filtered_restaurants (session w))
              user_input) = true ->
    let w' := world_of (process_state_pass rt llm user_input w) in
    (exists before r after,
        filtered_restaurants (session w) = (before ++ r :: after)%list /\
        contains (lower rt (r_name r)) (lower rt user_input) = true /\
        (forall x, In x before ->
                   contains (lower rt (r_name x)) (lower rt user_input)
                   = false) /\
        current_restaurant_id (session w') = JInt (r_id r)) /\
    existsb asked_for_match (log w') = existsb asked_for_match (log w).
Proof.
  intros rt llm ui w Hs Ht. cbv zeta.
  destruct (direct_name_match_first rt _ _ Ht)
    as (before & r & after & Hf & Hd & Hc & Hb).
  rewrite (suggestion_pass_direct rt llm ui w Hs Ht). rewrite Hd.
  unfold with_match, dispatched, asked.
  destruct (mentions_booking rt ui);
    [destruct (lookup_restaurant (restaurants w) (JInt (r_id r)))|];
    cbn [world_of session current_restaurant_id set_current_restaurant_id
         log existsb asked_for_match orb];
    (split; [exists before, r, after; auto|reflexivity]).
Qed.

Lemma direct_match_skips_model_witness :
  let w := run_turns cpython scripted ["find italian food"]
             (initial_world sample_catalog) in
  let w' := world_of (process_state_pass cpython scripted
                        "Bengaluru Bytes, please" w) in
  state (session w) = RESTAURANT_SUGGESTION /\
  truthy (direct_name_match cpython (filtered_restaurants (session w))
            "Bengaluru Bytes, please") = true /\
  current_restaurant_id (session w') = JInt 2 /\
  existsb asked_for_match (log w') = existsb asked_for_match (log w).
Proof.
  cbv zeta.
  assert (Hs : state (session (run_turns cpython scripted
                                 ["find italian food"]
                                 (initial_world sample_catalog)))
               = RESTAURANT_SUGGESTION) by reflexivity.
  assert (Ht : truthy (direct_name_match cpython
                         (filtered_restaurants
                            (session (run_turns cpython scripted
                                        ["find italian food"]
                                        (initial_world sample_catalog))))
                         "Bengaluru Bytes, please") = true) by reflexivity.
  split; [exact Hs|]. split; [exact Ht|]. split; [reflexivity|].
  exact (proj2 (direct_match_skips_model cpython scripted
                  "Bengaluru Bytes, please" _ Hs Ht)).
Defined.

(** X10.  In the Restaurant-Suggestion state, when no suggestion is named
    in the input and the model's reply holds no text between braces,
    [detect_intent_with_context] returns [None] and the pass ends in
    [AttributeError]: the session is left as it was, and only the request
    is on record. *)
Theorem suggestion_pass_without_object_raises :
  forall (rt : runtime) (llm : oracle) (user_input : string) (w : world),
    state (session w) = RESTAURANT_SUGGESTION ->
    truthy (direct_name_match rt (filtered_restaurants (session w))
              user_input) = false ->
    let req :=
      AskIntentWithContext user_input
        (map r_name (filtered_restaurants (session w)))
        (last_message_of (chat_history (session w))) (restaurants w) in
    search_json_object (llm (log (dispatched w)) req) = None ->
    process_state_pass rt llm user_input w
    = Raise AttributeError (asked (dispatched w) req).
Proof.
  intros rt llm ui w Hs Ht. cbv zeta. intros Hn.
  rewrite (suggestion_pass_asked rt llm ui w Hs Ht). cbv zeta.
  now rewrite Hn.
Qed.

Lemma suggestion_pass_without_object_raises_witness :
  let w := run_turns cpython scripted ["find italian food"]
             (initial_world sample_catalog) in
  let req :=
    AskIntentWithContext "the first one"
      (map r_name (filtered_restaurants (session w)))
      (last_message_of (chat_history (session w))) (restaurants w) in
  process_state_pass cpython (always "I am not sure which one you mean.")
    "the first one" w
  = Raise AttributeError (asked (dispatched w) req).
Proof.
  cbv zeta.
  refine (suggestion_pass_without_object_raises cpython
            (always "I am not sure which one you mean.") "the first one"
            (run_turns cpython scripted ["find italian food"]
               (initial_world sample_catalog)) _ _ _); reflexivity.
Defined.

(** X11.  In the Restaurant-Suggestion state, when the model picks an id
    that no restaurant of the catalog has and the input mentions a booking,
    the pass stores that id as the matched restaurant and then ends in
    [TypeError], in the same state: the session keeps the unknown id. *)
Theorem suggestion_pass_unknown_id_raises :
  forall (rt : runtime) (llm : oracle) (user_input : string) (w : world)
         (parsed : dict),
    state (session w) = RESTAURANT_SUGGESTION ->
    truthy (direct_name_match rt (filtered_restaurants (session w))
              user_input) = false ->
    let req :=
      AskIntentWithContext user_input
        (map r_name (filtered_restaurants (session w)))
        (last_message_of (chat_history (session w))) (restaurants w) in
    decoded_reply rt (llm (log (dispatched w)) req) = Some parsed ->
    truthy (dict_get parsed "restaurant_id") = true ->
    id_absent (restaurants w) (dict_get parsed "restaurant_id") ->
    mentions_booking rt user_input = true ->
    let w' := with_match (dict_get parsed "restaurant_id")
                (asked (dispatched w) req) in
    process_state_pass rt llm user_input w = Raise TypeError w' /\
    state (session w') = RESTAURANT_SUGGESTION /\
    current_restaurant_id (session w') = dict_get parsed "restaurant_id".
Proof.
  intros rt llm ui w parsed Hs Ht. cbv zeta. intros Hd Hid Ha Hb.
  rewrite (suggestion_pass_asked rt llm ui w Hs Ht). cbv zeta.
  unfold decoded_reply in Hd.
  destruct (search_json_object _) as [json_str|]; [|discriminate].
  rewrite Hd, Hid, Hb.
  assert (Hl : lookup_restaurant (restaurants w)
                 (dict_get parsed "restaurant_id") = None).
  { unfold lookup_restaurant.
    destruct (find _ (restaurants w)) as [r|] eqn:F; [|reflexivity].
    apply find_some in F as [Hin He]. rewrite (Ha r Hin) in He.
    discriminate. }
  rewrite Hl. repeat split. cbn. exact Hs.
Qed.

Lemma suggestion_pass_unknown_id_raises_witness :
  let w := run_turns cpython scripted ["find italian food"]
             (initial_world sample_catalog) in
  let w' := world_of (process_state_pass cpython scripted
                        "book the new place" w) in
  process_state_pass cpython scripted "book the new place" w
  = Raise TypeError w' /\
  state (session w') = RESTAURANT_SUGGESTION /\
  current_restaurant_id (session w') = JInt 999.
Proof.
  cbv zeta.
  assert (Ha : id_absent sample_catalog (JInt 999)).
  { intros r [<-|[<-|[]]]; reflexivity. }
  destruct (suggestion_pass_unknown_id_raises cpython scripted
              "book the new place"
              (run_turns cpython scripted ["find italian food"]
                 (initial_world sample_catalog))
              [("intent", JStr "details"); ("confidence", JStr "high");
               ("restaurant_id", JInt 999)]
              eq_refl eq_refl eq_refl eq_refl Ha eq_refl)
    as (H1 & H2 & H3).
  rewrite H1. cbn [world_of]. repeat split; assumption.
Defined.

Section TurnsMore.

Variable rt : runtime.
Variable llm : oracle.

Lemma response_or_default_not_empty response :
  response_or_default response <> "".
Proof.
  unfold response_or_default. destruct response as [r|]; [|discriminate].
  destruct (String.eqb r "") eqn:E; [discriminate|].
  now apply String.eqb_neq in E.
Qed.

Lemma process_state_reply d ui :
  forall w r w', process_state rt llm d ui w = Ok r w' -> r <> "".
Proof.
  induction d as [|d IH]; intros w r w'; [discriminate|].
  rewrite process_state_S.
  destruct (process_state_pass rt llm ui w) as [out w1|e w1]; [|discriminate].
  destruct (recurses (state (session w)) out); [apply IH|].
  intros [= <- _]. apply response_or_default_not_empty.
Qed.

Lemma greeted_loaded_synced w :
  restaurants (greeted (loaded w)) = db_file (greeted (loaded w)).
Proof. apply greeted_synced. reflexivity. Qed.

End TurnsMore.

(** X12.  A run that answers a turn answers with a text that is not empty,
    and puts the turn on record: the chat history grows by the user's text
    and the reply, in this order, and the text becomes the guard token. *)
Theorem reply_recorded_and_not_empty :
  forall (rt : runtime) (llm : oracle) (text response : string)
         (w w' : world),
    main rt llm (Some text) w = Ok (Replied response) w' ->
    response <> "" /\
    chat_history (session w')
    = (chat_history (session (greeted (loaded w)))
       ++ [(User, text); (Assistant, response)])%list /\
    last_processed_input (session w') = Some text.
Proof.
  intros rt llm text response w w'. rewrite main_unfold.
  destruct (is_new_turn (Some text) w); [|discriminate].
  pose proof (process_state_frame rt llm (recursion_limit rt) text
                (opened text (greeted (loaded w)))
                (greeted_loaded_synced w)) as (F1 & F2 & _).
  destruct (process_state rt llm (recursion_limit rt) text _)
    as [r w1|e w1] eqn:E; [|discriminate].
  intros [= <- <-]. cbn [world_of] in F1, F2.
  split; [eapply process_state_reply; eauto|].
  cbn [answered session chat_history last_processed_input set_chat_history].
  rewrite F1, F2.
  cbn [opened session chat_history last_processed_input set_chat_history
       set_last_processed_input].
  split; [|reflexivity]. now rewrite <- app_assoc.
Qed.

Lemma reply_recorded_and_not_empty_witness :
  let w := initial_world sample_catalog in
  let response := "You could try Spice Garden or Bengaluru Bytes." in
  let w' := world_of (main cpython scripted (Some "find italian food") w) in
  main cpython scripted (Some "find italian food") w
  = Ok (Replied response) w' /\
  response <> "" /\
  chat_history (session w')
  = (chat_history (session (greeted (loaded w)))
     ++ [(User, "find italian food"); (Assistant, response)])%list /\
  last_processed_input (session w') = Some "find italian food".
Proof.
  cbv zeta.
  assert (H : main cpython scripted (Some "find italian food")
                (initial_world sample_catalog)
              = Ok (Replied "You could try Spice Garden or Bengaluru Bytes.")
                  (world_of (main cpython scripted (Some "find italian food")
                               (initial_world sample_catalog))))
    by (vm_compute; reflexivity).
  split; [exact H|].
  exact (reply_recorded_and_not_empty cpython scripted _ _ _ _ H).
Defined.

Section SessionInvariants.

Variable rt : runtime.
Variable llm : oracle.

(** What [process_state] keeps once the greeting is behind: it never moves
    to the Greeting state or to one of the unused states, it keeps the chat
    history, and the stored search results stay at most five. *)
Lemma pass_keeps_shape ui w :
  state (session w) <> GREETING ->
  unused_state (state (session w)) = false ->
  (List.length (filtered_restaurants (session w)) <= 5)%nat ->
  match process_state_pass rt llm ui w with
  | Ok out w' =>
      state (session (apply_next (fst out) w')) <> GREETING /\
      unused_state (state (session (apply_next (fst out) w'))) = false /\
      (List.length (filtered_restaurants
                      (session (apply_next (fst out) w'))) <= 5)%nat
  | Raise _ w' =>
      state (session w') <> GREETING /\
      unused_state (state (session w')) = false /\
      (List.length (filtered_restaurants (session w')) <= 5)%nat
  end.
Proof.
  intros Hg Hu Hf.
  pass_cases w; simpl in Hg, Hu, Hf |- *;
    try congruence; try discriminate;
    repeat split; try discriminate; auto.
  all: match goal with
       | H : find_restaurants _ _ _ = Some _ |- _ =>
           apply find_restaurants_incl in H; apply H
       end.
Qed.

Lemma process_state_keeps_shape d ui w :
  restaurants w = db_file w ->
  state (session w) <> GREETING ->
  unused_state (state (session w)) = false ->
  (List.length (filtered_restaurants (session w)) <= 5)%nat ->
  let w' := world_of (process_state rt llm d ui w) in
  state (session w') <> GREETING /\
  unused_state (state (session w')) = false /\
  (List.length (filtered_restaurants (session w')) <= 5)%nat /\
  chat_history (session w') = chat_history (session w).
Proof.
  intros Hsync Hg Hu Hf. cbv zeta.
  destruct (process_state_frame rt llm d ui w Hsync) as (F1 & _ & _).
  assert (P : state (session (world_of (process_state rt llm d ui w)))
              <> GREETING /\
              unused_state
                (state (session (world_of (process_state rt llm d ui w))))
              = false /\
              (List.length
                 (filtered_restaurants
                    (session (world_of (process_state rt llm d ui w))))
               <= 5)%nat).
  { apply (process_state_preserves rt llm
             (fun x => state (session x) <> GREETING /\
                       unused_state (state (session x)) = false /\
                       (List.length (filtered_restaurants (session x))
                        <= 5)%nat)); auto.
    intros x (X1 & X2 & X3). now apply pass_keeps_shape. }
  destruct P as (P1 & P2 & P3). auto.
Qed.

Lemma greeted_shape_after_greeting w :
  session w = fresh_session \/ greeted_shape w ->
  greeted_shape (greeted (loaded w)).
Proof.
  intros [H|(H1 & H2 & H3 & H4)].
  - unfold greeted, loaded, greeted_shape. cbn [session]. rewrite H. cbn.
    split; [discriminate|]. split; [reflexivity|]. split; [lia|].
    now exists [].
  - rewrite greeted_same by exact H1. unfold greeted_shape. auto.
Qed.

Lemma main_greeted_shape user_input w :
  session w = fresh_session \/ greeted_shape w ->
  greeted_shape (world_of (main rt llm user_input w)).
Proof.
  intros H. apply greeted_shape_after_greeting in H.
  rewrite main_unfold.
  destruct (is_new_turn user_input w); [|exact H].
  destruct user_input as [text|]; [|exact H].
  destruct H as (H1 & H2 & H3 & rest & H4).
  destruct (process_state_keeps_shape (recursion_limit rt) text
              (opened text (greeted (loaded w))))
    as (P1 & P2 & P3 & P4); auto.
  { apply greeted_synced. reflexivity. }
  cbn [opened session chat_history set_chat_history
       set_last_processed_input] in P4.
  destruct (process_state rt llm (recursion_limit rt) text _) as [r w1|e w1];
    cbn [world_of] in *; unfold greeted_shape;
    cbn [answered session state filtered_restaurants chat_history
         set_chat_history];
    (split; [exact P1|]); (split; [exact P2|]); (split; [exact P3|]);
    rewrite P4, H4; simpl; eauto.
Qed.

Lemma reachable_greeted_shape w :
  reachable rt llm w -> session w = fresh_session \/ greeted_shape w.
Proof.
  induction 1 as [db|w ui _ IH|w db _ IH].
  - now left.
  - right. now apply main_greeted_shape.
  - exact IH.
Qed.

End SessionInvariants.

(** X13.  The greeting happens once, at the first run: after any run of
    the script in a reachable session, the session has left the Greeting
    state for good and its chat history starts with the assistant's
    greeting. *)
Theorem greeted_after_first_run :
  forall (rt : runtime) (llm : oracle) (w : world)
         (user_input : option string),
    reachable rt llm w ->
    let w' := world_of (main rt llm user_input w) in
    state (session w') <> GREETING /\
    exists rest, chat_history (session w') = (Assistant, greeting) :: rest.
Proof.
  intros rt llm w user_input Hr. cbv zeta.
  destruct (main_greeted_shape rt llm user_input w
              (reachable_greeted_shape rt llm w Hr)) as (H1 & _ & _ & H4).
  auto.
Qed.

Lemma greeted_after_first_run_witness :
  let w := initial_world sample_catalog in
  let w' := world_of (main cpython scripted None w) in
  reachable cpython scripted w /\
  state (session w') <> GREETING /\
  exists rest, chat_history (session w') = (Assistant, greeting) :: rest.
Proof.
  cbv zeta.
  assert (Hr : reachable cpython scripted (initial_world sample_catalog))
    by apply reach_start.
  split; [exact Hr|].
  exact (greeted_after_first_run cpython scripted _ None Hr).
Defined.

(** X14.  The states Data-Collection, Name-Received, DateTime-Received,
    Party-Received and Database-Push are declared and never used: no
    reachable session is in one of them.  (The Reservation-Confirmed branch
    assigns Database-Push to [next_state] and overwrites it before the
    state is updated.) *)
Theorem unused_states_unreachable :
  forall (rt : runtime) (llm : oracle) (w : world),
    reachable rt llm w -> unused_state (state (session w)) = false.
Proof.
  intros rt llm w Hr.
  destruct (reachable_greeted_shape rt llm w Hr) as [H|(_ & H & _)];
    [now rewrite H|exact H].
Qed.

Lemma unused_states_unreachable_witness :
  let w := run_turns cpython scripted (booking_conversation ++ ["go ahead"])
             (initial_world sample_catalog) in
  reachable cpython scripted w /\
  unused_state (state (session w)) = false.
Proof.
  cbv zeta.
  assert (Hr : reachable cpython scripted
                 (run_turns cpython scripted
                    (booking_conversation ++ ["go ahead"])
                    (initial_world sample_catalog)))
    by apply run_turns_reachable, reach_start.
  split; [exact Hr|].
  exact (unused_states_unreachable cpython scripted _ Hr).
Defined.

(** X15.  The search results a session stores are at most five, in every
    reachable world and whatever the model replies. *)
Theorem stored_results_bounded :
  forall (rt : runtime) (llm : oracle) (w : world),
    reachable rt llm w ->
    (List.length (filtered_restaurants (session w)) <= 5)%nat.
Proof.
  intros rt llm w Hr.
  destruct (reachable_greeted_shape rt llm w Hr) as [H|(_ & _ & H & _)];
    [rewrite H; simpl; lia|exact H].
Qed.

Lemma stored_results_bounded_witness :
  let w := run_turns cpython scripted ["find italian food"]
             (initial_world sample_catalog) in
  reachable cpython scripted w /\
  (List.length (filtered_restaurants (session w)) <= 5)%nat.
Proof.
  cbv zeta.
  assert (Hr : reachable cpython scripted
                 (run_turns cpython scripted ["find italian food"]
                    (initial_world sample_catalog)))
    by apply run_turns_reachable, reach_start.
  split; [exact Hr|].
  exact (stored_results_bounded cpython scripted _ Hr).
Defined.

Section Steady.

Variable rt : runtime.
Variable llm : oracle.

Lemma add_reservation_loop_with_datetime rs rid name dt ps :
  add_reservation_loop rt rs rid name (Some dt) ps <> AddRaised.
Proof.
  induction rs as [|r rest IH]; simpl; [discriminate|].
  destruct (py_eq_int (r_id r) rid); [discriminate|].
  destruct (add_reservation_loop rt rest rid name (Some dt) ps);
    try discriminate. contradiction.
Qed.

(** In a session that keeps the invariant, the pass of a steady state
    answers: it does not raise and it computes a reply. *)
Lemma steady_pass ui w :
  session_invariant w ->
  steady_state (state (session w)) = true ->
  exists next_state response w',
    process_state_pass rt llm ui w = Ok (next_state, Some response) w'.
Proof.
  intros [_ _ H3 _ _ _ _ _] Hs.
  pass_cases w; simpl in Hs, H3; try discriminate; eauto.
  all: try (specialize (H3 eq_refl); discriminate).
  all: specialize (H3 eq_refl);
    match goal with
    | H : is_some ?x = true,
      L : add_reservation_loop _ _ _ _ ?x _ = AddRaised |- _ =>
        destruct x;
        [now apply add_reservation_loop_with_datetime in L|discriminate H]
    end.
Qed.

Lemma steady_process_state d ui w :
  session_invariant w ->
  steady_state (state (session w)) = true ->
  exists response w', process_state rt llm (S d) ui w = Ok response w'.
Proof.
  intros Hi Hs. rewrite process_state_S.
  destruct (steady_pass ui w Hi Hs) as (ns & r & w' & ->).
  unfold recurses. cbn [fst snd]. eauto.
Qed.

End Steady.

(** X16.  From Make-Reservation to the end of the reservation flow no run
    raises: in a reachable session that is in one of the states
    Make-Reservation, Name-Prompt, DateTime-Prompt, Party-Prompt,
    Confirm-Reservation, Reservation-Confirmed, Error-Handling,
    Reservation-Retry, Support or Reservation-Success, every run of the
    script returns normally; a processed turn takes a single pass and is
    answered.  In particular the draft's date is never missing where the
    code formats it. *)
Theorem reservation_flow_never_raises :
  forall (rt : runtime) (llm : oracle) (w : world)
         (user_input : option string),
    reachable rt llm w ->
    steady_state (state (session w)) = true ->
    (0 < recursion_limit rt)%nat ->
    exists outcome w',
      main rt llm user_input w = Ok outcome w' /\
      (is_new_turn user_input w = true ->
       exists response, outcome = Replied response).
Proof.
  intros rt llm w user_input Hr Hs Hl.
  pose proof (reachable_invariant rt llm w Hr) as Hi.
  rewrite main_unfold.
  destruct (is_new_turn user_input w) eqn:Hn;
    [|eexists _, _; split; [reflexivity|intros H; discriminate H]].
  destruct user_input as [text|]; [|discriminate Hn].
  assert (Hg : greeted (loaded w) = loaded w).
  { apply greeted_same. cbn. intros E. rewrite E in Hs. discriminate. }
  rewrite Hg.
  assert (Ho : session_invariant (opened text (loaded w)))
    by (apply (session_invariant_ext w); auto).
  destruct (recursion_limit rt) as [|d]; [lia|].
  destruct (steady_process_state rt llm d text (opened text (loaded w)) Ho Hs)
    as (r & w' & ->).
  eexists _, _. split; [reflexivity|eauto].
Qed.

Lemma reservation_flow_never_raises_witness :
  let w := run_turns cpython scripted booking_conversation
             (initial_world sample_catalog) in
  reachable cpython scripted w /\
  steady_state (state (session w)) = true /\
  exists outcome w',
    main cpython scripted (Some "go ahead") w = Ok outcome w'.
Proof.
  cbv zeta.
  assert (Hr : reachable cpython scripted
                 (run_turns cpython scripted booking_conversation
                    (initial_world sample_catalog)))
    by apply run_turns_reachable, reach_start.
  assert (Hs : steady_state
                 (state (session (run_turns cpython scripted
                                    booking_conversation
                                    (initial_world sample_catalog)))) = true)
    by (vm_compute; reflexivity).
  assert (Hl : (0 < recursion_limit cpython)%nat) by (vm_compute; lia).
  split; [exact Hr|]. split; [exact Hs|].
  destruct (reservation_flow_never_raises cpython scripted _
              (Some "go ahead") Hr Hs Hl) as (o & w' & H & _).
  now exists o, w'.
Defined.
Section Unmatched.

Variable rt : runtime.
Variable llm : oracle.

(** While no restaurant is matched, a pass that does not answer leads to a
    state that needs fewer passes, and leaves the session unmatched; no pass
    raises [RecursionError] itself. *)
Lemma unmatched_pass ui w :
  truthy (current_restaurant_id (session w)) = false ->
  match process_state_pass rt llm ui w with
  | Ok out w' =>
      recurses (state (session w)) out = true ->
      let w'' := apply_next (fst out) w' in
      truthy (current_restaurant_id (session w'')) = false /\
      (passes_needed (state (session w''))
       < passes_needed (state (session w)))%nat
  | Raise e _ => e <> RecursionError
  end.
Proof.
  intros Hu.
  pass_cases w; cbn [recurses fst snd State_eqb]; simpl in Hu |- *;
    try discriminate; try (intros _; split; [assumption|lia]);
    try congruence.
Qed.

Lemma unmatched_process_state ui d :
  forall w,
    truthy (current_restaurant_id (session w)) = false ->
    (passes_needed (state (session w)) <= d)%nat ->
    is_recursion_error (process_state rt llm d ui w) = false.
Proof.
  induction d as [|d IH]; intros w Hu Hd.
  - destruct (state (session w)); simpl in Hd; lia.
  - rewrite process_state_S. pose proof (unmatched_pass ui w Hu) as Hp.
    destruct (process_state_pass rt llm ui w) as [out w'|e w'].
    + destruct (recurses (state (session w)) out); [|reflexivity].
      destruct (Hp eq_refl) as [H1 H2]. apply IH; [exact H1|lia].
    + destruct e; try reflexivity. contradiction.
Qed.

End Unmatched.

(** X17.  A turn that starts with no restaurant matched ends within three
    passes of [process_state]: whatever the model answers, a run of the
    script in such a session does not raise [RecursionError], provided the
    interpreter allows three nested calls.  (With a matched restaurant the
    Intent-Detection and Restaurant-Details states can hand the turn to each
    other without end.) *)
Theorem unmatched_turn_terminates :
  forall (rt : runtime) (llm : oracle) (user_input : option string)
         (w : world),
    truthy (current_restaurant_id (session w)) = false ->
    (3 <= recursion_limit rt)%nat ->
    is_recursion_error (main rt llm user_input w) = false.
Proof.
  intros rt llm user_input w Hu Hl. rewrite main_unfold.
  destruct (is_new_turn user_input w); [|reflexivity].
  destruct user_input as [text|]; [|reflexivity].
  set (w0 := opened text (greeted (loaded w))).
  assert (H0 : truthy (current_restaurant_id (session w0)) = false).
  { unfold w0. cbn [opened session current_restaurant_id set_chat_history
                    set_last_processed_input].
    destruct (greeted_frame (loaded w)) as (_ & _ & _ & G & _).
    rewrite G. exact Hu. }
  assert (Hd : (passes_needed (state (session w0)) <= recursion_limit rt)%nat).
  { destruct (state (session w0)); simpl; lia. }
  pose proof (unmatched_process_state rt llm text _ w0 H0 Hd) as He.
  destruct (process_state rt llm (recursion_limit rt) text w0) as [r w'|e w'];
    [reflexivity|exact He].
Qed.

Lemma unmatched_turn_terminates_witness :
  truthy (current_restaurant_id (session (initial_world sample_catalog)))
  = false /\
  (3 <= recursion_limit cpython)%nat /\
  is_recursion_error
    (main cpython scripted (Some "thanks") (initial_world sample_catalog))
  = false.
Proof.
  assert (Hu : truthy (current_restaurant_id
                         (session (initial_world sample_catalog))) = false)
    by reflexivity.
  assert (Hl : (3 <= recursion_limit cpython)%nat) by (vm_compute; lia).
  split; [exact Hu|]. split; [exact Hl|].
  exact (unmatched_turn_terminates cpython scripted (Some "thanks")
           (initial_world sample_catalog) Hu Hl).
Defined.
Section Growth.

Variable rt : runtime.
Variable llm : oracle.

Lemma grown_from_refl r : grown_from r r.
Proof.
  exists []. rewrite app_nil_r. now destruct r.
Qed.

Lemma catalog_grown_from_refl rs : catalog_grown_from rs rs.
Proof.
  induction rs; constructor; auto using grown_from_refl.
Qed.

(** The transaction appends one reservation to one restaurant and leaves
    the rest of the catalog as it is. *)
Lemma add_reservation_loop_grows rs rid name dt ps :
  forall res rs',
    add_reservation_loop rt rs rid name dt ps = Added res rs' ->
    catalog_grown_from rs rs' /\
    reservation_count rs' = S (reservation_count rs).
Proof.
  induction rs as [|r rest IH]; intros res rs'; simpl; [discriminate|].
  destruct (py_eq_int (r_id r) rid).
  - destruct dt; [|discriminate]. intros [= _ <-]. split.
    + constructor; [now eexists|apply catalog_grown_from_refl].
    + unfold reservation_count. simpl. rewrite length_app. simpl. lia.
  - destruct (add_reservation_loop rt rest rid name dt ps) as [res0 rest'| |];
      try discriminate.
    intros [= _ <-]. destruct (IH _ _ eq_refl) as [G C]. split.
    + constructor; [apply grown_from_refl|exact G].
    + unfold reservation_count in *. simpl. lia.
Qed.

(** What a run does to the catalog file: nothing, or what the transaction
    does to it. *)
Lemma turn_file user_input w :
  let w' := world_of (main rt llm user_input w) in
  db_file w' = db_file w
  \/ exists res s,
       add_reservation_loop rt (db_file w) (current_restaurant_id s)
         (ri_name (reservation_info s)) (ri_datetime (reservation_info s))
         (ri_party_size (reservation_info s)) = Added res (db_file w').
Proof.
  cbv zeta.
  destruct (State_eq_dec (state (session w)) RESERVATION_CONFIRMED)
    as [Hs|Hs]; [|left; now apply quiet_turn].
  destruct (is_new_turn user_input w) eqn:Hn.
  2:{ left. rewrite (ignored_turn rt llm _ _ Hn). cbn [world_of].
      now destruct (greeted_frame (loaded w)) as (_ & -> & _). }
  destruct user_input as [text|]; [|discriminate Hn].
  destruct (recursion_limit rt) eqn:El.
  - left. rewrite main_unfold, Hn, El. cbn.
    now destruct (greeted_frame (loaded w)) as (_ & -> & _).
  - assert (Hl : (0 < recursion_limit rt)%nat) by lia.
    destruct (confirmed_turn rt llm text w Hs Hn Hl) as (_ & _ & Hc).
    destruct (add_reservation_loop rt (db_file w) _ _ _ _)
      as [res rs'| |] eqn:E; destruct Hc as (_ & Hdb & _); auto.
    right. exists res, (session w). now rewrite Hdb.
Qed.

End Growth.

(** X18.  A run of the script never removes, reorders or rewrites what the
    catalog file holds: after the run the file lists the same restaurants in
    the same order, each with the keys it had and with its reservations
    extended at the end, and in all at most one reservation more than
    before. *)
Theorem catalog_only_grows :
  forall (rt : runtime) (llm : oracle) (user_input : option string)
         (w : world),
    let w' := world_of (main rt llm user_input w) in
    catalog_grown_from (db_file w) (db_file w') /\
    (reservation_count (db_file w) <= reservation_count (db_file w')
     <= reservation_count (db_file w) + 1)%nat.
Proof.
  intros rt llm user_input w. cbv zeta.
  destruct (turn_file rt llm user_input w) as [->|(res & s & H)].
  - split; [apply catalog_grown_from_refl|lia].
  - destruct (add_reservation_loop_grows rt _ _ _ _ _ _ _ H) as [G C].
    split; [exact G|lia].
Qed.

(** X19.  However a run of the script ends, with a reply, without one or
    with an exception, the list of restaurants in memory is the content of
    the catalog file: a reservation appended in memory has been saved. *)
Theorem memory_matches_file_after_run :
  forall (rt : runtime) (llm : oracle) (user_input : option string)
         (w : world),
    let w' := world_of (main rt llm user_input w) in
    restaurants w' = db_file w'.
Proof.
  intros rt llm user_input w. cbv zeta. rewrite main_unfold.
  assert (Hg : restaurants (greeted (loaded w)) = db_file (greeted (loaded w)))
    by (apply greeted_synced; reflexivity).
  destruct (is_new_turn user_input w); [|exact Hg].
  destruct user_input as [text|]; [|exact Hg].
  assert (Ho : restaurants (opened text (greeted (loaded w)))
               = db_file (opened text (greeted (loaded w)))) by exact Hg.
  destruct (process_state_frame rt llm (recursion_limit rt) text _ Ho)
    as (_ & _ & Hs).
  destruct (process_state rt llm (recursion_limit rt) text _) as [r w1|e w1];
    exact Hs.
Qed.
Section Silent.

Variable rt : runtime.

(** The pass of a silent state is the same whatever the model: it puts no
    request, and [process_state] returns after it. *)
Lemma silent_pass (llm llm' : oracle) ui w :
  silent_state (state (session w)) = true ->
  process_state_pass rt llm ui w = process_state_pass rt llm' ui w /\
  match process_state_pass rt llm ui w with
  | Ok out w' =>
      recurses (state (session w)) out = false /\
      requests (log w') = requests (log w)
  | Raise _ w' => requests (log w') = requests (log w)
  end.
Proof.
  intros Hs.
  pass_cases w; simpl in Hs; try discriminate; auto.
Qed.

Lemma silent_process_state (llm llm' : oracle) d ui w :
  silent_state (state (session w)) = true ->
  process_state rt llm d ui w = process_state rt llm' d ui w /\
  requests (log (world_of (process_state rt llm d ui w))) = requests (log w).
Proof.
  intros Hs. destruct d as [|d]; [auto|].
  rewrite !process_state_S.
  destruct (silent_pass llm llm' ui w Hs) as [<- Hp].
  destruct (process_state_pass rt llm ui w) as [out w'|e w']; [|auto].
  destruct Hp as [-> Hq]. split; [reflexivity|].
  destruct out as [[ns|] resp]; exact Hq.
Qed.

End Silent.

(** X20.  The steps of the booking dialogue that only collect, confirm or
    commit (Make-Reservation, Name-Prompt, Confirm-Reservation,
    Reservation-Confirmed, Error-Handling, Reservation-Retry, Support and
    Reservation-Success, and the five states nothing dispatches on) never
    consult the model: a run of the script in one of them puts no request,
    and its reply and the session it leaves are the same for every
    model. *)
Theorem booking_steps_ignore_model :
  forall (rt : runtime) (llm llm' : oracle) (user_input : option string)
         (w : world),
    silent_state (state (session w)) = true ->
    main rt llm user_input w = main rt llm' user_input w /\
    requests (log (world_of (main rt llm user_input w))) = requests (log w).
Proof.
  intros rt llm llm' user_input w Hs. rewrite !main_unfold.
  assert (Hg : greeted (loaded w) = loaded w).
  { apply greeted_same. cbn. intros E. rewrite E in Hs. discriminate. }
  rewrite Hg.
  destruct (is_new_turn user_input w); [|auto].
  destruct user_input as [text|]; [|auto].
  destruct (silent_process_state rt llm llm' (recursion_limit rt) text
              (opened text (loaded w)) Hs) as [<- Hq].
  split; [reflexivity|].
  destruct (process_state rt llm (recursion_limit rt) text _) as [r w1|e w1];
    exact Hq.
Qed.

Lemma booking_steps_ignore_model_witness :
  let w := run_turns cpython scripted booking_conversation
             (initial_world sample_catalog) in
  silent_state (state (session w)) = true /\
  main cpython scripted (Some "go ahead") w
  = main cpython (always "no") (Some "go ahead") w /\
  requests (log (world_of (main cpython scripted (Some "go ahead") w)))
  = requests (log w).
Proof.
  cbv zeta.
  assert (Hs : silent_state
                 (state (session (run_turns cpython scripted
                                    booking_conversation
                                    (initial_world sample_catalog)))) = true)
    by (vm_compute; reflexivity).
  split; [exact Hs|].
  exact (booking_steps_ignore_model cpython scripted (always "no")
           (Some "go ahead") _ Hs).
Defined.
Section History.

Lemma every_other_facts {A} (d : A) n :
  forall l : list A,
    (List.length l <= n)%nat ->
    List.length (every_other l) = Nat.div2 (S (List.length l)) /\
    forall i, nth i (every_other l) d = nth (2 * i) l d.
Proof.
  induction n as [|n IH].
  - intros [|x l] Hl; [|simpl in Hl; lia].
    split; [reflexivity|]. intros i. simpl. now destruct i.
  - intros [|x [|y l]] Hl.
    + split; [reflexivity|]. intros i. simpl. now destruct i.
    + split; [reflexivity|]. intros [|[|i]]; reflexivity.
    + destruct (IH l) as [I1 I2]; [simpl in Hl; lia|].
      change (every_other (x :: y :: l)) with (x :: every_other l).
      split.
      * simpl List.length. rewrite I1. reflexivity.
      * intros [|i]; [reflexivity|].
        replace (2 * S i)%nat with (S (S (2 * i))) by lia.
        cbn [nth]. apply I2.
Qed.

Lemma nth_removelast {A} (d : A) (l : list A) i :
  (S i < List.length l)%nat -> nth i (removelast l) d = nth i l d.
Proof.
  revert i. induction l as [|x l IH]; intros i Hi; [simpl in Hi; lia|].
  destruct l as [|y l]; [simpl in Hi; lia|].
  change (removelast (x :: y :: l)) with (x :: removelast (y :: l)).
  destruct i as [|i]; [reflexivity|]. cbn [nth]. apply IH.
  simpl in Hi |- *. lia.
Qed.

Lemma length_removelast_pred {A} (l : list A) :
  List.length (removelast l) = pred (List.length l).
Proof.
  induction l as [|x l IH]; [reflexivity|].
  destruct l as [|y l]; [reflexivity|].
  change (removelast (x :: y :: l)) with (x :: removelast (y :: l)).
  simpl List.length in *. rewrite IH. reflexivity.
Qed.

Lemma picked_length (chat : list (role * string)) :
  List.length (every_other (removelast chat))
  = (List.length chat / 2)%nat.
Proof.
  destruct (every_other_facts (Assistant, "") _ (removelast chat)
              (Nat.le_refl _)) as [-> _].
  rewrite length_removelast_pred, Nat.div2_div.
  destruct chat as [|x chat]; [reflexivity|]. reflexivity.
Qed.

Lemma indexed_nth_error {A B} (f : nat * A -> B) (l : list A) :
  forall start i,
    nth_error (map f (combine (seq start (List.length l)) l)) i
    = match nth_error l i with
      | Some a => Some (f ((start + i)%nat, a))
      | None => None
      end.
Proof.
  induction l as [|a l IH]; intros start i; simpl.
  - now destruct i.
  - destruct i as [|i]; simpl.
    + now rewrite Nat.add_0_r.
    + rewrite IH. now rewrite Nat.add_succ_r.
Qed.

Lemma pair_up_in_range chat (l : list (role * string)) :
  forall start,
    (start + List.length l < List.length chat)%nat ->
    pair_up chat (combine (seq start (List.length l)) l)
    = Some (map (fun im : nat * (role * string) =>
                   (snd (snd im),
                    snd (nth (S (fst im)) chat (Assistant, ""))))
              (combine (seq start (List.length l)) l)).
Proof.
  induction l as [|a l IH]; intros start Hs; [reflexivity|].
  simpl List.length in *. cbn [seq combine pair_up map fst snd].
  destruct (nth_error chat (S start)) as [next|] eqn:E.
  - rewrite IH by lia.
    now rewrite (nth_error_nth _ _ _ E).
  - apply nth_error_None in E. lia.
Qed.

End History.

(** X21.  The history [process_state] builds for a free conversation: the
    subscript [chat_history[i+1]] of the comprehension is always in range,
    so building it raises no [IndexError]; it holds one pair for every two
    messages of the chat history, and its [i]-th pair joins the content of
    message [2*i] with the content of message [i+1] (which is the message
    after it only for [i = 0]). *)
Theorem history_pairs_in_range :
  forall chat : list (role * string),
    history_pairs_checked chat = Some (history_pairs chat) /\
    forall i,
      nth_error (history_pairs chat) i
      = if (i <? List.length chat / 2)%nat
        then Some (content_at chat (2 * i), content_at chat (S i))
        else None.
Proof.
  intros chat. split.
  - unfold history_pairs_checked, history_pairs. cbv zeta.
    destruct chat as [|x chat]; [reflexivity|].
    apply pair_up_in_range. rewrite picked_length.
    simpl List.length in *.
    assert (S (List.length chat) / 2 < S (List.length chat))%nat
      by (apply Nat.div_lt; lia).
    lia.
  - intros i. unfold history_pairs. cbv zeta.
    rewrite indexed_nth_error. cbn [fst snd Nat.add].
    pose proof (picked_length chat) as Hl.
    destruct (every_other_facts (Assistant, "") _ (removelast chat)
                (Nat.le_refl _)) as [_ Hn].
    destruct (i <? List.length chat / 2)%nat eqn:E.
    + apply Nat.ltb_lt in E.
      destruct (nth_error (every_other (removelast chat)) i) as [m|] eqn:En.
      * apply (nth_error_nth _ _ (Assistant, "")) in En.
        rewrite Hn in En. rewrite nth_removelast in En.
        -- unfold content_at. now rewrite En.
        -- assert (2 * (List.length chat / 2) <= List.length chat)%nat
             by apply Nat.Div0.mul_div_le.
           lia.
      * apply nth_error_None in En. lia.
    + apply Nat.ltb_ge in E.
      destruct (nth_error (every_other (removelast chat)) i) eqn:En;
        [|reflexivity].
      assert (nth_error (every_other (removelast chat)) i <> None)
        by congruence.
      apply nth_error_Some in H. lia.
Qed.
Section PartySize.

Variable rt : runtime.
Variable llm : oracle.

Lemma pass_party_size_not_zero ui w :
  ri_party_size (reservation_info (session w)) <> Some 0 ->
  match process_state_pass rt llm ui w with
  | Ok out w' =>
      ri_party_size (reservation_info (session (apply_next (fst out) w')))
      <> Some 0
  | Raise _ w' => ri_party_size (reservation_info (session w')) <> Some 0
  end.
Proof.
  intros H. pass_cases w; simpl in H |- *; try assumption.
  all: match goal with
       | E : negb (?n =? 0) = true |- _ =>
           intros [= ->]; discriminate E
       end.
Qed.

Lemma main_party_size_not_zero user_input w :
  ri_party_size (reservation_info (session w)) <> Some 0 ->
  ri_party_size
    (reservation_info (session (world_of (main rt llm user_input w))))
  <> Some 0.
Proof.
  intros H. rewrite main_unfold.
  assert (Hg : ri_party_size
                 (reservation_info (session (greeted (loaded w)))) <> Some 0).
  { destruct (greeted_frame (loaded w)) as (_ & _ & _ & _ & -> & _).
    exact H. }
  destruct (is_new_turn user_input w); [|exact Hg].
  destruct user_input as [text|]; [|exact Hg].
  pose proof (process_state_preserves rt llm
                (fun x => ri_party_size (reservation_info (session x))
                          <> Some 0)
                text (pass_party_size_not_zero text)
                (recursion_limit rt) (opened text (greeted (loaded w))) Hg)
    as Hp.
  destruct (process_state rt llm (recursion_limit rt) text _) as [r w1|e w1];
    exact Hp.
Qed.

End PartySize.

(** X22.  The draft never holds a party size of zero: in every reachable
    session the party size is absent or an integer other than 0, because
    the Party-Prompt state stores only what passes its truth test.  (The
    test lets negative sizes through.) *)
Theorem stored_party_size_not_zero :
  forall (rt : runtime) (llm : oracle) (w : world),
    reachable rt llm w ->
    ri_party_size (reservation_info (session w)) <> Some 0.
Proof.
  intros rt llm w Hr. induction Hr as [db|w ui Hr IH|w db Hr IH].
  - discriminate.
  - now apply main_party_size_not_zero.
  - exact IH.
Qed.

Lemma stored_party_size_not_zero_witness :
  let w := run_turns cpython scripted booking_conversation
             (initial_world sample_catalog) in
  reachable cpython scripted w /\
  ri_party_size (reservation_info (session w)) <> Some 0.
Proof.
  cbv zeta.
  assert (Hr : reachable cpython scripted
                 (run_turns cpython scripted booking_conversation
                    (initial_world sample_catalog)))
    by apply run_turns_reachable, reach_start.
  split; [exact Hr|].
  exact (stored_party_size_not_zero cpython scripted _ Hr).
Defined.
(** X23.  A party size that is given but reads as zero (the text "0", or a
    fraction below one, which [int] truncates) is answered with the
    fallback reply of [process_state]: [parse_party_size] returns 0 with an
    empty message, the truth test of the Party-Prompt state rejects the 0,
    and the empty message is replaced by the default text.  The session
    stays in the Party-Prompt state with its draft as it was. *)
Theorem zero_party_size_default_reply :
  forall (rt : runtime) (llm : oracle) (depth : nat) (user_input : string)
         (w : world) (parsed : dict),
    state (session w) = PARTY_PROMPT ->
    decoded_reply rt (llm (log (dispatched w)) (AskPartySize user_input))
    = Some parsed ->
    given parsed "party_size" = true ->
    py_int rt (dict_get parsed "party_size") = Some 0 ->
    process_state rt llm (S depth) user_input w
    = Ok default_reply (asked (dispatched w) (AskPartySize user_input)).
Proof.
  intros rt llm depth ui w parsed Hs Hd Hg Hz.
  rewrite process_state_S. unfold decoded_reply in Hd.
  destruct w as [[st ch cid ri fr lp] rs db lg]. cbn [session state] in Hs.
  subst st. unfold dispatched in Hd |- *.
  cbn [session state restaurants db_file log] in Hd |- *.
  unfold process_state_pass, bind at 1 2, get_session at 1, emit at 1.
  cbn [session state restaurants db_file log].
  unfold bind at 1. unfold parse_party_size, bind at 1, get_llm_response at 1.
  cbn [session state restaurants db_file log].
  destruct (search_json_object _) as [json_str|]; [|discriminate].
  rewrite Hd, Hg, Hz. reflexivity.
Qed.

Lemma zero_party_size_default_reply_witness :
  let w := with_state PARTY_PROMPT sample_world in
  process_state cpython (always reply_zero_text) 1 "just me, maybe" w
  = Ok default_reply (asked (dispatched w) (AskPartySize "just me, maybe")).
Proof.
  cbv zeta.
  refine (zero_party_size_default_reply cpython (always reply_zero_text) 0
            "just me, maybe" (with_state PARTY_PROMPT sample_world)
            [("party_size", JStr "0")] _ _ _ _);
    vm_compute; reflexivity.
Defined.
(** X24.  A turn that ends in an exception is not processed again: the
    text is marked as processed and appended to the chat history before
    [process_state] runs, so after the failure the session holds the
    user's message without an answer, and a run with the same text again is
    ignored, whatever the model would reply now; it leaves the world as the
    failure left it. *)
Theorem failed_turn_not_retried :
  forall (rt : runtime) (llm llm' : oracle) (text : string) (w w' : world)
         (e : exn),
    main rt llm (Some text) w = Raise e w' ->
    last_processed_input (session w') = Some text /\
    (exists before, chat_history (session w') = before ++ [(User, text)])%list /\
    main rt llm' (Some text) w' = Ok Ignored w'.
Proof.
  intros rt llm llm' text w w' e H. rewrite main_unfold in H.
  destruct (is_new_turn (Some text) w); [|discriminate H].
  assert (Ho : restaurants (opened text (greeted (loaded w)))
               = db_file (opened text (greeted (loaded w))))
    by (apply (greeted_synced (loaded w)); reflexivity).
  destruct (process_state_frame rt llm (recursion_limit rt) text _ Ho)
    as (F1 & F2 & F3).
  destruct (process_state rt llm (recursion_limit rt) text _) as [r w1|e1 w1];
    [discriminate H|].
  injection H as _ <-. cbn [world_of] in F1, F2, F3.
  cbn [opened session chat_history last_processed_input set_chat_history
       set_last_processed_input] in F1, F2.
  split; [exact F2|]. split; [eauto|].
  rewrite main_unfold.
  assert (Hn : is_new_turn (Some text) w1 = false).
  { unfold is_new_turn. rewrite F2, String.eqb_refl.
    now destruct (String.eqb text ""). }
  rewrite Hn. rewrite (loaded_synced w1 F3).
  rewrite greeted_chat; [reflexivity|].
  rewrite F1. apply app_not_nil.
Qed.

Lemma failed_turn_not_retried_witness :
  let w := run_turns cpython scripted ["find italian food"]
             (initial_world sample_catalog) in
  let llm := always "I am not sure which one you mean." in
  let w' := world_of (main cpython llm (Some "the first one") w) in
  main cpython llm (Some "the first one") w = Raise AttributeError w' /\
  main cpython scripted (Some "the first one") w' = Ok Ignored w'.
Proof.
  cbv zeta.
  assert (H : main cpython (always "I am not sure which one you mean.")
                (Some "the first one")
                (run_turns cpython scripted ["find italian food"]
                   (initial_world sample_catalog))
              = Raise AttributeError
                  (world_of
                     (main cpython (always "I am not sure which one you mean.")
                        (Some "the first one")
                        (run_turns cpython scripted ["find italian food"]
                           (initial_world sample_catalog)))))
    by (vm_compute; reflexivity).
  split; [exact H|].
  exact (proj2 (proj2 (failed_turn_not_retried cpython _ scripted _ _ _ _ H))).
Defined.
(** X25.  The turn in which the user confirms the draft writes nothing: it
    only moves the session to Reservation-Confirmed (or back to
    Make-Reservation when the text holds none of "yes", "correct",
    "confirm"), and the catalog file is as before.  The transaction runs in
    a later turn, and that turn needs another text: a run with the text of
    the confirmation again is ignored and leaves the world as it is. *)
Theorem confirmation_commits_nothing :
  forall (rt : runtime) (llm : oracle) (text : string) (w : world),
    state (session w) = CONFIRM_RESERVATION ->
    is_new_turn (Some text) w = true ->
    (0 < recursion_limit rt)%nat ->
    let w1 := world_of (main rt llm (Some text) w) in
    state (session w1)
    = (if confirms rt text then RESERVATION_CONFIRMED else MAKE_RESERVATION) /\
    db_file w1 = db_file w /\
    saves (log w1) = saves (log w) /\
    main rt llm (Some text) w1 = Ok Ignored w1.
Proof.
  intros rt llm text w Hs Hn Hl. cbv zeta.
  destruct w as [[st ch cid ri fr lp] rs db lg]. cbn [session state] in Hs.
  subst st.
  assert (H : exists r,
             main rt llm (Some text)
               (mk_world (mk_session CONFIRM_RESERVATION ch cid ri fr lp)
                  rs db lg)
             = Ok (Replied r)
                 (mk_world
                    (mk_session
                       (if confirms rt text then RESERVATION_CONFIRMED
                        else MAKE_RESERVATION)
                       ((ch ++ [(User, text)]) ++ [(Assistant, r)])%list
                       cid ri fr (Some text))
                    db db (Dispatched CONFIRM_RESERVATION :: lg))).
  { rewrite main_unfold, Hn.
    rewrite greeted_same by (cbn; discriminate).
    destruct (recursion_limit rt) as [|d]; [lia|].
    rewrite process_state_S.
    unfold process_state_pass, bind, get_session, emit, ret, confirms.
    cbn [session state restaurants db_file log loaded opened
         set_chat_history set_last_processed_input].
    destruct (contains "yes" (lower rt text)
              || contains "correct" (lower rt text)
              || contains "confirm" (lower rt text));
      eexists; reflexivity. }
  destruct H as [r ->]. cbn [world_of session state db_file log saves].
  split; [reflexivity|]. split; [reflexivity|]. split; [reflexivity|].
  rewrite main_unfold.
  cbn [is_new_turn session last_processed_input].
  rewrite String.eqb_refl, andb_false_r.
  apply f_equal. apply greeted_chat. cbn. apply app_not_nil.
Qed.

Lemma confirmation_commits_nothing_witness :
  let w := run_turns cpython scripted (removelast booking_conversation)
             (initial_world sample_catalog) in
  let w1 := world_of (main cpython scripted (Some "yes") w) in
  state (session w) = CONFIRM_RESERVATION /\
  state (session w1) = RESERVATION_CONFIRMED /\
  db_file w1 = db_file w /\
  main cpython scripted (Some "yes") w1 = Ok Ignored w1.
Proof.
  cbv zeta.
  assert (Hs : state (session (run_turns cpython scripted
                                 (removelast booking_conversation)
                                 (initial_world sample_catalog)))
               = CONFIRM_RESERVATION) by (vm_compute; reflexivity).
  assert (Hn : is_new_turn (Some "yes")
                 (run_turns cpython scripted
                    (removelast booking_conversation)
                    (initial_world sample_catalog)) = true)
    by (vm_compute; reflexivity).
  assert (Hl : (0 < recursion_limit cpython)%nat) by (vm_compute; lia).
  destruct (confirmation_commits_nothing cpython scripted "yes" _ Hs Hn Hl)
    as (H1 & H2 & _ & H4).
  split; [exact Hs|]. split; [exact H1|]. split; [exact H2|exact H4].
Defined.
Section Bootstrap.

Lemma choice_in l k : l <> [] -> In (choice l k) l.
Proof.
  intros Hl. unfold choice. apply nth_In.
  apply Nat.mod_upper_bound. destruct l; [contradiction|discriminate].
Qed.

Lemma randint_range a b k : a <= b -> a <= randint a b k <= b.
Proof.
  intros H. unfold randint.
  pose proof (Z.mod_pos_bound (Z.of_nat k) (b - a + 1)). lia.
Qed.

Lemma rating_draw_range k : (35 # 10 <= rating_draw k <= 49 # 10)%Q.
Proof.
  assert (H : (k mod 15 < 15)%nat) by (apply Nat.mod_upper_bound; lia).
  unfold rating_draw, Qle. cbn [Qnum Qden]. lia.
Qed.

Lemma pool_split (pool : list string) j :
  (j < List.length pool)%nat ->
  pool = (firstn j pool ++ nth j pool "" :: skipn (S j) pool)%list.
Proof.
  revert j. induction pool as [|x pool IH]; intros j Hj;
    [simpl in Hj; lia|].
  destruct j as [|j]; [reflexivity|].
  simpl. f_equal. apply IH. simpl in Hj. lia.
Qed.

Lemma remove_at_facts (pool : list string) j :
  (j < List.length pool)%nat -> NoDup pool ->
  NoDup (remove_at j pool) /\
  ~ In (nth j pool "") (remove_at j pool) /\
  S (List.length (remove_at j pool)) = List.length pool /\
  incl (remove_at j pool) pool.
Proof.
  intros Hj Hd. pose proof (pool_split pool j Hj) as Hp.
  unfold remove_at.
  assert (Hr : NoDup (firstn j pool ++ skipn (S j) pool) /\
               ~ In (nth j pool "") (firstn j pool ++ skipn (S j) pool)).
  { apply NoDup_remove. rewrite <- Hp. exact Hd. }
  split; [exact (proj1 Hr)|]. split; [exact (proj2 Hr)|]. split.
  - rewrite Hp at 3. rewrite !length_app. cbn [List.length]. lia.
  - intros y Hy. rewrite Hp. apply in_app_or in Hy. apply in_or_app.
    destruct Hy; [left|right; right]; assumption.
Qed.

Lemma sample_S pool picks n :
  pool <> [] ->
  sample pool picks (S n)
  = nth (picks O mod List.length pool) pool ""
    :: sample (remove_at (picks O mod List.length pool) pool)
         (fun i => picks (S i)) n.
Proof. destruct pool; [contradiction|reflexivity]. Qed.

Lemma sample_spec n :
  forall pool picks,
    NoDup pool -> (n <= List.length pool)%nat ->
    List.length (sample pool picks n) = n /\
    NoDup (sample pool picks n) /\
    incl (sample pool picks n) pool.
Proof.
  induction n as [|n IH]; intros pool picks Hd Hn.
  - repeat split; [constructor|intros x []].
  - assert (Hp : pool <> []) by (destruct pool; [simpl in Hn; lia|discriminate]).
    rewrite (sample_S pool picks n Hp).
    assert (Hj : (picks O mod List.length pool < List.length pool)%nat).
    { apply Nat.mod_upper_bound. destruct pool; [contradiction|discriminate]. }
    destruct (remove_at_facts pool _ Hj Hd) as (R1 & R2 & R3 & R4).
    destruct (IH (remove_at (picks O mod List.length pool) pool)
                (fun i => picks (S i)) R1) as (I1 & I2 & I3); [lia|].
    repeat split.
    + cbn [List.length]. now rewrite I1.
    + constructor; [|exact I2]. intros Hin. apply R2. now apply I3.
    + intros y [<-|Hy]; [now apply nth_In|]. apply R4. now apply I3.
Qed.

Lemma seating_options_distinct : NoDup seating_options.
Proof.
  unfold seating_options.
  repeat (constructor; [simpl; intuition discriminate|]). constructor.
Qed.

Lemma generate_restaurant_generated rt i d :
  generated (generate_restaurant rt i d).
Proof.
  constructor; cbn [generate_restaurant r_cuisine r_location r_price_range
                    r_rating r_seating_arrangements r_capacity
                    r_reservations].
  - apply choice_in. discriminate.
  - apply choice_in. discriminate.
  - apply choice_in. discriminate.
  - apply rating_draw_range.
  - pose proof (randint_range 2 5 (d_seating_count d) ltac:(lia)) as Hc.
    destruct (sample_spec (Z.to_nat (randint 2 5 (d_seating_count d)))
                seating_options (d_seating d) seating_options_distinct)
      as (-> & _ & _);
      [change (List.length seating_options) with 10%nat; lia|lia].
  - pose proof (randint_range 2 5 (d_seating_count d) ltac:(lia)) as Hc.
    apply sample_spec; [apply seating_options_distinct|].
    change (List.length seating_options) with 10%nat. lia.
  - pose proof (randint_range 2 5 (d_seating_count d) ltac:(lia)) as Hc.
    apply sample_spec; [apply seating_options_distinct|].
    change (List.length seating_options) with 10%nat. lia.
  - apply randint_range. lia.
  - reflexivity.
Qed.

End Bootstrap.

(** X26.  What [create_database] leaves in the catalog file.  A file that
    exists is not touched.  Otherwise, whatever the random draws, the new
    catalog holds twenty restaurants with the ids 1 to 20 in order and the
    twenty names of the list, each without reservations, with a cuisine, a
    location and a price range of the lists, a rating from 3.5 to 4.9, a
    capacity from 20 to 200 and two to five distinct seating arrangements
    of the list. *)
Theorem create_database_well_formed :
  forall (rt : runtime) (random : nat -> draws),
    (forall existing, create_database rt (Some existing) random = existing) /\
    let db := create_database rt None random in
    map r_id db = map Z.of_nat (seq 1 20) /\
    map r_name db = names /\
    Forall generated db.
Proof.
  intros rt random. split; [reflexivity|]. cbv zeta.
  split; [reflexivity|]. split; [reflexivity|].
  unfold create_database. apply Forall_map, Forall_forall.
  intros i _. apply generate_restaurant_generated.
Qed.
Section FreshCatalog.

Variable rt : runtime.

(** The transaction on a catalog whose ids count up from [start] and whose
    restaurants have no reservations. *)
Lemma add_reservation_loop_numbered rid name dt ps :
  forall (l : catalog) (start : nat),
    map r_id l = map Z.of_nat (seq start (List.length l)) ->
    Forall (fun r => r_reservations r = []) l ->
    match add_reservation_loop rt l (JInt rid) name (Some dt) ps with
    | Added res rs' =>
        Z.of_nat start <= rid < Z.of_nat start + Z.of_nat (List.length l) /\
        res = mk_reservation 1 name (strftime rt "%Y-%m-%d %H:%M" dt) ps
                "confirmed"
    | NotFound =>
        rid < Z.of_nat start \/
        Z.of_nat start + Z.of_nat (List.length l) <= rid
    | AddRaised => False
    end.
Proof.
  induction l as [|r l IH]; intros start Hid He.
  - simpl. lia.
  - cbn [List.length seq map] in Hid. injection Hid as Hr Hid.
    inversion He as [|? ? Hr0 He0]; subst.
    cbn [add_reservation_loop py_eq_int]. rewrite Hr.
    destruct (Z.eqb_spec (Z.of_nat start) rid) as [E|E].
    + rewrite Hr0. cbn [List.length Z.of_nat Z.add]. split; [lia|reflexivity].
    + specialize (IH (S start) Hid He0).
      destruct (add_reservation_loop rt l (JInt rid) name (Some dt) ps);
        cbn [List.length]; [split; [lia|apply IH]|exact IH|lia].
Qed.

End FreshCatalog.

(** X27.  On a catalog that [create_database] has just written, the
    transaction finds exactly the ids 1 to 20: for such an id it adds the
    restaurant's first reservation, numbered 1 and marked confirmed, and the
    catalog then holds one reservation; for any other integer it finds no
    restaurant and returns its failure. *)
Theorem fresh_database_bookable :
  forall (rt : runtime) (random : nat -> draws) (restaurant_id : Z)
         (name : option string) (datetime_obj : datetime)
         (party_size : option Z),
    let db := create_database rt None random in
    let outcome :=
      add_reservation_loop rt db (JInt restaurant_id) name
        (Some datetime_obj) party_size in
    if (1 <=? restaurant_id) && (restaurant_id <=? 20) then
      exists rs',
        outcome
        = Added (mk_reservation 1 name
                   (strftime rt "%Y-%m-%d %H:%M" datetime_obj) party_size
                   "confirmed") rs' /\
        reservation_count rs' = 1%nat
    else outcome = NotFound.
Proof.
  intros rt random rid name dt ps. cbv zeta.
  pose proof (add_reservation_loop_numbered rt rid name dt ps
                (create_database rt None random) 1 eq_refl) as H.
  assert (He : Forall (fun r => r_reservations r = [])
                 (create_database rt None random)).
  { unfold create_database. apply Forall_map, Forall_forall.
    intros i _. reflexivity. }
  specialize (H He).
  assert (Hc : reservation_count (create_database rt None random) = 0%nat)
    by reflexivity.
  change (List.length (create_database rt None random)) with 20%nat in H.
  destruct (add_reservation_loop rt (create_database rt None random)
              (JInt rid) name (Some dt) ps) as [res rs'| |] eqn:E.
  - destruct H as [Hr ->].
    replace ((1 <=? rid) && (rid <=? 20)) with true
      by (symmetry; apply andb_true_iff; split; apply Z.leb_le; lia).
    exists rs'. split; [reflexivity|].
    destruct (add_reservation_loop_grows rt _ _ _ _ _ _ _ E) as [_ ->].
    now rewrite Hc.
  - contradiction.
  - replace ((1 <=? rid) && (rid <=? 20)) with false; [reflexivity|].
    symmetry. apply andb_false_iff.
    destruct H; [left|right]; apply Z.leb_gt; lia.
Qed.
Section Dialogue.

Variable rt : runtime.
Variable llm : oracle.

Lemma parse_date_time_reads text dt w :
  reads_date rt llm text dt ->
  exists msg,
    parse_date_time rt llm text w
    = Ok (Some dt, msg) (asked w (AskDateTime text)).
Proof.
  intros H. destruct (H (log w)) as (parsed & Hd & Gd & Gt & Hs).
  unfold parse_date_time, bind, get_llm_response, ret, asked.
  unfold decoded_reply in Hd.
  destruct (search_json_object _) as [json_str|]; [|discriminate].
  rewrite Hd, Gd, Gt. cbn [andb]. rewrite Hs.
  destruct (negb _); eexists; reflexivity.
Qed.

Lemma parse_party_size_reads text n w :
  reads_party_size rt llm text n ->
  parse_party_size rt llm text w
  = Ok (Some n, "") (asked w (AskPartySize text)).
Proof.
  intros H. destruct (H (log w)) as (parsed & Hd & Gp & Hn).
  unfold parse_party_size, bind, get_llm_response, ret, asked.
  unfold decoded_reply in Hd.
  destruct (search_json_object _) as [json_str|]; [|discriminate].
  now rewrite Hd, Gp, Hn.
Qed.

(** The world a processed turn starts [process_state] in, when the session
    has been greeted. *)
Lemma main_processed text w :
  is_new_turn (Some text) w = true ->
  state (session w) <> GREETING ->
  main rt llm (Some text) w
  = match process_state rt llm (recursion_limit rt) text
            (opened text (loaded w)) with
    | Ok response w' => Ok (Replied response) (answered response w')
    | Raise e w' => Raise e w'
    end.
Proof.
  intros Hn Hs. rewrite main_unfold, Hn.
  now rewrite greeted_same by exact Hs.
Qed.

Hypothesis limit : (0 < recursion_limit rt)%nat.

Ltac one_pass_turn Hn :=
  rewrite main_processed by (try exact Hn; cbn; discriminate);
  destruct (recursion_limit rt) as [|depth]; [lia|];
  rewrite process_state_S;
  unfold process_state_pass, bind at 1 2, get_session at 1, emit at 1;
  cbn [session state restaurants db_file log loaded opened set_chat_history
       set_last_processed_input].

Lemma make_reservation_turn text ch cid ri fr lp rs db lg :
  let w := mk_world (mk_session MAKE_RESERVATION ch cid ri fr lp) rs db lg in
  is_new_turn (Some text) w = true ->
  exists ch' lg',
    world_of (main rt llm (Some text) w)
    = mk_world (mk_session NAME_PROMPT ch' cid ri fr (Some text)) db db lg'.
Proof.
  cbv zeta. intros Hn. one_pass_turn Hn. eexists _, _. reflexivity.
Qed.

Lemma name_turn text ch cid ri fr lp rs db lg :
  let w := mk_world (mk_session NAME_PROMPT ch cid ri fr lp) rs db lg in
  is_new_turn (Some text) w = true ->
  exists ch' lg',
    world_of (main rt llm (Some text) w)
    = mk_world (mk_session DATETIME_PROMPT ch' cid
                  (set_ri_name (Some text) ri) fr (Some text)) db db lg'.
Proof.
  cbv zeta. intros Hn. one_pass_turn Hn.
  unfold bind, update_session, ret. cbn.
  eexists _, _. reflexivity.
Qed.

Lemma datetime_turn text dt ch cid ri fr lp rs db lg :
  let w := mk_world (mk_session DATETIME_PROMPT ch cid ri fr lp) rs db lg in
  is_new_turn (Some text) w = true ->
  reads_date rt llm text dt ->
  exists ch' lg',
    world_of (main rt llm (Some text) w)
    = mk_world (mk_session PARTY_PROMPT ch' cid
                  (set_ri_datetime (Some dt) ri) fr (Some text)) db db lg'.
Proof.
  cbv zeta. intros Hn Hd. one_pass_turn Hn.
  unfold bind at 1.
  match goal with
  | |- context [parse_date_time rt llm text ?w0] =>
      destruct (parse_date_time_reads text dt w0 Hd) as [msg ->]
  end.
  unfold bind, update_session, ret, asked. cbn.
  eexists _, _. reflexivity.
Qed.

Lemma party_turn text n dt ch cid name ps fr lp rs db lg :
  let ri := mk_reservation_info name (Some dt) ps in
  let w := mk_world (mk_session PARTY_PROMPT ch cid ri fr lp) rs db lg in
  is_new_turn (Some text) w = true ->
  reads_party_size rt llm text n -> n <> 0 ->
  exists ch' lg',
    world_of (main rt llm (Some text) w)
    = mk_world (mk_session CONFIRM_RESERVATION ch' cid
                  (set_ri_party_size (Some n) ri) fr (Some text)) db db lg'.
Proof.
  cbv zeta. intros Hn Hp Hz. one_pass_turn Hn.
  unfold bind at 1. rewrite (parse_party_size_reads text n _ Hp).
  apply Z.eqb_neq in Hz. rewrite Hz.
  unfold bind, update_session, get_restaurants, get_session, ret, asked. cbn.
  eexists _, _. reflexivity.
Qed.

Lemma confirm_turn text ch cid ri fr lp rs db lg :
  let w := mk_world (mk_session CONFIRM_RESERVATION ch cid ri fr lp) rs db lg in
  is_new_turn (Some text) w = true ->
  confirms rt text = true ->
  exists ch' lg',
    world_of (main rt llm (Some text) w)
    = mk_world (mk_session RESERVATION_CONFIRMED ch' cid ri fr (Some text))
        db db lg'.
Proof.
  cbv zeta. intros Hn Hc. one_pass_turn Hn.
  unfold confirms in Hc. rewrite Hc. unfold ret. cbn.
  eexists _, _. reflexivity.
Qed.

End Dialogue.

(** X28.  The booking dialogue end to end.  From the Make-Reservation
    state, six processed turns (any text, the name, a text the model reads
    as a date, a text it reads as a party size other than 0, a text that
    confirms, any text) run the transaction with exactly what was entered:
    the name as typed at the Name prompt, the date and the party size as
    extracted, and the restaurant matched before, whatever the draft held
    earlier.  If the catalog has the matched restaurant the reservation is
    in the file and the session is in Reservation-Success; if not, the file
    is unchanged and the session is in Error-Handling.  The dialogue does
    not raise. *)
Theorem booking_dialogue_commits :
  forall (rt : runtime) (llm : oracle) (w : world)
         (t1 name t3 t4 t5 t6 : string) (dt : datetime) (n : Z),
    state (session w) = MAKE_RESERVATION ->
    new_turns (last_processed_input (session w)) [t1; name; t3; t4; t5; t6]
    = true ->
    (0 < recursion_limit rt)%nat ->
    reads_date rt llm t3 dt ->
    reads_party_size rt llm t4 n ->
    n <> 0 ->
    confirms rt t5 = true ->
    let w' := run_turns rt llm [t1; name; t3; t4; t5; t6] w in
    match add_reservation_loop rt (db_file w)
            (current_restaurant_id (session w)) (Some name) (Some dt)
            (Some n) with
    | Added res rs' =>
        state (session w') = RESERVATION_SUCCESS /\ db_file w' = rs'
    | NotFound =>
        state (session w') = ERROR_HANDLING /\ db_file w' = db_file w
    | AddRaised => False
    end.
Proof.
  intros rt llm w t1 name t3 t4 t5 t6 dt n Hs Hn Hl Hd Hp Hz Hc. cbv zeta.
  destruct w as [[st ch cid [nm0 dt0 ps0] fr lp] rs db lg].
  cbn [session state] in Hs. subst st.
  cbn [session last_processed_input new_turns] in Hn.
  repeat match type of Hn with
         | _ && _ = true => apply andb_true_iff in Hn; destruct Hn as [? Hn]
         end.
  cbn [run_turns session state db_file current_restaurant_id].
  destruct (make_reservation_turn rt llm Hl t1 ch cid
              (mk_reservation_info nm0 dt0 ps0) fr lp rs db lg)
    as (ch1 & lg1 & ->); [assumption|].
  destruct (name_turn rt llm Hl name ch1 cid
              (mk_reservation_info nm0 dt0 ps0) fr (Some t1) db db lg1)
    as (ch2 & lg2 & ->); [assumption|].
  destruct (datetime_turn rt llm Hl t3 dt ch2 cid
              (set_ri_name (Some name) (mk_reservation_info nm0 dt0 ps0))
              fr (Some name) db db lg2)
    as (ch3 & lg3 & ->); [assumption|exact Hd|].
  unfold set_ri_datetime, set_ri_name.
  cbn [ri_name ri_datetime ri_party_size].
  destruct (party_turn rt llm Hl t4 n dt ch3 cid (Some name) ps0 fr (Some t3)
              db db lg3)
    as (ch4 & lg4 & ->); [assumption|exact Hp|exact Hz|].
  unfold set_ri_party_size. cbn [ri_name ri_datetime ri_party_size].
  destruct (confirm_turn rt llm Hl t5 ch4 cid
              (mk_reservation_info (Some name) (Some dt) (Some n)) fr
              (Some t4) db db lg4)
    as (ch5 & lg5 & ->); [assumption|exact Hc|].
  set (w5 := mk_world
               (mk_session RESERVATION_CONFIRMED ch5 cid
                  (mk_reservation_info (Some name) (Some dt) (Some n)) fr
                  (Some t5)) db db lg5).
  assert (H5 : is_new_turn (Some t6) w5 = true) by assumption.
  destruct (confirmed_turn rt llm t6 w5 eq_refl H5 Hl) as (_ & _ & Hf).
  cbn [w5 session current_restaurant_id reservation_info ri_name ri_datetime
       ri_party_size db_file] in Hf.
  pose proof (add_reservation_loop_with_datetime rt db cid (Some name) dt
                (Some n)) as Hr.
  destruct (add_reservation_loop rt db cid (Some name) (Some dt) (Some n))
    as [res rs'| |].
  - destruct Hf as (F1 & F2 & _). split; assumption.
  - now contradiction Hr.
  - destruct Hf as (F1 & F2 & _). split; assumption.
Qed.

Lemma booking_dialogue_commits_witness :
  let w := run_turns cpython scripted (firstn 3 booking_conversation)
             (initial_world sample_catalog) in
  let w' := run_turns cpython scripted
              ["ok"; "Asha"; "Saturday at 7:30 pm"; "four of us"; "yes";
               "go ahead"] w in
  state (session w) = MAKE_RESERVATION /\
  state (session w') = RESERVATION_SUCCESS /\
  map (fun r => map res_name (r_reservations r)) (db_file w')
  = [[Some "Asha"]; []].
Proof.
  cbv zeta.
  set (w := run_turns cpython scripted (firstn 3 booking_conversation)
              (initial_world sample_catalog)).
  assert (Hs : state (session w) = MAKE_RESERVATION)
    by (vm_compute; reflexivity).
  assert (Hn : new_turns (last_processed_input (session w))
                 ["ok"; "Asha"; "Saturday at 7:30 pm"; "four of us"; "yes";
                  "go ahead"] = true) by (vm_compute; reflexivity).
  assert (Hl : (0 < recursion_limit cpython)%nat) by (vm_compute; lia).
  assert (Hd : reads_date cpython scripted "Saturday at 7:30 pm"
                 sample_datetime).
  { intros h. eexists. split; [vm_compute; reflexivity|].
    repeat split; vm_compute; reflexivity. }
  assert (Hp : reads_party_size cpython scripted "four of us" 4).
  { intros h. eexists. split; [vm_compute; reflexivity|].
    split; vm_compute; reflexivity. }
  assert (Hz : 4 <> 0) by lia.
  assert (Hc : confirms cpython "yes" = true) by (vm_compute; reflexivity).
  pose proof (booking_dialogue_commits cpython scripted w "ok" "Asha"
                "Saturday at 7:30 pm" "four of us" "yes" "go ahead"
                sample_datetime 4 Hs Hn Hl Hd Hp Hz Hc) as H.
  cbv zeta in H.
  assert (Ha : add_reservation_loop cpython (db_file w)
                 (current_restaurant_id (session w)) (Some "Asha")
                 (Some sample_datetime) (Some 4)
               = Added (mk_reservation 1 (Some "Asha") "2025-06-14 19:30"
                          (Some 4) "confirmed")
                   [with_reservations spice_garden
                      [mk_reservation 1 (Some "Asha") "2025-06-14 19:30"
                         (Some 4) "confirmed"];
                    bengaluru_bytes]) by (vm_compute; reflexivity).
  rewrite Ha in H. destruct H as [H1 H2].
  split; [exact Hs|]. split; [exact H1|]. rewrite H2. reflexivity.
Defined.
Section Exceptions.

Variable rt : runtime.
Variable llm : oracle.

(** In a session that keeps the invariant a pass raises only in the
    Find-Restaurant and Restaurant-Suggestion states. *)
Lemma raising_pass ui w :
  session_invariant w ->
  match process_state_pass rt llm ui w with
  | Ok _ _ => True
  | Raise e w' =>
      e <> RecursionError /\
      (state (session w') = FIND_RESTAURANT \/
       state (session w') = RESTAURANT_SUGGESTION)
  end.
Proof.
  intros [_ _ H3 _ _ _ _ _].
  pass_cases w; simpl in H3 |- *; auto; try (split; [discriminate|auto]).
  all: specialize (H3 eq_refl); try discriminate.
  all: match goal with
       | H : is_some ?x = true,
         L : add_reservation_loop _ _ _ _ ?x _ = AddRaised |- _ =>
           destruct x;
           [now apply add_reservation_loop_with_datetime in L|discriminate H]
       end.
Qed.

Lemma raising_process_state ui d :
  forall w,
    session_invariant w ->
    match process_state rt llm d ui w with
    | Ok _ _ => True
    | Raise e w' =>
        e = RecursionError \/
        (state (session w') = FIND_RESTAURANT \/
         state (session w') = RESTAURANT_SUGGESTION)
    end.
Proof.
  induction d as [|d IH]; intros w Hi; [left; reflexivity|].
  rewrite process_state_S.
  pose proof (raising_pass ui w Hi) as Hr.
  pose proof (pass_invariant rt llm ui w Hi) as Hp.
  destruct (process_state_pass rt llm ui w) as [out w'|e w'].
  - destruct (recurses (state (session w)) out); [|exact I].
    now apply IH.
  - right. apply Hr.
Qed.

End Exceptions.

(** X29.  Where exceptions come from.  When a run of the script in a
    reachable session ends in an exception, the exception is
    [RecursionError], or it was raised by the pass of the Find-Restaurant or
    the Restaurant-Suggestion state, and the session is left in that state:
    the next turn is dispatched there again.  No other state's pass raises,
    whatever the model answers. *)
Theorem exceptions_leave_search_states :
  forall (rt : runtime) (llm : oracle) (user_input : option string)
         (w w' : world) (e : exn),
    reachable rt llm w ->
    main rt llm user_input w = Raise e w' ->
    e = RecursionError \/
    (state (session w') = FIND_RESTAURANT \/
     state (session w') = RESTAURANT_SUGGESTION).
Proof.
  intros rt llm user_input w w' e Hr H.
  pose proof (reachable_invariant rt llm w Hr) as Hi.
  rewrite main_unfold in H.
  destruct (is_new_turn user_input w); [|discriminate H].
  destruct user_input as [text|]; [|discriminate H].
  assert (Ho : session_invariant (opened text (greeted (loaded w)))).
  { apply (session_invariant_ext (greeted (loaded w))); auto.
    apply greeted_invariant. apply (session_invariant_ext w); auto. }
  pose proof (raising_process_state rt llm text (recursion_limit rt) _ Ho)
    as Hp.
  destruct (process_state rt llm (recursion_limit rt) text _) as [r w1|e1 w1];
    [discriminate H|].
  injection H as <- <-. exact Hp.
Qed.

Lemma exceptions_leave_search_states_witness :
  let w := run_turns cpython scripted ["find italian food"]
             (initial_world sample_catalog) in
  let w' := world_of (main cpython scripted (Some "book the new place") w) in
  reachable cpython scripted w /\
  main cpython scripted (Some "book the new place") w = Raise TypeError w' /\
  state (session w') = RESTAURANT_SUGGESTION.
Proof.
  cbv zeta.
  assert (Hr : reachable cpython scripted
                 (run_turns cpython scripted ["find italian food"]
                    (initial_world sample_catalog)))
    by apply run_turns_reachable, reach_start.
  assert (H : main cpython scripted (Some "book the new place")
                (run_turns cpython scripted ["find italian food"]
                   (initial_world sample_catalog))
              = Raise TypeError
                  (world_of
                     (main cpython scripted (Some "book the new place")
                        (run_turns cpython scripted ["find italian food"]
                           (initial_world sample_catalog)))))
    by (vm_compute; reflexivity).
  split; [exact Hr|]. split; [exact H|].
  destruct (exceptions_leave_search_states cpython _ _ _ _ _ Hr H)
    as [E|[E|E]]; [discriminate E| |exact E].
  vm_compute in E. discriminate E.
Defined.

(** X30.  The DateTime-Prompt state does not show the extractor's message
    when a timestamp comes with it: the reply is built anew from what
    [strftime] prints for the timestamp, day name included, so the
    confirmation string with the computed weekday name that the extractor
    returns on a disagreement does not reach the user.  The timestamp is
    stored in the draft and the session moves to Party-Prompt. *)
Theorem datetime_reply_drops_message :
  forall (rt : runtime) (llm : oracle) (depth : nat) (user_input : string)
         (w w1 : world) (dt : datetime) (msg : string),
    state (session w) = DATETIME_PROMPT ->
    parse_date_time rt llm user_input (dispatched w) = Ok (Some dt, msg) w1 ->
    exists w',
      process_state rt llm (S depth) user_input w
      = Ok ("Got it! Reservation for "
            ++ strftime rt "%A, %B %d at %I:%M %p" dt
            ++ ". How many people will be in your party?") w' /\
      state (session w') = PARTY_PROMPT /\
      ri_datetime (reservation_info (session w')) = Some dt.
Proof.
  intros rt llm depth ui w w1 dt msg Hs Hp.
  rewrite process_state_S.
  destruct w as [[st ch cid ri fr lp] rs db lg]. cbn [session state] in Hs.
  subst st. unfold dispatched in Hp.
  cbn [session state restaurants db_file log] in Hp.
  unfold process_state_pass, bind at 1 2, get_session at 1, emit at 1.
  cbn [session state restaurants db_file log].
  unfold bind at 1. rewrite Hp.
  unfold bind, update_session, ret. cbn. eexists. repeat split.
Qed.

Lemma datetime_reply_drops_message_witness :
  let w := with_state DATETIME_PROMPT sample_world in
  parse_date_time dutch (always reply_wrong_weekday) "Saturday at 7:30 pm"
    (dispatched w)
  = Ok (Some sample_datetime,
        "Got it! Reservation for Saturday, June 14 at 07:30 PM.")
      (asked (dispatched w) (AskDateTime "Saturday at 7:30 pm")) /\
  exists w',
    process_state dutch (always reply_wrong_weekday) 1 "Saturday at 7:30 pm" w
    = Ok "Got it! Reservation for zaterdag, June 14 at 07:30 PM. How many people will be in your party?"
        w'.
Proof.
  cbv zeta.
  assert (Hs : state (session (with_state DATETIME_PROMPT sample_world))
               = DATETIME_PROMPT) by reflexivity.
  assert (Hp : parse_date_time dutch (always reply_wrong_weekday)
                 "Saturday at 7:30 pm"
                 (dispatched (with_state DATETIME_PROMPT sample_world))
               = Ok (Some sample_datetime,
                     "Got it! Reservation for Saturday, June 14 at 07:30 PM.")
                   (asked (dispatched (with_state DATETIME_PROMPT sample_world))
                      (AskDateTime "Saturday at 7:30 pm")))
    by (vm_compute; reflexivity).
  split; [exact Hp|].
  destruct (datetime_reply_drops_message dutch (always reply_wrong_weekday) 0
              "Saturday at 7:30 pm" _ _ _ _ Hs Hp) as (w' & H & _).
  exists w'. exact H.
Defined.
